(** * The cluster metadata catalog (package meta, data.go)

    A shallow embedding of the catalog state [Data] and of the operations
    that mutate it, followed by the properties of those operations.
    The path helpers of package fileops (file_ops.go) are in [FileOps].

    Conventions.
    - Unsigned machine integers are [Z] with the wrap-around written out
      ([incr64] is Go's [x++] on a uint64); Go [int] values are [Z].
    - A [time.Time] is the number of nanoseconds since the Unix epoch.
    - Go maps are [gmap]s.  The two maps of [Data] that the code tests
      against [nil] before writing ([PtView], [ReplicaGroups]) are
      [option]s of a map, [None] being the nil map.
    - A method that mutates [data] is a computation in the monad [M]:
      it threads the catalog and yields [None] where Go would panic
      (index out of range, write to a nil map, failed assert).
    - Go [error] results are [option error], [None] being [nil].
    - Pointers into the catalog ([rp], [msti], [dn]) are modelled by
      reading the object, transforming it and storing it back under the
      key it was read from. *)

From Stdlib Require Import ZArith Lia Ascii.
From stdpp Require Import base option list gmap strings sorting pretty.

Local Open Scope Z_scope.

Module Meta.

(** ** Machine arithmetic *)

Definition wrap64 (z : Z) : Z := z mod 2 ^ 64.
Definition wrap32 (z : Z) : Z := z mod 2 ^ 32.
Definition incr64 (z : Z) : Z := wrap64 (z + 1).
Definition incr32 (z : Z) : Z := wrap32 (z + 1).

(** Two's complement wrap of an int64 result. *)
Definition wrap_i64 (z : Z) : Z := (z + 2 ^ 63) mod 2 ^ 64 - 2 ^ 63.

(** ** Time *)

(** [time.Time{}], January 1 of year 1, as Unix nanoseconds. *)
Definition zero_time : Z := - (62135596800 * 1000000000).

Definition IsZero (t : Z) : bool := bool_decide (t = zero_time).

(** [t.Truncate(d)]: round down to a multiple of [d] counted from the
    zero time; [d <= 0] leaves [t] unchanged. *)
Definition Truncate (t d : Z) : Z :=
  if decide (d <= 0) then t else t - (t - zero_time) mod d.

(** Modelled from the spec: [models.MaxNanoTime], the largest timestamp;
    a shard group that would end later ends at [MaxNanoTime + 1]. *)
Definition MaxNanoTime : Z := 2 ^ 63 - 2.

(** ** Enumerations *)

Inductive PtStatus := Offline | Online.
Inductive Role := Master | Slave.
Inductive RGStatus := Health | SubHealth | UnHealth.

(** Modelled from the spec: [config.EngineType], row-oriented first, so
    that the zero value of the field is [TSSTORE]. *)
Inductive EngineType := TSSTORE | COLUMNSTORE.

(** [config.HAPolicy], read through [config.GetHaPolicy()]. *)
Inductive HAPolicy := WriteAvailableFirst | SharedStorage | Replication.

#[global] Instance PtStatus_eq_dec : EqDecision PtStatus.
Proof. solve_decision. Defined.
#[global] Instance Role_eq_dec : EqDecision Role.
Proof. solve_decision. Defined.
#[global] Instance RGStatus_eq_dec : EqDecision RGStatus.
Proof. solve_decision. Defined.
#[global] Instance EngineType_eq_dec : EqDecision EngineType.
Proof. solve_decision. Defined.
#[global] Instance HAPolicy_eq_dec : EqDecision HAPolicy.
Proof. solve_decision. Defined.

(** [serf.StatusAlive] and the segregation status [Normal]. *)
Definition StatusAlive : Z := 1.
Definition Normal : Z := 0.

Definition HASH : string := "hash".
Definition RANGE : string := "range".
Definition NodeReader : string := "reader".

(** Modelled from the spec: [IsNodeWriter], a data node takes part in pt
    placement unless its role is reader. *)
Definition IsNodeWriter (role : string) : bool := bool_decide (role ≠ NodeReader).

(** Option, relation and column-store messages are stored and compared,
    never inspected, by the operations below. *)
Definition opaque : Type := string.

(** ** Errors *)

Inductive error :=
  | ErrDatabaseNameRequired
  | ErrStorageNodeNotReady
  | ErrDatabaseExists
  | ErrDatabaseBeingDeleted (name : string)
  | ErrnoDatabaseNotFound (name : string)
  | ErrnoDatabaseIsBeingDelete (name : string)
  | ErrRetentionPolicyNotFound (name : string)
  | ErrnoRpIsBeingDelete
  | ErrRetentionPolicyRequired
  | ErrRetentionPolicyNameRequired
  | ErrReplicationFactorTooLow
  | ErrReplicaNConflict
  | ErrRetentionPolicyConflict
  | ErrRetentionPolicyExists
  | ErrSpecInvalid (why : string)
  | ErrMeasurementNotFound
  | ErrMeasurementExists
  | ErrShardingTypeNotEqual
  | ErrnoConflictWithRep
  | ErrFieldTypeConflict
  | ErrNoMeasurement (db rp : string)
  | ErrShardGroupNotFound
  | ErrShardGroupAlreadyReSharding (id : Z)
  | ErrnoDataNodeNotFound (id : Z)
  | ErrnoDataNoAlive
  | ErrnoOlderEvent
  | ErrnoDataNodeSplitBrain
  | ErrnoReplicaNodeNumIncorrect (nodeNum replicaN : Z)
  | ErrUsernameRequired
  | ErrUserExists
  | ErrUserForbidden
  | ErrUserDropSelf
  | ErrUserNotFound
  | ErrPwdUsed
  | ErrGrantOrRevokeAdmin
  | ErrDropStreamFirst
  | ErrnoConflictWithEvent.

#[global] Instance error_eq_dec : EqDecision error.
Proof. solve_decision. Defined.

(** ** The data model *)

Record NodeInfo : Type := Build_NodeInfo {
  ni_ID : Z;
  ni_Host : string;
  ni_RPCAddr : string;
  ni_TCPHost : string
}.

(** A [DataNode] embeds a [NodeInfo]; the fields are flattened here. *)
Record DataNode : Type := Build_DataNode {
  dn_ID : Z;
  dn_Host : string;
  dn_RPCAddr : string;
  dn_TCPHost : string;
  dn_Status : Z;
  dn_LTime : Z;
  dn_GossipAddr : string;
  dn_SegregateStatus : Z;
  dn_Role : string;
  dn_ConnID : Z;
  dn_AliveConnID : Z
}.

Record PtInfo : Type := Build_PtInfo {
  pt_OwnerNodeID : Z;
  pt_Status : PtStatus;
  pt_PtId : Z;
  pt_Ver : Z;
  pt_RGID : Z
}.

Record Peer : Type := Build_Peer {
  peer_ID : Z;
  peer_PtRole : Role
}.

Record ReplicaGroup : Type := Build_ReplicaGroup {
  rg_ID : Z;
  rg_MasterPtID : Z;
  rg_Peers : list Peer;
  rg_Status : RGStatus;
  rg_Term : Z
}.

Record ShardInfo : Type := Build_ShardInfo {
  sh_ID : Z;
  sh_Owners : list Z;
  sh_Min : string;
  sh_Max : string;
  sh_Tier : Z;
  sh_IndexID : Z;
  sh_DownSampleID : Z;
  sh_DownSampleLevel : Z;
  sh_ReadOnly : bool;
  sh_MarkDelete : bool
}.

Record ShardGroupInfo : Type := Build_ShardGroupInfo {
  sg_ID : Z;
  sg_StartTime : Z;
  sg_EndTime : Z;
  sg_DeletedAt : Z;
  sg_Shards : list ShardInfo;
  sg_EngineType : EngineType;
  sg_Version : Z
}.

Record IndexInfo : Type := Build_IndexInfo {
  ix_ID : Z;
  ix_Owners : list Z;
  ix_MarkDelete : bool
}.

Record IndexGroupInfo : Type := Build_IndexGroupInfo {
  ig_ID : Z;
  ig_StartTime : Z;
  ig_EndTime : Z;
  ig_Indexes : list IndexInfo;
  ig_DeletedAt : Z;
  ig_EngineType : EngineType
}.

Record ShardKeyInfo : Type := Build_ShardKeyInfo {
  sk_ShardKey : list string;
  sk_Type : string;
  sk_ShardGroup : Z
}.

Record MeasurementVer : Type := Build_MeasurementVer {
  mv_NameWithVersion : string;
  mv_Version : Z
}.

Record MeasurementInfo : Type := Build_MeasurementInfo {
  mst_Name : string;
  mst_originName : string;
  mst_ShardKeys : list ShardKeyInfo;
  mst_Schema : gmap string Z;
  mst_IndexRelation : option opaque;
  mst_ColStoreInfo : option opaque;
  mst_MarkDeleted : bool;
  mst_EngineType : EngineType;
  mst_Options : option opaque;
  mst_ObsOptions : option opaque
}.

Record RetentionPolicyInfo : Type := Build_RetentionPolicyInfo {
  rp_Name : string;
  rp_ReplicaN : Z;
  rp_Duration : Z;
  rp_ShardGroupDuration : Z;
  rp_HotDuration : Z;
  rp_WarmDuration : Z;
  rp_IndexGroupDuration : Z;
  rp_IndexGroups : list IndexGroupInfo;
  rp_Measurements : gmap string MeasurementInfo;
  rp_MstVersions : gmap string MeasurementVer;
  rp_ShardGroups : list ShardGroupInfo;
  rp_Subscriptions : list opaque;
  rp_DownSamplePolicyInfo : option opaque;
  rp_MarkDeleted : bool
}.

Record DatabaseInfo : Type := Build_DatabaseInfo {
  db_Name : string;
  db_DefaultRetentionPolicy : string;
  db_RetentionPolicies : gmap string RetentionPolicyInfo;
  db_MarkDeleted : bool;
  db_ShardKey : ShardKeyInfo;
  db_EnableTagArray : bool;
  db_ReplicaN : Z;
  db_Options : option opaque
}.

Record UserInfo : Type := Build_UserInfo {
  ui_Name : string;
  ui_Hash : string;
  ui_Admin : bool;
  ui_Rwuser : bool;
  ui_Privileges : gmap string Z
}.

(** A stream, as far as the catalog inspects it: its name and the
    source and destination measurements. *)
Record StreamMeasurementInfo : Type := Build_StreamMeasurementInfo {
  smi_Name : string;
  smi_Database : string;
  smi_RetentionPolicy : string
}.

Record StreamInfo : Type := Build_StreamInfo {
  st_Name : string;
  st_ID : Z;
  st_SrcMst : StreamMeasurementInfo;
  st_DesMst : StreamMeasurementInfo
}.

Record Data : Type := Build_Data {
  Term : Z;
  Index : Z;
  ClusterID : Z;
  ClusterPtNum : Z;
  PtNumPerNode : Z;
  MetaNodes : list NodeInfo;
  DataNodes : list DataNode;
  PtView : option (gmap string (list PtInfo));
  ReplicaGroups : option (gmap string (list ReplicaGroup));
  Databases : gmap string DatabaseInfo;
  Streams : gmap string StreamInfo;
  Users : list UserInfo;
  MigrateEvents : gmap string opaque;
  QueryIDInit : gmap string Z;
  AdminUserExists : bool;
  TakeOverEnabled : bool;
  BalancerEnabled : bool;
  ExpandShardsEnable : bool;
  MaxNodeID : Z;
  MaxShardGroupID : Z;
  MaxShardID : Z;
  MaxIndexGroupID : Z;
  MaxIndexID : Z;
  MaxEventOpId : Z;
  MaxDownSampleID : Z;
  MaxStreamID : Z;
  MaxConnID : Z;
  MaxSubscriptionID : Z;
  MaxCQChangeID : Z
}.

(** ** Field updates *)

Definition set_dn_ConnID (v : Z) (x : DataNode) : DataNode :=
  {| dn_ID := dn_ID x; dn_Host := dn_Host x; dn_RPCAddr := dn_RPCAddr x; dn_TCPHost := dn_TCPHost x; dn_Status := dn_Status x; dn_LTime := dn_LTime x; dn_GossipAddr := dn_GossipAddr x; dn_SegregateStatus := dn_SegregateStatus x; dn_Role := dn_Role x; dn_ConnID := v; dn_AliveConnID := dn_AliveConnID x |}.
Definition set_dn_Status (v : Z) (x : DataNode) : DataNode :=
  {| dn_ID := dn_ID x; dn_Host := dn_Host x; dn_RPCAddr := dn_RPCAddr x; dn_TCPHost := dn_TCPHost x; dn_Status := v; dn_LTime := dn_LTime x; dn_GossipAddr := dn_GossipAddr x; dn_SegregateStatus := dn_SegregateStatus x; dn_Role := dn_Role x; dn_ConnID := dn_ConnID x; dn_AliveConnID := dn_AliveConnID x |}.
Definition set_dn_LTime (v : Z) (x : DataNode) : DataNode :=
  {| dn_ID := dn_ID x; dn_Host := dn_Host x; dn_RPCAddr := dn_RPCAddr x; dn_TCPHost := dn_TCPHost x; dn_Status := dn_Status x; dn_LTime := v; dn_GossipAddr := dn_GossipAddr x; dn_SegregateStatus := dn_SegregateStatus x; dn_Role := dn_Role x; dn_ConnID := dn_ConnID x; dn_AliveConnID := dn_AliveConnID x |}.
Definition set_dn_AliveConnID (v : Z) (x : DataNode) : DataNode :=
  {| dn_ID := dn_ID x; dn_Host := dn_Host x; dn_RPCAddr := dn_RPCAddr x; dn_TCPHost := dn_TCPHost x; dn_Status := dn_Status x; dn_LTime := dn_LTime x; dn_GossipAddr := dn_GossipAddr x; dn_SegregateStatus := dn_SegregateStatus x; dn_Role := dn_Role x; dn_ConnID := dn_ConnID x; dn_AliveConnID := v |}.
Definition set_dn_GossipAddr (v : string) (x : DataNode) : DataNode :=
  {| dn_ID := dn_ID x; dn_Host := dn_Host x; dn_RPCAddr := dn_RPCAddr x; dn_TCPHost := dn_TCPHost x; dn_Status := dn_Status x; dn_LTime := dn_LTime x; dn_GossipAddr := v; dn_SegregateStatus := dn_SegregateStatus x; dn_Role := dn_Role x; dn_ConnID := dn_ConnID x; dn_AliveConnID := dn_AliveConnID x |}.
Definition set_dn_SegregateStatus (v : Z) (x : DataNode) : DataNode :=
  {| dn_ID := dn_ID x; dn_Host := dn_Host x; dn_RPCAddr := dn_RPCAddr x; dn_TCPHost := dn_TCPHost x; dn_Status := dn_Status x; dn_LTime := dn_LTime x; dn_GossipAddr := dn_GossipAddr x; dn_SegregateStatus := v; dn_Role := dn_Role x; dn_ConnID := dn_ConnID x; dn_AliveConnID := dn_AliveConnID x |}.

Definition set_pt_OwnerNodeID (v : Z) (x : PtInfo) : PtInfo :=
  {| pt_OwnerNodeID := v; pt_Status := pt_Status x; pt_PtId := pt_PtId x; pt_Ver := pt_Ver x; pt_RGID := pt_RGID x |}.
Definition set_pt_Status (v : PtStatus) (x : PtInfo) : PtInfo :=
  {| pt_OwnerNodeID := pt_OwnerNodeID x; pt_Status := v; pt_PtId := pt_PtId x; pt_Ver := pt_Ver x; pt_RGID := pt_RGID x |}.
Definition set_pt_PtId (v : Z) (x : PtInfo) : PtInfo :=
  {| pt_OwnerNodeID := pt_OwnerNodeID x; pt_Status := pt_Status x; pt_PtId := v; pt_Ver := pt_Ver x; pt_RGID := pt_RGID x |}.
Definition set_pt_Ver (v : Z) (x : PtInfo) : PtInfo :=
  {| pt_OwnerNodeID := pt_OwnerNodeID x; pt_Status := pt_Status x; pt_PtId := pt_PtId x; pt_Ver := v; pt_RGID := pt_RGID x |}.
Definition set_pt_RGID (v : Z) (x : PtInfo) : PtInfo :=
  {| pt_OwnerNodeID := pt_OwnerNodeID x; pt_Status := pt_Status x; pt_PtId := pt_PtId x; pt_Ver := pt_Ver x; pt_RGID := v |}.

Definition set_rg_MasterPtID (v : Z) (x : ReplicaGroup) : ReplicaGroup :=
  {| rg_ID := rg_ID x; rg_MasterPtID := v; rg_Peers := rg_Peers x; rg_Status := rg_Status x; rg_Term := rg_Term x |}.
Definition set_rg_Peers (v : list Peer) (x : ReplicaGroup) : ReplicaGroup :=
  {| rg_ID := rg_ID x; rg_MasterPtID := rg_MasterPtID x; rg_Peers := v; rg_Status := rg_Status x; rg_Term := rg_Term x |}.
Definition set_rg_Status (v : RGStatus) (x : ReplicaGroup) : ReplicaGroup :=
  {| rg_ID := rg_ID x; rg_MasterPtID := rg_MasterPtID x; rg_Peers := rg_Peers x; rg_Status := v; rg_Term := rg_Term x |}.

Definition set_sh_Owners (v : list Z) (x : ShardInfo) : ShardInfo :=
  {| sh_ID := sh_ID x; sh_Owners := v; sh_Min := sh_Min x; sh_Max := sh_Max x; sh_Tier := sh_Tier x; sh_IndexID := sh_IndexID x; sh_DownSampleID := sh_DownSampleID x; sh_DownSampleLevel := sh_DownSampleLevel x; sh_ReadOnly := sh_ReadOnly x; sh_MarkDelete := sh_MarkDelete x |}.
Definition set_sh_Min (v : string) (x : ShardInfo) : ShardInfo :=
  {| sh_ID := sh_ID x; sh_Owners := sh_Owners x; sh_Min := v; sh_Max := sh_Max x; sh_Tier := sh_Tier x; sh_IndexID := sh_IndexID x; sh_DownSampleID := sh_DownSampleID x; sh_DownSampleLevel := sh_DownSampleLevel x; sh_ReadOnly := sh_ReadOnly x; sh_MarkDelete := sh_MarkDelete x |}.
Definition set_sh_Max (v : string) (x : ShardInfo) : ShardInfo :=
  {| sh_ID := sh_ID x; sh_Owners := sh_Owners x; sh_Min := sh_Min x; sh_Max := v; sh_Tier := sh_Tier x; sh_IndexID := sh_IndexID x; sh_DownSampleID := sh_DownSampleID x; sh_DownSampleLevel := sh_DownSampleLevel x; sh_ReadOnly := sh_ReadOnly x; sh_MarkDelete := sh_MarkDelete x |}.
Definition set_sh_IndexID (v : Z) (x : ShardInfo) : ShardInfo :=
  {| sh_ID := sh_ID x; sh_Owners := sh_Owners x; sh_Min := sh_Min x; sh_Max := sh_Max x; sh_Tier := sh_Tier x; sh_IndexID := v; sh_DownSampleID := sh_DownSampleID x; sh_DownSampleLevel := sh_DownSampleLevel x; sh_ReadOnly := sh_ReadOnly x; sh_MarkDelete := sh_MarkDelete x |}.
Definition set_sh_MarkDelete (v : bool) (x : ShardInfo) : ShardInfo :=
  {| sh_ID := sh_ID x; sh_Owners := sh_Owners x; sh_Min := sh_Min x; sh_Max := sh_Max x; sh_Tier := sh_Tier x; sh_IndexID := sh_IndexID x; sh_DownSampleID := sh_DownSampleID x; sh_DownSampleLevel := sh_DownSampleLevel x; sh_ReadOnly := sh_ReadOnly x; sh_MarkDelete := v |}.

Definition set_sg_EndTime (v : Z) (x : ShardGroupInfo) : ShardGroupInfo :=
  {| sg_ID := sg_ID x; sg_StartTime := sg_StartTime x; sg_EndTime := v; sg_DeletedAt := sg_DeletedAt x; sg_Shards := sg_Shards x; sg_EngineType := sg_EngineType x; sg_Version := sg_Version x |}.
Definition set_sg_DeletedAt (v : Z) (x : ShardGroupInfo) : ShardGroupInfo :=
  {| sg_ID := sg_ID x; sg_StartTime := sg_StartTime x; sg_EndTime := sg_EndTime x; sg_DeletedAt := v; sg_Shards := sg_Shards x; sg_EngineType := sg_EngineType x; sg_Version := sg_Version x |}.
Definition set_sg_Shards (v : list ShardInfo) (x : ShardGroupInfo) : ShardGroupInfo :=
  {| sg_ID := sg_ID x; sg_StartTime := sg_StartTime x; sg_EndTime := sg_EndTime x; sg_DeletedAt := sg_DeletedAt x; sg_Shards := v; sg_EngineType := sg_EngineType x; sg_Version := sg_Version x |}.

Definition set_ix_MarkDelete (v : bool) (x : IndexInfo) : IndexInfo :=
  {| ix_ID := ix_ID x; ix_Owners := ix_Owners x; ix_MarkDelete := v |}.

Definition set_ig_Indexes (v : list IndexInfo) (x : IndexGroupInfo) : IndexGroupInfo :=
  {| ig_ID := ig_ID x; ig_StartTime := ig_StartTime x; ig_EndTime := ig_EndTime x; ig_Indexes := v; ig_DeletedAt := ig_DeletedAt x; ig_EngineType := ig_EngineType x |}.
Definition set_ig_DeletedAt (v : Z) (x : IndexGroupInfo) : IndexGroupInfo :=
  {| ig_ID := ig_ID x; ig_StartTime := ig_StartTime x; ig_EndTime := ig_EndTime x; ig_Indexes := ig_Indexes x; ig_DeletedAt := v; ig_EngineType := ig_EngineType x |}.

Definition set_mst_Schema (v : gmap string Z) (x : MeasurementInfo) : MeasurementInfo :=
  {| mst_Name := mst_Name x; mst_originName := mst_originName x; mst_ShardKeys := mst_ShardKeys x; mst_Schema := v; mst_IndexRelation := mst_IndexRelation x; mst_ColStoreInfo := mst_ColStoreInfo x; mst_MarkDeleted := mst_MarkDeleted x; mst_EngineType := mst_EngineType x; mst_Options := mst_Options x; mst_ObsOptions := mst_ObsOptions x |}.
Definition set_mst_ObsOptions (v : option opaque) (x : MeasurementInfo) : MeasurementInfo :=
  {| mst_Name := mst_Name x; mst_originName := mst_originName x; mst_ShardKeys := mst_ShardKeys x; mst_Schema := mst_Schema x; mst_IndexRelation := mst_IndexRelation x; mst_ColStoreInfo := mst_ColStoreInfo x; mst_MarkDeleted := mst_MarkDeleted x; mst_EngineType := mst_EngineType x; mst_Options := mst_Options x; mst_ObsOptions := v |}.

Definition set_rp_IndexGroups (v : list IndexGroupInfo) (x : RetentionPolicyInfo) : RetentionPolicyInfo :=
  {| rp_Name := rp_Name x; rp_ReplicaN := rp_ReplicaN x; rp_Duration := rp_Duration x; rp_ShardGroupDuration := rp_ShardGroupDuration x; rp_HotDuration := rp_HotDuration x; rp_WarmDuration := rp_WarmDuration x; rp_IndexGroupDuration := rp_IndexGroupDuration x; rp_IndexGroups := v; rp_Measurements := rp_Measurements x; rp_MstVersions := rp_MstVersions x; rp_ShardGroups := rp_ShardGroups x; rp_Subscriptions := rp_Subscriptions x; rp_DownSamplePolicyInfo := rp_DownSamplePolicyInfo x; rp_MarkDeleted := rp_MarkDeleted x |}.
Definition set_rp_Measurements (v : gmap string MeasurementInfo) (x : RetentionPolicyInfo) : RetentionPolicyInfo :=
  {| rp_Name := rp_Name x; rp_ReplicaN := rp_ReplicaN x; rp_Duration := rp_Duration x; rp_ShardGroupDuration := rp_ShardGroupDuration x; rp_HotDuration := rp_HotDuration x; rp_WarmDuration := rp_WarmDuration x; rp_IndexGroupDuration := rp_IndexGroupDuration x; rp_IndexGroups := rp_IndexGroups x; rp_Measurements := v; rp_MstVersions := rp_MstVersions x; rp_ShardGroups := rp_ShardGroups x; rp_Subscriptions := rp_Subscriptions x; rp_DownSamplePolicyInfo := rp_DownSamplePolicyInfo x; rp_MarkDeleted := rp_MarkDeleted x |}.
Definition set_rp_MstVersions (v : gmap string MeasurementVer) (x : RetentionPolicyInfo) : RetentionPolicyInfo :=
  {| rp_Name := rp_Name x; rp_ReplicaN := rp_ReplicaN x; rp_Duration := rp_Duration x; rp_ShardGroupDuration := rp_ShardGroupDuration x; rp_HotDuration := rp_HotDuration x; rp_WarmDuration := rp_WarmDuration x; rp_IndexGroupDuration := rp_IndexGroupDuration x; rp_IndexGroups := rp_IndexGroups x; rp_Measurements := rp_Measurements x; rp_MstVersions := v; rp_ShardGroups := rp_ShardGroups x; rp_Subscriptions := rp_Subscriptions x; rp_DownSamplePolicyInfo := rp_DownSamplePolicyInfo x; rp_MarkDeleted := rp_MarkDeleted x |}.
Definition set_rp_ShardGroups (v : list ShardGroupInfo) (x : RetentionPolicyInfo) : RetentionPolicyInfo :=
  {| rp_Name := rp_Name x; rp_ReplicaN := rp_ReplicaN x; rp_Duration := rp_Duration x; rp_ShardGroupDuration := rp_ShardGroupDuration x; rp_HotDuration := rp_HotDuration x; rp_WarmDuration := rp_WarmDuration x; rp_IndexGroupDuration := rp_IndexGroupDuration x; rp_IndexGroups := rp_IndexGroups x; rp_Measurements := rp_Measurements x; rp_MstVersions := rp_MstVersions x; rp_ShardGroups := v; rp_Subscriptions := rp_Subscriptions x; rp_DownSamplePolicyInfo := rp_DownSamplePolicyInfo x; rp_MarkDeleted := rp_MarkDeleted x |}.

Definition set_db_DefaultRetentionPolicy (v : string) (x : DatabaseInfo) : DatabaseInfo :=
  {| db_Name := db_Name x; db_DefaultRetentionPolicy := v; db_RetentionPolicies := db_RetentionPolicies x; db_MarkDeleted := db_MarkDeleted x; db_ShardKey := db_ShardKey x; db_EnableTagArray := db_EnableTagArray x; db_ReplicaN := db_ReplicaN x; db_Options := db_Options x |}.
Definition set_db_RetentionPolicies (v : gmap string RetentionPolicyInfo) (x : DatabaseInfo) : DatabaseInfo :=
  {| db_Name := db_Name x; db_DefaultRetentionPolicy := db_DefaultRetentionPolicy x; db_RetentionPolicies := v; db_MarkDeleted := db_MarkDeleted x; db_ShardKey := db_ShardKey x; db_EnableTagArray := db_EnableTagArray x; db_ReplicaN := db_ReplicaN x; db_Options := db_Options x |}.
Definition set_db_MarkDeleted (v : bool) (x : DatabaseInfo) : DatabaseInfo :=
  {| db_Name := db_Name x; db_DefaultRetentionPolicy := db_DefaultRetentionPolicy x; db_RetentionPolicies := db_RetentionPolicies x; db_MarkDeleted := v; db_ShardKey := db_ShardKey x; db_EnableTagArray := db_EnableTagArray x; db_ReplicaN := db_ReplicaN x; db_Options := db_Options x |}.
Definition set_db_ShardKey (v : ShardKeyInfo) (x : DatabaseInfo) : DatabaseInfo :=
  {| db_Name := db_Name x; db_DefaultRetentionPolicy := db_DefaultRetentionPolicy x; db_RetentionPolicies := db_RetentionPolicies x; db_MarkDeleted := db_MarkDeleted x; db_ShardKey := v; db_EnableTagArray := db_EnableTagArray x; db_ReplicaN := db_ReplicaN x; db_Options := db_Options x |}.
Definition set_db_EnableTagArray (v : bool) (x : DatabaseInfo) : DatabaseInfo :=
  {| db_Name := db_Name x; db_DefaultRetentionPolicy := db_DefaultRetentionPolicy x; db_RetentionPolicies := db_RetentionPolicies x; db_MarkDeleted := db_MarkDeleted x; db_ShardKey := db_ShardKey x; db_EnableTagArray := v; db_ReplicaN := db_ReplicaN x; db_Options := db_Options x |}.
Definition set_db_ReplicaN (v : Z) (x : DatabaseInfo) : DatabaseInfo :=
  {| db_Name := db_Name x; db_DefaultRetentionPolicy := db_DefaultRetentionPolicy x; db_RetentionPolicies := db_RetentionPolicies x; db_MarkDeleted := db_MarkDeleted x; db_ShardKey := db_ShardKey x; db_EnableTagArray := db_EnableTagArray x; db_ReplicaN := v; db_Options := db_Options x |}.
Definition set_db_Options (v : option opaque) (x : DatabaseInfo) : DatabaseInfo :=
  {| db_Name := db_Name x; db_DefaultRetentionPolicy := db_DefaultRetentionPolicy x; db_RetentionPolicies := db_RetentionPolicies x; db_MarkDeleted := db_MarkDeleted x; db_ShardKey := db_ShardKey x; db_EnableTagArray := db_EnableTagArray x; db_ReplicaN := db_ReplicaN x; db_Options := v |}.

Definition set_ui_Hash (v : string) (x : UserInfo) : UserInfo :=
  {| ui_Name := ui_Name x; ui_Hash := v; ui_Admin := ui_Admin x; ui_Rwuser := ui_Rwuser x; ui_Privileges := ui_Privileges x |}.
Definition set_ui_Privileges (v : gmap string Z) (x : UserInfo) : UserInfo :=
  {| ui_Name := ui_Name x; ui_Hash := ui_Hash x; ui_Admin := ui_Admin x; ui_Rwuser := ui_Rwuser x; ui_Privileges := v |}.

Definition set_ClusterPtNum (v : Z) (x : Data) : Data :=
  {| Term := Term x; Index := Index x; ClusterID := ClusterID x; ClusterPtNum := v; PtNumPerNode := PtNumPerNode x; MetaNodes := MetaNodes x; DataNodes := DataNodes x; PtView := PtView x; ReplicaGroups := ReplicaGroups x; Databases := Databases x; Streams := Streams x; Users := Users x; MigrateEvents := MigrateEvents x; QueryIDInit := QueryIDInit x; AdminUserExists := AdminUserExists x; TakeOverEnabled := TakeOverEnabled x; BalancerEnabled := BalancerEnabled x; ExpandShardsEnable := ExpandShardsEnable x; MaxNodeID := MaxNodeID x; MaxShardGroupID := MaxShardGroupID x; MaxShardID := MaxShardID x; MaxIndexGroupID := MaxIndexGroupID x; MaxIndexID := MaxIndexID x; MaxEventOpId := MaxEventOpId x; MaxDownSampleID := MaxDownSampleID x; MaxStreamID := MaxStreamID x; MaxConnID := MaxConnID x; MaxSubscriptionID := MaxSubscriptionID x; MaxCQChangeID := MaxCQChangeID x |}.
Definition set_DataNodes (v : list DataNode) (x : Data) : Data :=
  {| Term := Term x; Index := Index x; ClusterID := ClusterID x; ClusterPtNum := ClusterPtNum x; PtNumPerNode := PtNumPerNode x; MetaNodes := MetaNodes x; DataNodes := v; PtView := PtView x; ReplicaGroups := ReplicaGroups x; Databases := Databases x; Streams := Streams x; Users := Users x; MigrateEvents := MigrateEvents x; QueryIDInit := QueryIDInit x; AdminUserExists := AdminUserExists x; TakeOverEnabled := TakeOverEnabled x; BalancerEnabled := BalancerEnabled x; ExpandShardsEnable := ExpandShardsEnable x; MaxNodeID := MaxNodeID x; MaxShardGroupID := MaxShardGroupID x; MaxShardID := MaxShardID x; MaxIndexGroupID := MaxIndexGroupID x; MaxIndexID := MaxIndexID x; MaxEventOpId := MaxEventOpId x; MaxDownSampleID := MaxDownSampleID x; MaxStreamID := MaxStreamID x; MaxConnID := MaxConnID x; MaxSubscriptionID := MaxSubscriptionID x; MaxCQChangeID := MaxCQChangeID x |}.
Definition set_PtView (v : option (gmap string (list PtInfo))) (x : Data) : Data :=
  {| Term := Term x; Index := Index x; ClusterID := ClusterID x; ClusterPtNum := ClusterPtNum x; PtNumPerNode := PtNumPerNode x; MetaNodes := MetaNodes x; DataNodes := DataNodes x; PtView := v; ReplicaGroups := ReplicaGroups x; Databases := Databases x; Streams := Streams x; Users := Users x; MigrateEvents := MigrateEvents x; QueryIDInit := QueryIDInit x; AdminUserExists := AdminUserExists x; TakeOverEnabled := TakeOverEnabled x; BalancerEnabled := BalancerEnabled x; ExpandShardsEnable := ExpandShardsEnable x; MaxNodeID := MaxNodeID x; MaxShardGroupID := MaxShardGroupID x; MaxShardID := MaxShardID x; MaxIndexGroupID := MaxIndexGroupID x; MaxIndexID := MaxIndexID x; MaxEventOpId := MaxEventOpId x; MaxDownSampleID := MaxDownSampleID x; MaxStreamID := MaxStreamID x; MaxConnID := MaxConnID x; MaxSubscriptionID := MaxSubscriptionID x; MaxCQChangeID := MaxCQChangeID x |}.
Definition set_ReplicaGroups (v : option (gmap string (list ReplicaGroup))) (x : Data) : Data :=
  {| Term := Term x; Index := Index x; ClusterID := ClusterID x; ClusterPtNum := ClusterPtNum x; PtNumPerNode := PtNumPerNode x; MetaNodes := MetaNodes x; DataNodes := DataNodes x; PtView := PtView x; ReplicaGroups := v; Databases := Databases x; Streams := Streams x; Users := Users x; MigrateEvents := MigrateEvents x; QueryIDInit := QueryIDInit x; AdminUserExists := AdminUserExists x; TakeOverEnabled := TakeOverEnabled x; BalancerEnabled := BalancerEnabled x; ExpandShardsEnable := ExpandShardsEnable x; MaxNodeID := MaxNodeID x; MaxShardGroupID := MaxShardGroupID x; MaxShardID := MaxShardID x; MaxIndexGroupID := MaxIndexGroupID x; MaxIndexID := MaxIndexID x; MaxEventOpId := MaxEventOpId x; MaxDownSampleID := MaxDownSampleID x; MaxStreamID := MaxStreamID x; MaxConnID := MaxConnID x; MaxSubscriptionID := MaxSubscriptionID x; MaxCQChangeID := MaxCQChangeID x |}.
Definition set_Databases (v : gmap string DatabaseInfo) (x : Data) : Data :=
  {| Term := Term x; Index := Index x; ClusterID := ClusterID x; ClusterPtNum := ClusterPtNum x; PtNumPerNode := PtNumPerNode x; MetaNodes := MetaNodes x; DataNodes := DataNodes x; PtView := PtView x; ReplicaGroups := ReplicaGroups x; Databases := v; Streams := Streams x; Users := Users x; MigrateEvents := MigrateEvents x; QueryIDInit := QueryIDInit x; AdminUserExists := AdminUserExists x; TakeOverEnabled := TakeOverEnabled x; BalancerEnabled := BalancerEnabled x; ExpandShardsEnable := ExpandShardsEnable x; MaxNodeID := MaxNodeID x; MaxShardGroupID := MaxShardGroupID x; MaxShardID := MaxShardID x; MaxIndexGroupID := MaxIndexGroupID x; MaxIndexID := MaxIndexID x; MaxEventOpId := MaxEventOpId x; MaxDownSampleID := MaxDownSampleID x; MaxStreamID := MaxStreamID x; MaxConnID := MaxConnID x; MaxSubscriptionID := MaxSubscriptionID x; MaxCQChangeID := MaxCQChangeID x |}.
Definition set_Users (v : list UserInfo) (x : Data) : Data :=
  {| Term := Term x; Index := Index x; ClusterID := ClusterID x; ClusterPtNum := ClusterPtNum x; PtNumPerNode := PtNumPerNode x; MetaNodes := MetaNodes x; DataNodes := DataNodes x; PtView := PtView x; ReplicaGroups := ReplicaGroups x; Databases := Databases x; Streams := Streams x; Users := v; MigrateEvents := MigrateEvents x; QueryIDInit := QueryIDInit x; AdminUserExists := AdminUserExists x; TakeOverEnabled := TakeOverEnabled x; BalancerEnabled := BalancerEnabled x; ExpandShardsEnable := ExpandShardsEnable x; MaxNodeID := MaxNodeID x; MaxShardGroupID := MaxShardGroupID x; MaxShardID := MaxShardID x; MaxIndexGroupID := MaxIndexGroupID x; MaxIndexID := MaxIndexID x; MaxEventOpId := MaxEventOpId x; MaxDownSampleID := MaxDownSampleID x; MaxStreamID := MaxStreamID x; MaxConnID := MaxConnID x; MaxSubscriptionID := MaxSubscriptionID x; MaxCQChangeID := MaxCQChangeID x |}.
Definition set_AdminUserExists (v : bool) (x : Data) : Data :=
  {| Term := Term x; Index := Index x; ClusterID := ClusterID x; ClusterPtNum := ClusterPtNum x; PtNumPerNode := PtNumPerNode x; MetaNodes := MetaNodes x; DataNodes := DataNodes x; PtView := PtView x; ReplicaGroups := ReplicaGroups x; Databases := Databases x; Streams := Streams x; Users := Users x; MigrateEvents := MigrateEvents x; QueryIDInit := QueryIDInit x; AdminUserExists := v; TakeOverEnabled := TakeOverEnabled x; BalancerEnabled := BalancerEnabled x; ExpandShardsEnable := ExpandShardsEnable x; MaxNodeID := MaxNodeID x; MaxShardGroupID := MaxShardGroupID x; MaxShardID := MaxShardID x; MaxIndexGroupID := MaxIndexGroupID x; MaxIndexID := MaxIndexID x; MaxEventOpId := MaxEventOpId x; MaxDownSampleID := MaxDownSampleID x; MaxStreamID := MaxStreamID x; MaxConnID := MaxConnID x; MaxSubscriptionID := MaxSubscriptionID x; MaxCQChangeID := MaxCQChangeID x |}.
Definition set_TakeOverEnabled (v : bool) (x : Data) : Data :=
  {| Term := Term x; Index := Index x; ClusterID := ClusterID x; ClusterPtNum := ClusterPtNum x; PtNumPerNode := PtNumPerNode x; MetaNodes := MetaNodes x; DataNodes := DataNodes x; PtView := PtView x; ReplicaGroups := ReplicaGroups x; Databases := Databases x; Streams := Streams x; Users := Users x; MigrateEvents := MigrateEvents x; QueryIDInit := QueryIDInit x; AdminUserExists := AdminUserExists x; TakeOverEnabled := v; BalancerEnabled := BalancerEnabled x; ExpandShardsEnable := ExpandShardsEnable x; MaxNodeID := MaxNodeID x; MaxShardGroupID := MaxShardGroupID x; MaxShardID := MaxShardID x; MaxIndexGroupID := MaxIndexGroupID x; MaxIndexID := MaxIndexID x; MaxEventOpId := MaxEventOpId x; MaxDownSampleID := MaxDownSampleID x; MaxStreamID := MaxStreamID x; MaxConnID := MaxConnID x; MaxSubscriptionID := MaxSubscriptionID x; MaxCQChangeID := MaxCQChangeID x |}.
Definition set_BalancerEnabled (v : bool) (x : Data) : Data :=
  {| Term := Term x; Index := Index x; ClusterID := ClusterID x; ClusterPtNum := ClusterPtNum x; PtNumPerNode := PtNumPerNode x; MetaNodes := MetaNodes x; DataNodes := DataNodes x; PtView := PtView x; ReplicaGroups := ReplicaGroups x; Databases := Databases x; Streams := Streams x; Users := Users x; MigrateEvents := MigrateEvents x; QueryIDInit := QueryIDInit x; AdminUserExists := AdminUserExists x; TakeOverEnabled := TakeOverEnabled x; BalancerEnabled := v; ExpandShardsEnable := ExpandShardsEnable x; MaxNodeID := MaxNodeID x; MaxShardGroupID := MaxShardGroupID x; MaxShardID := MaxShardID x; MaxIndexGroupID := MaxIndexGroupID x; MaxIndexID := MaxIndexID x; MaxEventOpId := MaxEventOpId x; MaxDownSampleID := MaxDownSampleID x; MaxStreamID := MaxStreamID x; MaxConnID := MaxConnID x; MaxSubscriptionID := MaxSubscriptionID x; MaxCQChangeID := MaxCQChangeID x |}.
Definition set_MaxNodeID (v : Z) (x : Data) : Data :=
  {| Term := Term x; Index := Index x; ClusterID := ClusterID x; ClusterPtNum := ClusterPtNum x; PtNumPerNode := PtNumPerNode x; MetaNodes := MetaNodes x; DataNodes := DataNodes x; PtView := PtView x; ReplicaGroups := ReplicaGroups x; Databases := Databases x; Streams := Streams x; Users := Users x; MigrateEvents := MigrateEvents x; QueryIDInit := QueryIDInit x; AdminUserExists := AdminUserExists x; TakeOverEnabled := TakeOverEnabled x; BalancerEnabled := BalancerEnabled x; ExpandShardsEnable := ExpandShardsEnable x; MaxNodeID := v; MaxShardGroupID := MaxShardGroupID x; MaxShardID := MaxShardID x; MaxIndexGroupID := MaxIndexGroupID x; MaxIndexID := MaxIndexID x; MaxEventOpId := MaxEventOpId x; MaxDownSampleID := MaxDownSampleID x; MaxStreamID := MaxStreamID x; MaxConnID := MaxConnID x; MaxSubscriptionID := MaxSubscriptionID x; MaxCQChangeID := MaxCQChangeID x |}.
Definition set_MaxShardGroupID (v : Z) (x : Data) : Data :=
  {| Term := Term x; Index := Index x; ClusterID := ClusterID x; ClusterPtNum := ClusterPtNum x; PtNumPerNode := PtNumPerNode x; MetaNodes := MetaNodes x; DataNodes := DataNodes x; PtView := PtView x; ReplicaGroups := ReplicaGroups x; Databases := Databases x; Streams := Streams x; Users := Users x; MigrateEvents := MigrateEvents x; QueryIDInit := QueryIDInit x; AdminUserExists := AdminUserExists x; TakeOverEnabled := TakeOverEnabled x; BalancerEnabled := BalancerEnabled x; ExpandShardsEnable := ExpandShardsEnable x; MaxNodeID := MaxNodeID x; MaxShardGroupID := v; MaxShardID := MaxShardID x; MaxIndexGroupID := MaxIndexGroupID x; MaxIndexID := MaxIndexID x; MaxEventOpId := MaxEventOpId x; MaxDownSampleID := MaxDownSampleID x; MaxStreamID := MaxStreamID x; MaxConnID := MaxConnID x; MaxSubscriptionID := MaxSubscriptionID x; MaxCQChangeID := MaxCQChangeID x |}.
Definition set_MaxShardID (v : Z) (x : Data) : Data :=
  {| Term := Term x; Index := Index x; ClusterID := ClusterID x; ClusterPtNum := ClusterPtNum x; PtNumPerNode := PtNumPerNode x; MetaNodes := MetaNodes x; DataNodes := DataNodes x; PtView := PtView x; ReplicaGroups := ReplicaGroups x; Databases := Databases x; Streams := Streams x; Users := Users x; MigrateEvents := MigrateEvents x; QueryIDInit := QueryIDInit x; AdminUserExists := AdminUserExists x; TakeOverEnabled := TakeOverEnabled x; BalancerEnabled := BalancerEnabled x; ExpandShardsEnable := ExpandShardsEnable x; MaxNodeID := MaxNodeID x; MaxShardGroupID := MaxShardGroupID x; MaxShardID := v; MaxIndexGroupID := MaxIndexGroupID x; MaxIndexID := MaxIndexID x; MaxEventOpId := MaxEventOpId x; MaxDownSampleID := MaxDownSampleID x; MaxStreamID := MaxStreamID x; MaxConnID := MaxConnID x; MaxSubscriptionID := MaxSubscriptionID x; MaxCQChangeID := MaxCQChangeID x |}.
Definition set_MaxIndexGroupID (v : Z) (x : Data) : Data :=
  {| Term := Term x; Index := Index x; ClusterID := ClusterID x; ClusterPtNum := ClusterPtNum x; PtNumPerNode := PtNumPerNode x; MetaNodes := MetaNodes x; DataNodes := DataNodes x; PtView := PtView x; ReplicaGroups := ReplicaGroups x; Databases := Databases x; Streams := Streams x; Users := Users x; MigrateEvents := MigrateEvents x; QueryIDInit := QueryIDInit x; AdminUserExists := AdminUserExists x; TakeOverEnabled := TakeOverEnabled x; BalancerEnabled := BalancerEnabled x; ExpandShardsEnable := ExpandShardsEnable x; MaxNodeID := MaxNodeID x; MaxShardGroupID := MaxShardGroupID x; MaxShardID := MaxShardID x; MaxIndexGroupID := v; MaxIndexID := MaxIndexID x; MaxEventOpId := MaxEventOpId x; MaxDownSampleID := MaxDownSampleID x; MaxStreamID := MaxStreamID x; MaxConnID := MaxConnID x; MaxSubscriptionID := MaxSubscriptionID x; MaxCQChangeID := MaxCQChangeID x |}.
Definition set_MaxIndexID (v : Z) (x : Data) : Data :=
  {| Term := Term x; Index := Index x; ClusterID := ClusterID x; ClusterPtNum := ClusterPtNum x; PtNumPerNode := PtNumPerNode x; MetaNodes := MetaNodes x; DataNodes := DataNodes x; PtView := PtView x; ReplicaGroups := ReplicaGroups x; Databases := Databases x; Streams := Streams x; Users := Users x; MigrateEvents := MigrateEvents x; QueryIDInit := QueryIDInit x; AdminUserExists := AdminUserExists x; TakeOverEnabled := TakeOverEnabled x; BalancerEnabled := BalancerEnabled x; ExpandShardsEnable := ExpandShardsEnable x; MaxNodeID := MaxNodeID x; MaxShardGroupID := MaxShardGroupID x; MaxShardID := MaxShardID x; MaxIndexGroupID := MaxIndexGroupID x; MaxIndexID := v; MaxEventOpId := MaxEventOpId x; MaxDownSampleID := MaxDownSampleID x; MaxStreamID := MaxStreamID x; MaxConnID := MaxConnID x; MaxSubscriptionID := MaxSubscriptionID x; MaxCQChangeID := MaxCQChangeID x |}.
Definition set_MaxConnID (v : Z) (x : Data) : Data :=
  {| Term := Term x; Index := Index x; ClusterID := ClusterID x; ClusterPtNum := ClusterPtNum x; PtNumPerNode := PtNumPerNode x; MetaNodes := MetaNodes x; DataNodes := DataNodes x; PtView := PtView x; ReplicaGroups := ReplicaGroups x; Databases := Databases x; Streams := Streams x; Users := Users x; MigrateEvents := MigrateEvents x; QueryIDInit := QueryIDInit x; AdminUserExists := AdminUserExists x; TakeOverEnabled := TakeOverEnabled x; BalancerEnabled := BalancerEnabled x; ExpandShardsEnable := ExpandShardsEnable x; MaxNodeID := MaxNodeID x; MaxShardGroupID := MaxShardGroupID x; MaxShardID := MaxShardID x; MaxIndexGroupID := MaxIndexGroupID x; MaxIndexID := MaxIndexID x; MaxEventOpId := MaxEventOpId x; MaxDownSampleID := MaxDownSampleID x; MaxStreamID := MaxStreamID x; MaxConnID := v; MaxSubscriptionID := MaxSubscriptionID x; MaxCQChangeID := MaxCQChangeID x |}.

(** ** Configuration and helpers that live outside data.go *)

(** What the operations read from the process and from sibling files of
    the package whose bodies are not part of data.go.  Each operation
    takes the environment it runs in; nothing is assumed about it unless
    a theorem says so. *)
Record Env : Type := Build_Env {
  (** [config.GetHaPolicy()] *)
  ha_policy : HAPolicy;
  (** [time.Now()] *)
  now : Z;
  (** [rpi.CheckSpecValid()] *)
  CheckSpecValid : RetentionPolicyInfo → option error;
  (** [rp.validMeasurementShardType(shardType, mst)] *)
  validMeasurementShardType : RetentionPolicyInfo → string → string → option error;
  (** [rp.shardingType()] *)
  shardingType : RetentionPolicyInfo → string;
  (** the measurement a [for _, mst := range rp.Measurements { ...; break }]
      loop meets first; Go leaves the iteration order of a map open *)
  any_measurement : gmap string MeasurementInfo → option MeasurementInfo;
  (** the host part of [net.SplitHostPort] *)
  SplitHost : string → string
}.

(** ** The monad of catalog operations *)

Definition M (A : Type) : Type := Data → option (A * Data).

#[global] Instance M_ret : MRet M := λ A a d, Some (a, d).
#[global] Instance M_bind : MBind M := λ A B f m d,
  match m d with
  | Some (a, d') => f a d'
  | None => None
  end.

Definition get : M Data := λ d, Some (d, d).
Definition gets {A} (f : Data → A) : M A := λ d, Some (f d, d).
Definition modify (f : Data → Data) : M unit := λ d, Some (tt, f d).
Definition panic {A} : M A := λ _, None.

(** [o] must be present, as for a slice element read by index. *)
Definition must {A} (o : option A) : M A :=
  match o with
  | Some a => mret a
  | None => panic
  end.

Definition ok : M (option error) := mret None.
Definition fail (e : error) : M (option error) := mret (Some e).

(** [for _, a := range l { f a }] *)
Fixpoint forM_ {A} (l : list A) (f : A → M unit) : M unit :=
  match l with
  | [] => mret tt
  | a :: l' => f a ;; forM_ l' f
  end.

(** A loop that threads a local value next to the catalog. *)
Fixpoint foldM {A B} (f : B → A → M B) (b : B) (l : list A) : M B :=
  match l with
  | [] => mret b
  | a :: l' => b' ← f b a; foldM f b' l'
  end.

Ltac unfold_M :=
  unfold ok, fail, must, panic, modify, gets, get, mbind, mret, M_bind, M_ret in *.

(** ** Databases and retention policies: lookups *)

Definition Database (name : string) (d : Data) : option DatabaseInfo :=
  Databases d !! name.

Definition GetDatabase (name : string) (d : Data) : error + DatabaseInfo :=
  match Database name d with
  | None => inl (ErrnoDatabaseNotFound name)
  | Some dbi =>
      if db_MarkDeleted dbi then inl (ErrnoDatabaseIsBeingDelete name)
      else inr dbi
  end.

(** Modelled from the spec: [dbi.GetRetentionPolicy], absent from
    data.go; the policy stored under [name], refused while it is marked
    deleted. *)
Definition GetRetentionPolicy (name : string) (dbi : DatabaseInfo)
  : error + RetentionPolicyInfo :=
  match db_RetentionPolicies dbi !! name with
  | None => inl (ErrRetentionPolicyNotFound name)
  | Some rpi => if rp_MarkDeleted rpi then inl ErrnoRpIsBeingDelete else inr rpi
  end.

Definition RetentionPolicy (database name : string) (d : Data)
  : error + RetentionPolicyInfo :=
  match GetDatabase database d with
  | inl e => inl e
  | inr di => GetRetentionPolicy name di
  end.

(** Store [rpi] back where [RetentionPolicy database name] found it. *)
Definition put_rp (database name : string) (rpi : RetentionPolicyInfo) (d : Data) : Data :=
  match Databases d !! database with
  | Some dbi =>
      set_Databases
        (<[database := set_db_RetentionPolicies (<[name := rpi]> (db_RetentionPolicies dbi)) dbi]>
           (Databases d)) d
  | None => d
  end.

Definition DBPtView (name : string) (d : Data) : list PtInfo :=
  default [] (PtView d ≫= (.!! name)).

Definition DBRepGroups (name : string) (d : Data) : list ReplicaGroup :=
  default [] (ReplicaGroups d ≫= (.!! name)).

(** [data.Databases[db].ReplicaN] dereferences the entry: an unknown
    database is a nil pointer. *)
Definition DBReplicaN (db : string) : M Z :=
  d ← get;
  dbi ← must (Databases d !! db);
  mret (if decide (db_ReplicaN dbi = 0) then 1 else db_ReplicaN dbi).

Definition GetEffectivePtNum (db : string) : M Z :=
  replicaN ← DBReplicaN db;
  d ← get;
  if decide (replicaN = 1) then mret (ClusterPtNum d)
  else mret (wrap32 (replicaN * Z.of_nat (length (DBRepGroups db d)))).

(** ** Users *)

Definition has_name (username : string) (u : UserInfo) : Prop := ui_Name u = username.

#[global] Instance has_name_dec username u : Decision (has_name username u).
Proof. unfold has_name. apply _. Defined.

Definition GetUser (username : string) (d : Data) : option UserInfo :=
  snd <$> list_find (has_name username) (Users d).

Definition HasAdminUser (d : Data) : bool := existsb ui_Admin (Users d).

Definition CreateUser (name hash : string) (admin rwuser : bool) : M (option error) :=
  d ← get;
  if decide (name = "") then fail ErrUsernameRequired
  else if GetUser name d is Some _ then fail ErrUserExists
  else if admin && HasAdminUser d then fail ErrUserForbidden
  else
    modify (λ d, set_Users (Users d ++
      [ {| ui_Name := name; ui_Hash := hash; ui_Admin := admin;
           ui_Rwuser := rwuser; ui_Privileges := ∅ |} ]) d) ;;
    (if admin then modify (set_AdminUserExists true) else mret tt) ;;
    ok.

Definition DropUser (name : string) : M (option error) :=
  d ← get;
  if (if GetUser name d is Some u then ui_Admin u else false) then fail ErrUserDropSelf
  else
    match list_find (has_name name) (Users d) with
    | Some (i, _) => modify (set_Users (delete i (Users d))) ;; ok
    | None => fail ErrUserNotFound
    end.

Definition UpdateUser (name hash : string) : M (option error) :=
  d ← get;
  match list_find (has_name name) (Users d) with
  | Some (i, u) =>
      if decide (ui_Hash u = hash) then fail ErrPwdUsed
      else modify (set_Users (<[i := set_ui_Hash hash u]> (Users d))) ;; ok
  | None => fail ErrUserNotFound
  end.

Definition SetPrivilege (name database : string) (p : Z) : M (option error) :=
  d ← get;
  match list_find (has_name name) (Users d) with
  | None => fail ErrUserNotFound
  | Some (i, ui) =>
      match GetDatabase database d with
      | inl e => fail e
      | inr _ =>
          modify (set_Users
            (<[i := set_ui_Privileges (<[database := p]> (ui_Privileges ui)) ui]> (Users d))) ;;
          ok
      end
  end.

Definition SetAdminPrivilege (name : string) (admin : bool) : M (option error) :=
  d ← get;
  match GetUser name d with
  | None => fail ErrUserNotFound
  | Some _ => fail ErrGrantOrRevokeAdmin
  end.

Definition AdminUserExist (d : Data) : bool := AdminUserExists d.

(** ** Databases *)

Definition checkStoreReady (d : Data) : option error :=
  if decide (ClusterPtNum d = 0) then Some ErrStorageNodeNotReady else None.

Definition CheckCanCreateDatabase (name : string) (d : Data) : option error :=
  if decide (name = "") then Some ErrDatabaseNameRequired
  else if checkStoreReady d is Some e then Some e
  else
    match Database name d with
    | None => None
    | Some databaseInfo =>
        if db_MarkDeleted databaseInfo then Some (ErrDatabaseBeingDeleted name)
        else Some ErrDatabaseExists
    end.

(** Modelled from the spec: [existRp.EqualsAnotherRp], absent from
    data.go; two policies have the identical definition when their
    replication factor and their five durations agree. *)
Definition EqualsAnotherRp (a b : RetentionPolicyInfo) : bool :=
  bool_decide (rp_ReplicaN a = rp_ReplicaN b ∧ rp_Duration a = rp_Duration b ∧
               rp_ShardGroupDuration a = rp_ShardGroupDuration b ∧
               rp_HotDuration a = rp_HotDuration b ∧
               rp_WarmDuration a = rp_WarmDuration b ∧
               rp_IndexGroupDuration a = rp_IndexGroupDuration b).

Definition CheckCanCreateRetentionPolicy (env : Env) (dbi : DatabaseInfo)
    (rpi : option RetentionPolicyInfo) (makeDefault : bool) : option error :=
  match rpi with
  | None => Some ErrRetentionPolicyRequired
  | Some rpi =>
      if decide (rp_Name rpi = "") then Some ErrRetentionPolicyNameRequired
      else if decide (rp_ReplicaN rpi < 1) then Some ErrReplicationFactorTooLow
      else if CheckSpecValid env rpi is Some e then Some e
      else
        match db_RetentionPolicies dbi !! rp_Name rpi with
        | None =>
            if decide (db_ReplicaN dbi ≠ 0 ∧ rp_ReplicaN rpi ≠ db_ReplicaN dbi)
            then Some ErrReplicaNConflict else None
        | Some existRp =>
            if negb (EqualsAnotherRp existRp rpi) then Some ErrRetentionPolicyConflict
            else if makeDefault && bool_decide (db_DefaultRetentionPolicy dbi ≠ rp_Name rpi)
            then Some ErrRetentionPolicyConflict
            else Some ErrRetentionPolicyExists
        end
  end.

Definition SetRetentionPolicy (dbi : DatabaseInfo) (rpi : RetentionPolicyInfo)
    (makeDefault : bool) : DatabaseInfo :=
  let dbi := set_db_RetentionPolicies (<[rp_Name rpi := rpi]> (db_RetentionPolicies dbi)) dbi in
  if makeDefault then set_db_DefaultRetentionPolicy (rp_Name rpi) dbi else dbi.

(** [NewDatabase(name)]: every field but the name at its zero value. *)
Definition NewDatabase (name : string) : DatabaseInfo :=
  {| db_Name := name; db_DefaultRetentionPolicy := ""; db_RetentionPolicies := ∅;
     db_MarkDeleted := false;
     db_ShardKey := {| sk_ShardKey := []; sk_Type := ""; sk_ShardGroup := 0 |};
     db_EnableTagArray := false; db_ReplicaN := 0; db_Options := None |}.

(** [ski.unmarshal(shardKey)]: the keys and the type of the message. *)
Definition unmarshal_ski (shardKey : ShardKeyInfo) : ShardKeyInfo :=
  {| sk_ShardKey := sk_ShardKey shardKey; sk_Type := sk_Type shardKey; sk_ShardGroup := 0 |}.

Definition SetDatabase (dbi : DatabaseInfo) : M (option error) :=
  modify (λ d, set_Databases (<[db_Name dbi := dbi]> (Databases d)) d) ;; ok.

(** The database record [CreateDatabase] assembles from its arguments. *)
Definition database_of_args (dbName : string) (rpi : option RetentionPolicyInfo)
    (shardKey : option ShardKeyInfo) (enableTagArray : bool) (replicaN : Z)
    (options : option opaque) : DatabaseInfo :=
  let dbi := NewDatabase dbName in
  let dbi := if rpi is Some rpi then SetRetentionPolicy dbi rpi true else dbi in
  let dbi := if shardKey is Some sk then set_db_ShardKey (unmarshal_ski sk) dbi else dbi in
  let dbi := set_db_EnableTagArray enableTagArray dbi in
  let dbi := set_db_ReplicaN replicaN dbi in
  if options is Some o then set_db_Options (Some o) dbi else dbi.

Definition CreateDatabase (env : Env) (dbName : string) (rpi : option RetentionPolicyInfo)
    (shardKey : option ShardKeyInfo) (enableTagArray : bool) (replicaN : Z)
    (options : option opaque) : M (option error) :=
  d ← get;
  match CheckCanCreateDatabase dbName d with
  | Some err => if decide (err = ErrDatabaseExists) then ok else fail err
  | None =>
      let dbi := NewDatabase dbName in
      match (if rpi is Some _ then CheckCanCreateRetentionPolicy env dbi rpi true else None) with
      | Some err => fail err
      | None =>
          SetDatabase (database_of_args dbName rpi shardKey enableTagArray replicaN options)
      end
  end.

Definition DropDatabase (name : string) : M unit :=
  modify (λ d, set_Databases (delete name (Databases d)) d) ;;
  modify (λ d, set_ReplicaGroups (delete name <$> ReplicaGroups d) d) ;;
  modify (λ d, set_Users
    ((λ u, set_ui_Privileges (delete name (ui_Privileges u)) u) <$> Users d) d) ;;
  modify (λ d, set_PtView (delete name <$> PtView d) d).

Definition CheckStreamExistInDatabase (database : string) (d : Data) : option error :=
  if decide (map_Forall (λ _ v, ¬ (smi_Database (st_SrcMst v) = database ∨
                                   smi_Database (st_DesMst v) = database)) (Streams d))
  then None else Some ErrDropStreamFirst.

(** A migration event is filed under ["{db}${ptId}"]. *)
Definition event_id (database : string) (ptId : nat) : string :=
  database +:+ "$" +:+ pretty ptId.

Definition checkMigrateConflict (database : string) (d : Data) : option error :=
  if decide (Forall (λ i, MigrateEvents d !! event_id database i = None)
               (seq 0 (length (DBPtView database d))))
  then None else Some ErrnoConflictWithEvent.

Definition MarkDatabaseDelete (name : string) : M (option error) :=
  d ← get;
  match Databases d !! name with
  | None => fail (ErrnoDatabaseNotFound name)
  | Some dbi =>
      if CheckStreamExistInDatabase name d is Some e then fail e
      else if db_MarkDeleted dbi then fail (ErrnoDatabaseIsBeingDelete name)
      else if checkMigrateConflict name d is Some err then fail err
      else
        modify (set_Databases (<[name := set_db_MarkDeleted true dbi]> (Databases d))) ;; ok
  end.

(** ** Measurements and their schema *)

(** Modelled from the spec: [rp.Measurement(mst)], absent from data.go.
    [mst_versions] maps the original name to the current versioned name,
    under which [measurements] holds the measurement. *)
Definition rp_Measurement (mst : string) (rp : RetentionPolicyInfo)
  : option (string * MeasurementInfo) :=
  mv ← rp_MstVersions rp !! mst;
  msti ← rp_Measurements rp !! mv_NameWithVersion mv;
  Some (mv_NameWithVersion mv, msti).

Definition put_mst (database rp key : string) (msti : MeasurementInfo) (d : Data) : Data :=
  match Databases d !! database ≫= (λ dbi, db_RetentionPolicies dbi !! rp) with
  | Some rpi => put_rp database rp (set_rp_Measurements (<[key := msti]> (rp_Measurements rpi)) rpi) d
  | None => d
  end.

(** [Measurement] hands out the measurement together with the key it is
    stored under.  It fills in a missing [ObsOptions] from the database
    as a side effect. *)
Definition Measurement (database retentionPolicy mst : string)
  : M (error + string * MeasurementInfo) :=
  d ← get;
  match GetDatabase database d with
  | inl e => mret (inl e)
  | inr db =>
      match GetRetentionPolicy retentionPolicy db with
      | inl e => mret (inl e)
      | inr rp =>
          match rp_Measurement mst rp with
          | None => mret (inl ErrMeasurementNotFound)
          | Some (key, msti) =>
              if mst_MarkDeleted msti then mret (inl ErrMeasurementNotFound)
              else
                let msti :=
                  match mst_ObsOptions msti, db_Options db with
                  | None, Some o => set_mst_ObsOptions (Some o) msti
                  | _, _ => msti
                  end in
                modify (put_mst database retentionPolicy key msti) ;;
                mret (inr (key, msti))
          end
      end
  end.

(** The loop over [fieldToCreate], on the working copy [schema]. *)
Fixpoint add_fields (schema : gmap string Z) (fieldToCreate : list (string * Z))
  : option (gmap string Z) :=
  match fieldToCreate with
  | [] => Some schema
  | (name, ty) :: rest =>
      match schema !! name with
      | None => add_fields (<[name := ty]> schema) rest
      | Some existType =>
          if decide (existType ≠ ty) then None else add_fields schema rest
      end
  end.

Definition UpdateSchema (database retentionPolicy mst : string)
    (fieldToCreate : list (string * Z)) : M (option error) :=
  r ← Measurement database retentionPolicy mst;
  match r with
  | inl err => fail err
  | inr (key, msti) =>
      match add_fields (mst_Schema msti) fieldToCreate with
      | None => fail ErrFieldTypeConflict
      | Some schema =>
          modify (put_mst database retentionPolicy key (set_mst_Schema schema msti)) ;; ok
      end
  end.

(** Modelled from the spec: [influx.GetNameWithVersion], the name a
    measurement is stored under, ["{mst}_{version}"]. *)
Definition GetNameWithVersion (mst : string) (version : Z) : string :=
  mst +:+ "_" +:+ pretty version.

(** Modelled from the spec: [ski.EqualsToAnother], the supplied shard key
    equals the latest one when the type and the key list agree. *)
Definition EqualsToAnother (a b : ShardKeyInfo) : bool :=
  bool_decide (sk_Type a = sk_Type b ∧ sk_ShardKey a = sk_ShardKey b).

Definition createVersionMeasurement (db rpName : string) (rp : RetentionPolicyInfo)
    (shardKey : option ShardKeyInfo) (indexR : option opaque) (ski : ShardKeyInfo)
    (mst : string) (version : Z) (engineType : EngineType)
    (colStoreInfo : option opaque) (schemaInfo : list (string * Z))
    (options : option opaque) : M (option error) :=
  d ← get;
  let ski :=
    {| sk_ShardKey := sk_ShardKey ski; sk_Type := sk_Type ski;
       sk_ShardGroup := if decide (length (rp_ShardGroups rp) = 0%nat)
                        then wrap64 (MaxShardGroupID d + 1) else 0 |} in
  let nameWithVer := GetNameWithVersion mst version in
  let msti :=
    {| mst_Name := nameWithVer; mst_originName := mst;
       mst_ShardKeys := if shardKey is Some _ then [ski] else [];
       mst_Schema := ∅; mst_IndexRelation := indexR; mst_ColStoreInfo := colStoreInfo;
       mst_MarkDeleted := false; mst_EngineType := engineType;
       mst_Options := options; mst_ObsOptions := None |} in
  let rp := set_rp_MstVersions
              (<[mst := {| mv_NameWithVersion := nameWithVer; mv_Version := version |}]>
                 (rp_MstVersions rp)) rp in
  let rp := set_rp_Measurements (<[nameWithVer := msti]> (rp_Measurements rp)) rp in
  modify (put_rp db rpName rp) ;;
  if decide (0 < length schemaInfo)%nat then UpdateSchema db (rp_Name rp) mst schemaInfo
  else ok.

Definition CreateMeasurement (env : Env) (database rpName mst : string)
    (shardKey : option ShardKeyInfo) (indexR : option opaque) (engineType : EngineType)
    (colStoreInfo : option opaque) (schemaInfo : list (string * Z))
    (options : option opaque) : M (option error) :=
  d ← get;
  match RetentionPolicy database rpName d with
  | inl err => fail err
  | inr rp =>
      let ski := if shardKey is Some sk then unmarshal_ski sk
                 else {| sk_ShardKey := []; sk_Type := ""; sk_ShardGroup := 0 |} in
      let shardErr :=
        if shardKey is Some _ then
          if validMeasurementShardType env rp (sk_Type ski) mst is Some err then Some err
          else if bool_decide (1 < rp_ReplicaN rp) && bool_decide (sk_Type ski = RANGE)
          then Some ErrnoConflictWithRep else None
        else None in
      match shardErr with
      | Some err => fail err
      | None =>
          if (if colStoreInfo is Some _ then bool_decide (1 < rp_ReplicaN rp) else false)
          then fail ErrnoConflictWithRep
          else
            match rp_Measurement mst rp with
            | Some (_, msti) =>
                if mst_MarkDeleted msti then
                  let ver := if rp_MstVersions rp !! mst is Some version
                             then Z.land (wrap32 (mv_Version version + 1)) 65535 else 0 in
                  createVersionMeasurement database rpName rp shardKey indexR ski mst ver
                    engineType colStoreInfo schemaInfo options
                else
                  match last (mst_ShardKeys msti) with
                  | Some latest => if EqualsToAnother ski latest then ok else fail ErrMeasurementExists
                  | None => fail ErrMeasurementExists
                  end
            | None =>
                let ver := if rp_MstVersions rp !! mst is Some version
                           then Z.land (wrap32 (mv_Version version + 1)) 65535 else 0 in
                createVersionMeasurement database rpName rp shardKey indexR ski mst ver
                  engineType colStoreInfo schemaInfo options
            end
      end
  end.

(** ** The pt-view *)

Definition zero_PtInfo : PtInfo :=
  {| pt_OwnerNodeID := 0; pt_Status := Offline; pt_PtId := 0; pt_Ver := 0; pt_RGID := 0 |}.

Definition updatePtStatus (db : string) (ptId nodeId : Z) (status : PtStatus) : M unit :=
  d ← get;
  let ptNum := Z.to_nat (ClusterPtNum d) in
  let dbPtView :=
    match PtView d ≫= (.!! db) with
    | Some v => v
    | None => replicate ptNum zero_PtInfo
    end in
  let dbPtView :=
    if decide (wrap32 (Z.of_nat (length dbPtView)) ≤ ptId)
    then take ptNum (dbPtView ++ replicate ptNum zero_PtInfo)
    else dbPtView in
  pi ← must (dbPtView !! Z.to_nat ptId);
  let pi :=
    {| pt_OwnerNodeID := nodeId; pt_Status := status; pt_PtId := ptId;
       pt_Ver := if decide (pt_Ver pi = 0) then 1 else pt_Ver pi;
       pt_RGID := pt_RGID pi |} in
  view ← must (PtView d);
  modify (set_PtView (Some (<[db := <[Z.to_nat ptId := pi]> dbPtView]> view))).

Definition GetWriteNodeNum (d : Data) : Z :=
  wrap32 (Z.of_nat (length (filter (λ n, IsNodeWriter (dn_Role n) = true) (DataNodes d)))).

Definition GetWriteNode (d : Data) : list DataNode :=
  filter (λ n, IsNodeWriter (dn_Role n) = true) (DataNodes d).

Definition GetAliveWriteNode (d : Data) : list DataNode :=
  filter (λ n, IsNodeWriter (dn_Role n) = true ∧ dn_Status n = StatusAlive ∧
               dn_SegregateStatus n = Normal) (DataNodes d).

(** The loop shared by the two assigners: pt [ptId] goes to the node at
    position [ptId % len(nodes)]. *)
Definition assign_round_robin (name : string) (nodes : list DataNode) : M (option error) :=
  if decide (length nodes = 0)%nat then fail ErrnoDataNoAlive
  else
    d ← get;
    forM_ (seq 0 (Z.to_nat (ClusterPtNum d))) (λ ptId,
      node ← must (nodes !! (ptId mod length nodes)%nat);
      updatePtStatus name (Z.of_nat ptId) (dn_ID node) Offline) ;;
    ok.

Definition assignPtForWAF (name : string) : M (option error) :=
  d ← get; assign_round_robin name (GetWriteNode d).

Definition assignPtForSS (name : string) : M (option error) :=
  d ← get; assign_round_robin name (GetAliveWriteNode d).

(** The table [dbPtAssigner], indexed by the HA policy. *)
Definition dbPtAssigner (p : HAPolicy) : string → M (option error) :=
  match p with
  | WriteAvailableFirst => assignPtForWAF
  | SharedStorage => assignPtForSS
  | Replication => assignPtForWAF
  end.

Definition CreateDBPtView (env : Env) (name : string) : M (option error) :=
  modify (λ d, if PtView d is None then set_PtView (Some ∅) d else d) ;;
  d ← get;
  if PtView d ≫= (.!! name) is Some _ then ok
  else dbPtAssigner (ha_policy env) name.

Definition initDataNodePtView (ptNum : Z) : M unit :=
  d ← get;
  let newPtNum := wrap32 (PtNumPerNode d * GetWriteNodeNum d) in
  if decide (ptNum < newPtNum) then modify (set_ClusterPtNum newPtNum) else mret tt.

(** ** Replica groups *)

Definition zero_ReplicaGroup : ReplicaGroup :=
  {| rg_ID := 0; rg_MasterPtID := 0; rg_Peers := []; rg_Status := Health; rg_Term := 0 |}.

Definition expandRepGroups (db : string) (repNum : Z) : M unit :=
  modify (λ d, if ReplicaGroups d is None then set_ReplicaGroups (Some ∅) d else d) ;;
  d ← get;
  modify (set_ReplicaGroups
    ((λ m, <[db := DBRepGroups db d ++ replicate (Z.to_nat repNum) zero_ReplicaGroup]> m)
       <$> ReplicaGroups d)).

(** [ptView[ptId].RGID = repGroupId]; the index must exist. *)
Definition set_RGID (ptId repGroupId : Z) (ptView : list PtInfo) : option (list PtInfo) :=
  pi ← ptView !! Z.to_nat ptId;
  Some (<[Z.to_nat ptId := set_pt_RGID repGroupId pi]> ptView).

(** The loop over the slaves of one group: the peers built so far and
    the pt-view. *)
Fixpoint rep_peers (ptNumPerNode ptIdx repGroupId : Z) (slaves : list nat)
    (peers : list Peer) (ptView : list PtInfo) : option (list Peer * list PtInfo) :=
  match slaves with
  | [] => Some (peers, ptView)
  | i :: slaves' =>
      let slavePtId := wrap32 (ptIdx + wrap32 (ptNumPerNode * wrap32 (Z.of_nat i + 1))) in
      ptView ← set_RGID slavePtId repGroupId ptView;
      rep_peers ptNumPerNode ptIdx repGroupId slaves'
        (peers ++ [ {| peer_ID := slavePtId; peer_PtRole := Slave |} ]) ptView
  end.

(** [repGroups[repGroupId].init(repGroupId, masterPtId, peers, Health, 0)] *)
Definition rg_init (id masterPtId : Z) (peers : list Peer) (status : RGStatus) (term : Z)
  : ReplicaGroup :=
  {| rg_ID := id; rg_MasterPtID := masterPtId; rg_Peers := peers;
     rg_Status := status; rg_Term := term |}.

(** The loop over [k]: one group per turn, all of them mastered by the
    pt [ptIdx]. *)
Fixpoint rep_inner (replicaN ptNumPerNode ptIdx : Z) (ks : list nat) (repGroupId : Z)
    (repGroups : list ReplicaGroup) (ptView : list PtInfo)
  : option (Z * list ReplicaGroup * list PtInfo) :=
  match ks with
  | [] => Some (repGroupId, repGroups, ptView)
  | _ :: ks' =>
      '(peers, ptView) ← rep_peers ptNumPerNode ptIdx repGroupId
                            (seq 0 (Z.to_nat (wrap32 (replicaN - 1)))) [] ptView;
      let masterPtId := ptIdx in
      _ ← repGroups !! Z.to_nat repGroupId;
      let repGroups :=
        <[Z.to_nat repGroupId := rg_init repGroupId masterPtId peers Health 0]> repGroups in
      ptView ← set_RGID masterPtId repGroupId ptView;
      rep_inner replicaN ptNumPerNode ptIdx ks' (wrap32 (repGroupId + 1)) repGroups ptView
  end.

(** The outer loop, [fuel] turns of it.  A turn advances [repGroupId] by
    [ptNumPerNode]; the loop has no other exit than
    [repGroupId >= repEnd], so running out of fuel is the loop that never
    ends. *)
Fixpoint rep_outer (fuel : nat) (replicaN ptNumPerNode repEnd repGroupId ptIdx : Z)
    (repGroups : list ReplicaGroup) (ptView : list PtInfo)
  : option (list ReplicaGroup * list PtInfo) :=
  if decide (repGroupId < repEnd) then
    match fuel with
    | O => None
    | S fuel' =>
        '(repGroupId, repGroups, ptView) ←
          rep_inner replicaN ptNumPerNode ptIdx (seq 0 (Z.to_nat ptNumPerNode))
            repGroupId repGroups ptView;
        rep_outer fuel' replicaN ptNumPerNode repEnd repGroupId
          (wrap32 (ptIdx + wrap32 (ptNumPerNode * replicaN))) repGroups ptView
    end
  else Some (repGroups, ptView).

Definition createReplicationInner (db : string) (replicaN repStart repEnd ptStart : Z)
  : M unit :=
  expandRepGroups db (wrap32 (repEnd - repStart)) ;;
  d ← get;
  let ptNumPerNode := PtNumPerNode d in
  let repGroups := DBRepGroups db d in
  let ptView := DBPtView db d in
  '(repGroups', ptView') ←
    must (rep_outer (Z.to_nat (repEnd - repStart)) replicaN ptNumPerNode repEnd
            repStart ptStart repGroups ptView);
  modify (λ d, set_ReplicaGroups ((λ m, <[db := repGroups']> m) <$> ReplicaGroups d) d) ;;
  (* the pt-view is written through the slice [data.PtView[db]]; there is
     nothing to store when the database has no view *)
  modify (λ d, set_PtView ((λ m, if m !! db is Some _ then <[db := ptView']> m else m)
                              <$> PtView d) d).

Definition createReplicationImp (db : string) (replicaN : Z) : M (option error) :=
  d ← get;
  let ptNum := wrap32 (Z.of_nat (length (DBPtView db d))) in
  if decide (PtNumPerNode d = 0) then panic
  else
    let nodeNum := ptNum / PtNumPerNode d in
    if decide (replicaN = 0) then panic
    else if decide (nodeNum mod replicaN ≠ 0)
    then fail (ErrnoReplicaNodeNumIncorrect nodeNum replicaN)
    else createReplicationInner db replicaN 0 (ptNum / replicaN) 0 ;; ok.

Definition CreateReplication (db : string) (replicaN : Z) : M (option error) :=
  if decide (replicaN ≤ 1) then ok else createReplicationImp db replicaN.

Definition UpdateReplication (database : string) (rgId masterId : Z) (peers : list Peer)
    (status : RGStatus) : M (option error) :=
  d ← get;
  match ReplicaGroups d ≫= (.!! database) with
  | None => fail (ErrnoDatabaseNotFound database)
  | Some rgs =>
      rg ← must (rgs !! Z.to_nat rgId);
      let rg := set_rg_MasterPtID masterId rg in
      let rg := if decide (0 < length peers)%nat then set_rg_Peers peers rg else rg in
      let rg := set_rg_Status status rg in
      modify (λ d, set_ReplicaGroups
        ((λ m, <[database := <[Z.to_nat rgId := rg]> rgs]> m) <$> ReplicaGroups d) d) ;;
      ok
  end.

(** ** Shard groups and index groups *)

(** Modelled from the spec: the time-range helpers of the group types,
    absent from data.go.  A group covers the half-open range
    [[start, end)]; it is deleted once [deleted_at] is set. *)
Definition sg_Contains (g : ShardGroupInfo) (t : Z) : bool :=
  bool_decide (sg_StartTime g ≤ t ∧ t < sg_EndTime g).
Definition sg_Overlaps (g : ShardGroupInfo) (tmin tmax : Z) : bool :=
  bool_decide (sg_StartTime g ≤ tmax ∧ tmin < sg_EndTime g).
Definition sg_Deleted (g : ShardGroupInfo) : bool := negb (IsZero (sg_DeletedAt g)).
Definition ig_Contains (g : IndexGroupInfo) (t : Z) : bool :=
  bool_decide (ig_StartTime g ≤ t ∧ t < ig_EndTime g).
Definition ig_Overlaps (g : IndexGroupInfo) (tmin tmax : Z) : bool :=
  bool_decide (ig_StartTime g ≤ tmax ∧ tmin < ig_EndTime g).

(** Modelled from the spec: [canDelete], absent from data.go; a group may
    go once every shard (every index) of it is marked for delete. *)
Definition sg_canDelete (g : ShardGroupInfo) : bool := forallb sh_MarkDelete (sg_Shards g).
Definition ig_canDelete (g : IndexGroupInfo) : bool := forallb ix_MarkDelete (ig_Indexes g).

(** Modelled from the spec: the orders behind [sort.Sort(ShardGroupInfos)],
    [sort.Sort(IndexGroupInfos)] and [sort.Sort(DataNodeInfos)]: groups by
    start time, nodes by id.  [sort.Sort] promises nothing about elements
    that compare equal. *)
Definition sg_le (a b : ShardGroupInfo) : Prop := sg_StartTime a ≤ sg_StartTime b.
Definition ig_le (a b : IndexGroupInfo) : Prop := ig_StartTime a ≤ ig_StartTime b.
Definition dn_le (a b : DataNode) : Prop := dn_ID a ≤ dn_ID b.

#[global] Instance sg_le_dec a b : Decision (sg_le a b).
Proof. unfold sg_le. apply _. Defined.
#[global] Instance ig_le_dec a b : Decision (ig_le a b).
Proof. unfold ig_le. apply _. Defined.
#[global] Instance dn_le_dec a b : Decision (dn_le a b).
Proof. unfold dn_le. apply _. Defined.

Definition sort_ShardGroupInfos : list ShardGroupInfo → list ShardGroupInfo := merge_sort sg_le.
Definition sort_IndexGroupInfos : list IndexGroupInfo → list IndexGroupInfo := merge_sort ig_le.
Definition sort_DataNodeInfos : list DataNode → list DataNode := merge_sort dn_le.

(** Modelled from the spec: [rpi.ShardGroupByTimestampAndEngineType],
    the first shard group that covers [(timestamp, engineType)]. *)
Definition rp_ShardGroupByTimestampAndEngineType (rpi : RetentionPolicyInfo)
    (timestamp : Z) (engineType : EngineType) : option ShardGroupInfo :=
  snd <$> list_find (λ g, sg_Contains g timestamp = true ∧ sg_EngineType g = engineType)
            (rp_ShardGroups rpi).

(** [MaxIndexID++; Indexes[i] = IndexInfo{ID: MaxIndexID, Owners: {i}}] for
    every [i] below [n]. *)
Definition new_indexes (n : nat) : M (list IndexInfo) :=
  foldM (λ acc i,
    modify (λ d, set_MaxIndexID (incr64 (MaxIndexID d)) d) ;;
    d ← get;
    mret (acc ++ [ {| ix_ID := MaxIndexID d; ix_Owners := [wrap32 (Z.of_nat i)];
                      ix_MarkDelete := false |} ])) [] (seq 0 n).

Definition clamp_end (t : Z) : Z := if decide (MaxNanoTime < t) then MaxNanoTime + 1 else t.

Definition CreateIndexGroup (rpi : RetentionPolicyInfo) (timestamp : Z)
    (engineType : EngineType) (ptNum : Z) : M (RetentionPolicyInfo * IndexGroupInfo) :=
  modify (λ d, set_MaxIndexGroupID (incr64 (MaxIndexGroupID d)) d) ;;
  d ← get;
  let startTime := Truncate timestamp (rp_IndexGroupDuration rpi) in
  indexes ← new_indexes (Z.to_nat ptNum);
  let igi :=
    {| ig_ID := MaxIndexGroupID d; ig_StartTime := startTime;
       ig_EndTime := clamp_end (startTime + rp_IndexGroupDuration rpi);
       ig_Indexes := indexes; ig_DeletedAt := zero_time; ig_EngineType := engineType |} in
  mret (set_rp_IndexGroups (sort_IndexGroupInfos (rp_IndexGroups rpi ++ [igi])) rpi, igi).

Definition createIndexGroupIfNeeded (rpi : RetentionPolicyInfo) (timestamp : Z)
    (engineType : EngineType) (ptNum : Z) : M (RetentionPolicyInfo * IndexGroupInfo) :=
  if decide (length (rp_IndexGroups rpi) = 0)%nat
  then CreateIndexGroup rpi timestamp engineType ptNum
  else
    match list_find (λ g, ig_EngineType g = engineType ∧ ig_Contains g timestamp = true)
            (rp_IndexGroups rpi) with
    | Some (_, g) =>
        if decide (ptNum ≤ Z.of_nat (length (ig_Indexes g))) then mret (rpi, g)
        else CreateIndexGroup rpi timestamp engineType ptNum
    | None => CreateIndexGroup rpi timestamp engineType ptNum
    end.

(** The index group of a re-sharding: it starts at [startTime] and ends
    with the last index group that overlaps the rest of the newest shard
    group.  The engine type is left at its zero value. *)
Definition createIndexGroup (db : string) (rp : RetentionPolicyInfo) (startTime : Z)
  : M RetentionPolicyInfo :=
  lastSg ← must (last (rp_ShardGroups rp));
  let endTime := sg_EndTime lastSg in
  let endTime :=
    match list_find (λ g, ig_Overlaps g startTime endTime = true) (reverse (rp_IndexGroups rp)) with
    | Some (_, g) => ig_EndTime g
    | None => endTime
    end in
  modify (λ d, set_MaxIndexGroupID (incr64 (MaxIndexGroupID d)) d) ;;
  d ← get;
  ptNum ← GetEffectivePtNum db;
  indexes ← new_indexes (Z.to_nat ptNum);
  let igi :=
    {| ig_ID := MaxIndexGroupID d; ig_StartTime := startTime; ig_EndTime := endTime;
       ig_Indexes := indexes; ig_DeletedAt := zero_time; ig_EngineType := TSSTORE |} in
  mret (set_rp_IndexGroups (sort_IndexGroupInfos (rp_IndexGroups rp ++ [igi])) rp).

Definition zero_ShardInfo (id tier : Z) : ShardInfo :=
  {| sh_ID := id; sh_Owners := []; sh_Min := ""; sh_Max := ""; sh_Tier := tier;
     sh_IndexID := 0; sh_DownSampleID := 0; sh_DownSampleLevel := 0;
     sh_ReadOnly := false; sh_MarkDelete := false |}.

(** [Owners = append(Owners, ptId); IndexID = igi.Indexes[ptId].ID] *)
Definition own (igi : IndexGroupInfo) (ptId : nat) (s : ShardInfo) : option ShardInfo :=
  ix ← ig_Indexes igi !! ptId;
  Some (set_sh_IndexID (ix_ID ix) (set_sh_Owners (sh_Owners s ++ [wrap32 (Z.of_nat ptId)]) s)).

(** The owner scan of [CreateShardGroupWithBounds]: it stops at the first
    pt whose id is [i] modulo [shardN]. *)
Fixpoint bounds_owner (shardN i : nat) (igi : IndexGroupInfo) (pts : list nat)
    (s : ShardInfo) : option ShardInfo :=
  match pts with
  | [] => Some s
  | ptId :: pts' =>
      if decide (ptId mod shardN = i)%nat then own igi ptId s
      else bounds_owner shardN i igi pts' s
  end.

Definition CreateShardGroupWithBounds (db : string) (rp : RetentionPolicyInfo)
    (startTime : Z) (bounds : list string) (engineType : EngineType)
  : M (RetentionPolicyInfo * option error) :=
  modify (λ d, set_MaxShardGroupID (incr64 (MaxShardGroupID d)) d) ;;
  d ← get;
  lastSg ← must (last (rp_ShardGroups rp));
  igi ← must (last (rp_IndexGroups rp));
  let shardN := S (length bounds) in
  shards ← foldM (λ acc i,
      modify (λ d, set_MaxShardID (incr64 (MaxShardID d)) d) ;;
      d ← get;
      first ← must (head (sg_Shards lastSg));
      let s := zero_ShardInfo (MaxShardID d) (sh_Tier first) in
      ptNum ← GetEffectivePtNum db;
      s ← must (bounds_owner shardN i igi (seq 0 (Z.to_nat ptNum)) s);
      let s := if decide (i ≠ shardN - 1)%nat then set_sh_Max (default "" (bounds !! i)) s else s in
      let s := if decide (0 < i)%nat then set_sh_Min (default "" (bounds !! (i - 1)%nat)) s else s in
      mret (acc ++ [s])) [] (seq 0 shardN);
  let sgi :=
    {| sg_ID := MaxShardGroupID d; sg_StartTime := startTime; sg_EndTime := sg_EndTime lastSg;
       sg_DeletedAt := zero_time; sg_Shards := shards; sg_EngineType := engineType;
       sg_Version := 0 |} in
  mret (set_rp_ShardGroups (sort_ShardGroupInfos (rp_ShardGroups rp ++ [sgi])) rp, None).

Record ReShardingInfo : Type := Build_ReShardingInfo {
  rs_Database : string;
  rs_Rp : string;
  rs_ShardGroupID : Z;
  rs_SplitTime : Z;
  rs_Bounds : list string
}.

Definition ReSharding (info : ReShardingInfo) : M (option error) :=
  d ← get;
  match RetentionPolicy (rs_Database info) (rs_Rp info) d with
  | inl err => fail err
  | inr rp =>
      match last (rp_ShardGroups rp) with
      | None => fail ErrShardGroupNotFound
      | Some newest =>
          if decide (sg_ID newest ≠ rs_ShardGroupID info)
          then fail (ErrShardGroupAlreadyReSharding (rs_ShardGroupID info))
          else
            let startTime := wrap_i64 (rs_SplitTime info + 1) in
            rp ← createIndexGroup (rs_Database info) rp startTime;
            '(rp, err) ← CreateShardGroupWithBounds (rs_Database info) rp startTime
                           (rs_Bounds info) (sg_EngineType newest);
            modify (put_rp (rs_Database info) (rs_Rp info) rp) ;;
            mret err
      end
  end.

(** The owner scan of [createShards]: every pt whose id is [i] modulo
    [shardN], without an early exit. *)
Fixpoint shard_owners (shardN i : nat) (igi : IndexGroupInfo) (pts : list nat)
    (s : ShardInfo) : option ShardInfo :=
  match pts with
  | [] => Some s
  | ptId :: pts' =>
      if decide (ptId mod shardN = i)%nat
      then s ← own igi ptId s; shard_owners shardN i igi pts' s
      else shard_owners shardN i igi pts' s
  end.

Definition is_range (msti : MeasurementInfo) : bool :=
  if head (mst_ShardKeys msti) is Some k then bool_decide (sk_Type k = RANGE) else false.

Definition createShards (database : string) (sgi : ShardGroupInfo) (igi : IndexGroupInfo)
    (rpi : RetentionPolicyInfo) (msti : MeasurementInfo) (tier : Z) : M ShardGroupInfo :=
  ptNum ← GetEffectivePtNum database;
  let shardN := Z.to_nat ptNum in
  let lastSgi := if is_range msti then last (rp_ShardGroups rpi) else None in
  let n :=
    if is_range msti then
      if lastSgi is Some l then length (sg_Shards l) else 1%nat
    else shardN in
  shards ← foldM (λ acc i,
      modify (λ d, set_MaxShardID (incr64 (MaxShardID d)) d) ;;
      d ← get;
      s ← must (shard_owners shardN i igi (seq 0 shardN) (zero_ShardInfo (MaxShardID d) tier));
      s ← match lastSgi with
          | Some l =>
              prev ← must (sg_Shards l !! i);
              mret (set_sh_Max (sh_Max prev) (set_sh_Min (sh_Min prev) s))
          | None => mret s
          end;
      mret (acc ++ [s])) [] (seq 0 n);
  mret (set_sg_Shards shards sgi).

Definition newShardGroup (rpi : RetentionPolicyInfo) (timestamp : Z)
    (engineType : EngineType) (version : Z) : M ShardGroupInfo :=
  let startTime := Truncate timestamp (rp_ShardGroupDuration rpi) in
  modify (λ d, set_MaxShardGroupID (incr64 (MaxShardGroupID d)) d) ;;
  d ← get;
  mret {| sg_ID := MaxShardGroupID d; sg_StartTime := startTime;
          sg_EndTime := clamp_end (startTime + rp_ShardGroupDuration rpi);
          sg_DeletedAt := zero_time; sg_Shards := []; sg_EngineType := engineType;
          sg_Version := version |}.

Definition CreateShardGroup (env : Env) (database policy : string) (timestamp tier : Z)
    (engineType : EngineType) (version : Z) : M (option error) :=
  d ← get;
  if checkStoreReady d is Some err then fail err
  else
    match RetentionPolicy database policy d with
    | inl err => fail err
    | inr rpi =>
        if rp_ShardGroupByTimestampAndEngineType rpi timestamp engineType is Some _ then ok
        else
          match any_measurement env (rp_Measurements rpi) with
          | None => fail (ErrNoMeasurement database policy)
          | Some msti =>
              ptNum ← GetEffectivePtNum database;
              '(rpi, igi) ← createIndexGroupIfNeeded rpi timestamp engineType ptNum;
              sgi ← newShardGroup rpi timestamp engineType version;
              sgi ← createShards database sgi igi rpi msti tier;
              modify (put_rp database policy
                (set_rp_ShardGroups (sort_ShardGroupInfos (rp_ShardGroups rpi ++ [sgi])) rpi)) ;;
              ok
          end
    end.

Definition DeleteIndexGroup (env : Env) (database policy : string) (id : Z) : M (option error) :=
  d ← get;
  match RetentionPolicy database policy d with
  | inl err => fail err
  | inr rpi =>
      match list_find (λ g, ig_ID g = id) (rp_IndexGroups rpi) with
      | Some (i, g) =>
          modify (put_rp database policy
            (set_rp_IndexGroups (<[i := set_ig_DeletedAt (now env) g]> (rp_IndexGroups rpi)) rpi)) ;;
          ok
      | None => ok
      end
  end.

Definition DeleteShardGroup (env : Env) (database policy : string) (id : Z) : M (option error) :=
  d ← get;
  match RetentionPolicy database policy d with
  | inl err => fail err
  | inr rpi =>
      match list_find (λ g, sg_ID g = id) (rp_ShardGroups rpi) with
      | Some (i, g) =>
          modify (put_rp database policy
            (set_rp_ShardGroups (<[i := set_sg_DeletedAt (now env) g]> (rp_ShardGroups rpi)) rpi)) ;;
          ok
      | None => ok
      end
  end.

(** ** Pruning *)

(** [sort.Search(n, f)]: binary search for the least index in [[0, n)]
    at which [f] holds, [n] if there is none.  The interval [[i, j)]
    shrinks at every turn, so [n] turns are enough. *)
Fixpoint sort_Search_loop (fuel : nat) (f : nat → bool) (i j : nat) : nat :=
  match fuel with
  | O => i
  | S fuel' =>
      if decide (i < j)%nat then
        let h := ((i + j) / 2)%nat in
        if f h then sort_Search_loop fuel' f i h
        else sort_Search_loop fuel' f (h + 1) j
      else i
  end.

Definition sort_Search (n : nat) (f : nat → bool) : nat := sort_Search_loop n f 0 n.

(** The first half of a turn of [pruneShardGroups]: when [id] lies
    between the ids of the first and of the last shard of the group, mark
    the shard the search lands on. *)
Definition prune_mark_shard (id : Z) (g : ShardGroupInfo) : option ShardGroupInfo :=
  first ← head (sg_Shards g);
  final ← last (sg_Shards g);
  if decide (sh_ID first ≤ id ∧ id ≤ sh_ID final) then
    let pos := sort_Search (length (sg_Shards g))
                 (λ i, if sg_Shards g !! i is Some s then bool_decide (id ≤ sh_ID s) else false) in
    s ← sg_Shards g !! pos;
    Some (set_sg_Shards (<[pos := set_sh_MarkDelete true s]> (sg_Shards g)) g)
  else Some g.

Definition sg_removable (g : ShardGroupInfo) : bool :=
  negb (IsZero (sg_DeletedAt g)) && sg_canDelete g.

(** The loop over [rp.ShardGroups]: a group is marked, then removed or
    stepped over. *)
Fixpoint prune_shard_groups (id : Z) (gs : list ShardGroupInfo) : option (list ShardGroupInfo) :=
  match gs with
  | [] => Some []
  | g :: gs' =>
      g' ← prune_mark_shard id g;
      rest ← prune_shard_groups id gs';
      Some (if sg_removable g' then rest else g' :: rest)
  end.

Definition prune_mark_index (id : Z) (g : IndexGroupInfo) : option IndexGroupInfo :=
  first ← head (ig_Indexes g);
  final ← last (ig_Indexes g);
  if decide (ix_ID first ≤ id ∧ id ≤ ix_ID final) then
    let pos := sort_Search (length (ig_Indexes g))
                 (λ i, if ig_Indexes g !! i is Some x then bool_decide (id ≤ ix_ID x) else false) in
    x ← ig_Indexes g !! pos;
    Some (set_ig_Indexes (<[pos := set_ix_MarkDelete true x]> (ig_Indexes g)) g)
  else Some g.

Fixpoint prune_index_groups (id : Z) (gs : list IndexGroupInfo) : option (list IndexGroupInfo) :=
  match gs with
  | [] => Some []
  | g :: gs' =>
      g' ← prune_mark_index id g;
      rest ← prune_index_groups id gs';
      Some (if ig_canDelete g' then rest else g' :: rest)
  end.

(** Run [f] on every value of a map; a single failure fails the walk. *)
Definition map_traverse {A B} (f : A → option B) (m : gmap string A) : option (gmap string B) :=
  if decide (map_Forall (λ _ a, is_Some (f a)) m) then Some (omap f m) else None.

(** [data.WalkDatabases(db.WalkRetentionPolicy(fn))] for an [fn] that
    rewrites one retention policy and may panic. *)
Definition walk_rps (fn : RetentionPolicyInfo → option RetentionPolicyInfo) : M unit :=
  d ← get;
  dbs ← must (map_traverse (λ db,
           rps ← map_traverse fn (db_RetentionPolicies db);
           Some (set_db_RetentionPolicies rps db)) (Databases d));
  modify (set_Databases dbs).

Definition pruneShardGroups (id : Z) : M (option error) :=
  walk_rps (λ rp, gs ← prune_shard_groups id (rp_ShardGroups rp);
                  Some (set_rp_ShardGroups gs rp)) ;;
  ok.

Definition pruneIndexGroups (id : Z) : M (option error) :=
  walk_rps (λ rp, gs ← prune_index_groups id (rp_IndexGroups rp);
                  Some (set_rp_IndexGroups gs rp)) ;;
  ok.

Definition PruneGroups (shardGroup : bool) (id : Z) : M (option error) :=
  if shardGroup then pruneShardGroups id else pruneIndexGroups id.

(** ** Data nodes *)

Definition DataNode_ (id : Z) (d : Data) : option (nat * DataNode) :=
  list_find (λ n, dn_ID n = id) (DataNodes d).

Definition expandDBPtView (database : string) (ptNum : Z) (newNode : DataNode) : M unit :=
  d ← get;
  let oldDBPtNums := wrap32 (Z.of_nat (length (DBPtView database d))) in
  if decide (ptNum = oldDBPtNums) then mret tt
  else if decide (ptNum < oldDBPtNums) then panic
  else
    replicaN ← DBReplicaN database;
    let replicaN := wrap32 replicaN in
    let dataNodeNum := wrap32 (Z.of_nat (length (DataNodes d))) in
    forM_ (seq (Z.to_nat oldDBPtNums) (Z.to_nat (ptNum - oldDBPtNums))) (λ ptId,
      updatePtStatus database (Z.of_nat ptId) (dn_ID newNode) Offline) ;;
    if decide (1 < replicaN ∧ dataNodeNum mod replicaN = 0) then
      d ← get;
      let oldRepGroupNum := wrap32 (Z.of_nat (length (DBRepGroups database d))) in
      let oldPtNum := wrap32 (wrap32 (Z.of_nat (length (DBPtView database d)))
                              - wrap32 (replicaN * PtNumPerNode d)) in
      createReplicationInner database replicaN oldRepGroupNum
        (wrap32 (oldRepGroupNum + PtNumPerNode d)) oldPtNum
    else mret tt.

Definition str_le (a b : string) : Prop := String.leb a b = true.
#[global] Instance str_le_dec a b : Decision (str_le a b).
Proof. unfold str_le. apply _. Defined.

(** The keys of a map in the order of [sort.Strings]. *)
Definition sorted_keys {A} (m : gmap string A) : list string :=
  merge_sort str_le (fst <$> map_to_list m).

(** The first loop of a turn of [ExpandGroups]: every index group grows
    to [ptNum] indexes. *)
Definition expand_indexes (ptNum : nat) (ig : IndexGroupInfo) : M IndexGroupInfo :=
  ixs ← foldM (λ ixs i,
      modify (λ d, set_MaxIndexID (incr64 (MaxIndexID d)) d) ;;
      d ← get;
      mret (ixs ++ [ {| ix_ID := MaxIndexID d; ix_Owners := [wrap32 (Z.of_nat i)];
                        ix_MarkDelete := false |} ]))
    (ig_Indexes ig) (seq (length (ig_Indexes ig)) (ptNum - length (ig_Indexes ig)));
  mret (set_ig_Indexes ixs ig).

(** The second loop: every shard group grows to [ptNum] shards; a new
    shard takes the tier of the shard before it. *)
Definition expand_shards (ptNum : nat) (rp : RetentionPolicyInfo) (sg : ShardGroupInfo)
  : M (RetentionPolicyInfo * ShardGroupInfo) :=
  '(rp, shards) ← foldM (λ '(rp, shards) i,
      '(rp, igi) ← createIndexGroupIfNeeded rp (sg_StartTime sg) (sg_EngineType sg)
                     (Z.of_nat ptNum);
      modify (λ d, set_MaxShardID (incr64 (MaxShardID d)) d) ;;
      d ← get;
      ix ← must (ig_Indexes igi !! i);
      prev ← must (if decide (i = 0)%nat then None else shards !! (i - 1)%nat);
      mret (rp, shards ++
        [ set_sh_IndexID (ix_ID ix)
            (set_sh_Owners [wrap32 (Z.of_nat i)] (zero_ShardInfo (MaxShardID d) (sh_Tier prev))) ]))
    (rp, sg_Shards sg) (seq (length (sg_Shards sg)) (ptNum - length (sg_Shards sg)));
  mret (rp, set_sg_Shards shards sg).

Definition ExpandGroups (env : Env) : M unit :=
  d ← get;
  forM_ (sorted_keys (Databases d)) (λ dbName,
    d ← get;
    db ← must (Databases d !! dbName);
    ptNum ← GetEffectivePtNum (db_Name db);
    let ptNum := Z.to_nat ptNum in
    forM_ (sorted_keys (db_RetentionPolicies db)) (λ rpName,
      d ← get;
      rp ← must (Databases d !! dbName ≫= (λ db, db_RetentionPolicies db !! rpName));
      if decide (shardingType env rp = RANGE) then mret tt
      else
        igs ← foldM (λ acc ig, ig ← expand_indexes ptNum ig; mret (acc ++ [ig]))
                [] (rp_IndexGroups rp);
        let rp := set_rp_IndexGroups igs rp in
        '(rp, sgs) ← foldM (λ '(rp, acc) sg,
                        '(rp, sg) ← expand_shards ptNum rp sg; mret (rp, acc ++ [sg]))
                      (rp, []) (rp_ShardGroups rp);
        modify (put_rp dbName rpName (set_rp_ShardGroups sgs rp)))).

Definition CreateDataNode (env : Env) (host tcpHost role : string) : M (option error * Z) :=
  modify (λ d, set_MaxConnID (incr64 (MaxConnID d)) d) ;;
  d ← get;
  match list_find (λ n, dn_TCPHost n = tcpHost) (DataNodes d) with
  | Some (i, n) =>
      modify (set_DataNodes (<[i := set_dn_ConnID (MaxConnID d) n]> (DataNodes d))) ;;
      mret (None, dn_ID n)
  | None =>
      let existingID :=
        if list_find (λ n, ni_TCPHost n = tcpHost) (MetaNodes d) is Some (_, n)
        then ni_ID n else 0 in
      existingID ←
        (if decide (existingID = 0)
         then modify (λ d, set_MaxNodeID (incr64 (MaxNodeID d)) d) ;; gets MaxNodeID
         else mret existingID);
      let dn :=
        {| dn_ID := existingID; dn_Host := host; dn_RPCAddr := ""; dn_TCPHost := tcpHost;
           dn_Status := 0; dn_LTime := 0; dn_GossipAddr := ""; dn_SegregateStatus := 0;
           dn_Role := role; dn_ConnID := MaxConnID d; dn_AliveConnID := 0 |} in
      modify (λ d, set_DataNodes (sort_DataNodeInfos (DataNodes d ++ [dn])) d) ;;
      d ← get;
      initDataNodePtView (ClusterPtNum d) ;;
      if decide (role = NodeReader) then mret (None, existingID)
      else
        d ← get;
        forM_ (fst <$> map_to_list (Databases d)) (λ db,
          d ← get; expandDBPtView db (ClusterPtNum d) dn) ;;
        (if ExpandShardsEnable d then ExpandGroups env else mret tt) ;;
        mret (None, existingID)
  end.

Definition updatePtViewStatus (nid : Z) (status : PtStatus) : M unit :=
  modify (λ d, set_PtView
    (fmap (M := gmap string) (fmap (M := list) (λ pi,
       if decide (pt_OwnerNodeID pi = nid)
       then set_pt_Ver (incr64 (pt_Ver pi)) (set_pt_Status status pi)
       else pi)) <$> PtView d) d).

Definition UpdateNodeStatus (env : Env) (id status lTime : Z) (gossipPort : string)
  : M (option error) :=
  d ← get;
  if negb (TakeOverEnabled d) then ok
  else
    match DataNode_ id d with
    | None => fail (ErrnoDataNodeNotFound id)
    | Some (i, dn) =>
        if decide (lTime < dn_LTime dn) then fail ErrnoOlderEvent
        else if decide (ha_policy env = SharedStorage ∧ status = StatusAlive ∧
                        dn_ConnID dn = dn_AliveConnID dn)
        then fail ErrnoDataNodeSplitBrain
        else
          let dn := set_dn_LTime lTime (set_dn_Status status dn) in
          let dn := if decide (status = StatusAlive)
                    then set_dn_AliveConnID (dn_ConnID dn) dn else dn in
          let dn := if decide (dn_GossipAddr dn = "")
                    then set_dn_GossipAddr (SplitHost env (dn_Host dn) +:+ ":" +:+ gossipPort) dn
                    else dn in
          modify (set_DataNodes (<[i := dn]> (DataNodes d))) ;;
          updatePtViewStatus id Offline ;;
          ok
    end.

Definition MarkTakeover (enable : bool) : M unit := modify (set_TakeOverEnabled enable).
Definition MarkBalancer (enable : bool) : M unit := modify (set_BalancerEnabled enable).

(** ** Clone *)

(** On values a copy of a slice or of a map is the slice or the map; the
    helpers are kept to show which fields [Clone] copies. *)
Definition CloneDataNodes (d : Data) : list DataNode := (λ n, n) <$> DataNodes d.
Definition CloneMetaNodes (d : Data) : list NodeInfo := (λ n, n) <$> MetaNodes d.
Definition CloneDatabases (d : Data) : gmap string DatabaseInfo := (λ x, x) <$> Databases d.
Definition CloneStreams (d : Data) : gmap string StreamInfo := (λ x, x) <$> Streams d.
Definition CloneUsers (d : Data) : list UserInfo := (λ u, u) <$> Users d.
Definition CloneDBPtView (d : Data) : option (gmap string (list PtInfo)) :=
  fmap (M := gmap string) (fmap (M := list) (λ pi, pi)) <$> PtView d.
Definition CloneMigrateEvents (d : Data) : gmap string opaque := (λ x, x) <$> MigrateEvents d.
Definition CloneQueryIDInit (d : Data) : gmap string Z := (λ x, x) <$> QueryIDInit d.

(** [other := *data] followed by the field-wise copies.  [ReplicaGroups]
    is not among them: [other] keeps the map of [data]. *)
Definition clone_fields (d : Data) : Data :=
  {| Term := Term d; Index := Index d; ClusterID := ClusterID d;
     ClusterPtNum := ClusterPtNum d; PtNumPerNode := PtNumPerNode d;
     MetaNodes := CloneMetaNodes d; DataNodes := CloneDataNodes d;
     PtView := CloneDBPtView d; ReplicaGroups := ReplicaGroups d;
     Databases := CloneDatabases d; Streams := CloneStreams d; Users := CloneUsers d;
     MigrateEvents := CloneMigrateEvents d; QueryIDInit := CloneQueryIDInit d;
     AdminUserExists := AdminUserExists d; TakeOverEnabled := TakeOverEnabled d;
     BalancerEnabled := BalancerEnabled d; ExpandShardsEnable := ExpandShardsEnable d;
     MaxNodeID := MaxNodeID d; MaxShardGroupID := MaxShardGroupID d;
     MaxShardID := MaxShardID d; MaxIndexGroupID := MaxIndexGroupID d;
     MaxIndexID := MaxIndexID d; MaxEventOpId := MaxEventOpId d;
     MaxDownSampleID := MaxDownSampleID d; MaxStreamID := MaxStreamID d;
     MaxConnID := MaxConnID d; MaxSubscriptionID := MaxSubscriptionID d;
     MaxCQChangeID := MaxCQChangeID d |}.

(** *** Catalogs that share a map

    A Go map is a reference.  To speak about a catalog and its clone at
    the same time, the [ReplicaGroups] maps live in a store and a catalog
    holds the address of its map ([None] for the nil map); every other
    field is a value of its own.  The operations above touch
    [ReplicaGroups] only by assigning or deleting an entry and by
    updating a group in place, or, when the field is nil, by storing a
    fresh map in it ([expandRepGroups]).  So running an operation on a
    catalog updates the map at its address, and allocates one when the
    field was nil. *)
Definition RGMap : Type := gmap string (list ReplicaGroup).

Record Catalog : Type := Build_Catalog {
  cat_fields : Data;
  cat_rg : option nat
}.

Definition view (st : gmap nat RGMap) (c : Catalog) : Data :=
  set_ReplicaGroups (cat_rg c ≫= (st !!.)) (cat_fields c).

Definition fresh_addr (st : gmap nat RGMap) : nat := fresh (dom st).

Definition run {A} (op : M A) (c : Catalog) (st : gmap nat RGMap)
  : option (A * Catalog * gmap nat RGMap) :=
  '(a, d') ← op (view st c);
  match cat_rg c, ReplicaGroups d' with
  | Some l, Some m => Some (a, {| cat_fields := d'; cat_rg := Some l |}, <[l := m]> st)
  | None, Some m =>
      let l := fresh_addr st in
      Some (a, {| cat_fields := d'; cat_rg := Some l |}, <[l := m]> st)
  | l, None => Some (a, {| cat_fields := d'; cat_rg := l |}, st)
  end.

Definition Clone (c : Catalog) : Catalog :=
  {| cat_fields := clone_fields (cat_fields c); cat_rg := cat_rg c |}.

(** ** Commands *)

(** A command is a call of one of the mutating methods above. *)
Inductive Command :=
  | CmdCreateDataNode (host tcpHost role : string)
  | CmdCreateDatabase (dbName : string) (rpi : option RetentionPolicyInfo)
      (shardKey : option ShardKeyInfo) (enableTagArray : bool) (replicaN : Z)
      (options : option opaque)
  | CmdCreateDBPtView (name : string)
  | CmdCreateReplication (db : string) (replicaN : Z)
  | CmdUpdateReplication (database : string) (rgId masterId : Z) (peers : list Peer)
      (status : RGStatus)
  | CmdMarkDatabaseDelete (name : string)
  | CmdDropDatabase (name : string)
  | CmdCreateMeasurement (database rpName mst : string) (shardKey : option ShardKeyInfo)
      (indexR : option opaque) (engineType : EngineType) (colStoreInfo : option opaque)
      (schemaInfo : list (string * Z)) (options : option opaque)
  | CmdUpdateSchema (database retentionPolicy mst : string) (fieldToCreate : list (string * Z))
  | CmdCreateShardGroup (database policy : string) (timestamp tier : Z)
      (engineType : EngineType) (version : Z)
  | CmdReSharding (info : ReShardingInfo)
  | CmdDeleteShardGroup (database policy : string) (id : Z)
  | CmdDeleteIndexGroup (database policy : string) (id : Z)
  | CmdPruneGroups (shardGroup : bool) (id : Z)
  | CmdUpdateNodeStatus (id status lTime : Z) (gossipPort : string)
  | CmdMarkTakeover (enable : bool)
  | CmdMarkBalancer (enable : bool)
  | CmdCreateUser (name hash : string) (admin rwuser : bool)
  | CmdDropUser (name : string)
  | CmdUpdateUser (name hash : string)
  | CmdSetPrivilege (name database : string) (p : Z)
  | CmdSetAdminPrivilege (name : string) (admin : bool).

Definition apply (env : Env) (c : Command) : M (option error) :=
  match c with
  | CmdCreateDataNode host tcpHost role =>
      r ← CreateDataNode env host tcpHost role; mret (fst r)
  | CmdCreateDatabase dbName rpi shardKey enableTagArray replicaN options =>
      CreateDatabase env dbName rpi shardKey enableTagArray replicaN options
  | CmdCreateDBPtView name => CreateDBPtView env name
  | CmdCreateReplication db replicaN => CreateReplication db replicaN
  | CmdUpdateReplication database rgId masterId peers status =>
      UpdateReplication database rgId masterId peers status
  | CmdMarkDatabaseDelete name => MarkDatabaseDelete name
  | CmdDropDatabase name => DropDatabase name ;; ok
  | CmdCreateMeasurement database rpName mst shardKey indexR engineType colStoreInfo
      schemaInfo options =>
      CreateMeasurement env database rpName mst shardKey indexR engineType colStoreInfo
        schemaInfo options
  | CmdUpdateSchema database retentionPolicy mst fieldToCreate =>
      UpdateSchema database retentionPolicy mst fieldToCreate
  | CmdCreateShardGroup database policy timestamp tier engineType version =>
      CreateShardGroup env database policy timestamp tier engineType version
  | CmdReSharding info => ReSharding info
  | CmdDeleteShardGroup database policy id => DeleteShardGroup env database policy id
  | CmdDeleteIndexGroup database policy id => DeleteIndexGroup env database policy id
  | CmdPruneGroups shardGroup id => PruneGroups shardGroup id
  | CmdUpdateNodeStatus id status lTime gossipPort =>
      UpdateNodeStatus env id status lTime gossipPort
  | CmdMarkTakeover enable => MarkTakeover enable ;; ok
  | CmdMarkBalancer enable => MarkBalancer enable ;; ok
  | CmdCreateUser name hash admin rwuser => CreateUser name hash admin rwuser
  | CmdDropUser name => DropUser name
  | CmdUpdateUser name hash => UpdateUser name hash
  | CmdSetPrivilege name database p => SetPrivilege name database p
  | CmdSetAdminPrivilege name admin => SetAdminPrivilege name admin
  end.

(** The catalog before the first command: every field at its zero value
    but the two that come from the configuration. *)
Definition init_data (ptNumPerNode : Z) (expandShardsEnable : bool) : Data :=
  {| Term := 0; Index := 0; ClusterID := 0; ClusterPtNum := 0;
     PtNumPerNode := ptNumPerNode; MetaNodes := []; DataNodes := [];
     PtView := None; ReplicaGroups := None; Databases := ∅; Streams := ∅; Users := [];
     MigrateEvents := ∅; QueryIDInit := ∅; AdminUserExists := false;
     TakeOverEnabled := false; BalancerEnabled := false;
     ExpandShardsEnable := expandShardsEnable; MaxNodeID := 0; MaxShardGroupID := 0;
     MaxShardID := 0; MaxIndexGroupID := 0; MaxIndexID := 0; MaxEventOpId := 0;
     MaxDownSampleID := 0; MaxStreamID := 0; MaxConnID := 0; MaxSubscriptionID := 0;
     MaxCQChangeID := 0 |}.

(** The catalogs a sequence of commands can produce.  A command that
    panics produces none. *)
Inductive reachable : Data → Prop :=
  | reach_init ptNumPerNode expandShardsEnable :
      reachable (init_data ptNumPerNode expandShardsEnable)
  | reach_step env c d r d' :
      reachable d → apply env c d = Some (r, d') → reachable d'.

(** Run a list of commands, keeping the results. *)
Fixpoint run_commands (env : Env) (cs : list Command) (d : Data)
  : option (list (option error) * Data) :=
  match cs with
  | [] => Some ([], d)
  | c :: cs' =>
      '(r, d') ← apply env c d;
      '(rs, d'') ← run_commands env cs' d';
      Some (r :: rs, d'')
  end.

(** * Vocabulary of the properties *)

(** [m] returns with the [proj] part of the catalog as it found it. *)
Definition keeps {F A} (proj : Data → F) (m : M A) : Prop :=
  ∀ d a d', m d = Some (a, d') → proj d' = proj d.

(** The part of the user registry that decides who is an admin: names and
    admin flags in order, and the cached flag. *)
Definition user_sig (d : Data) : list (string * bool) * bool :=
  ((λ u, (ui_Name u, ui_Admin u)) <$> Users d, AdminUserExists d).

(** Every command but [CreateUser] and [DropUser] leaves names, admin
    flags and the cached flag as they are. *)
Definition user_command (c : Command) : bool :=
  match c with
  | CmdCreateUser _ _ _ _ | CmdDropUser _ => true
  | _ => false
  end.

Definition is_admin (u : UserInfo) : Prop := ui_Admin u = true.

#[global] Instance is_admin_dec u : Decision (is_admin u).
Proof. unfold is_admin. apply _. Defined.

Definition admin_count (d : Data) : nat := length (filter is_admin (Users d)).

(** At most one admin, and the cache tells whether there is one. *)
Definition user_inv (d : Data) : Prop :=
  (admin_count d ≤ 1)%nat ∧ HasAdminUser d = AdminUserExists d.

(** An admin is created, a second one is refused, and dropping the admin
    is refused. *)
Definition admin_scenario : list Command :=
  [ CmdCreateUser "root" "h0" true false;
    CmdCreateUser "guest" "h1" false true;
    CmdCreateUser "root2" "h2" true false;
    CmdDropUser "root";
    CmdDropUser "guest" ].

Definition plain_env : Env :=
  {| ha_policy := WriteAvailableFirst; now := 1704070000000000000;
     CheckSpecValid := λ _, None; validMeasurementShardType := λ _ _ _, None;
     shardingType := λ _, HASH;
     any_measurement := λ m, snd <$> head (map_to_list m);
     SplitHost := λ h, h |}.

(** The catalog after [cs], started from the empty catalog; the empty
    catalog again should a command panic. *)
Definition after (env : Env) (ptNumPerNode : Z) (cs : list Command) : Data :=
  match run_commands env cs (init_data ptNumPerNode false) with
  | Some (_, d) => d
  | None => init_data ptNumPerNode false
  end.

Definition root_user : UserInfo :=
  {| ui_Name := "root"; ui_Hash := "h0"; ui_Admin := true; ui_Rwuser := false;
     ui_Privileges := ∅ |}.

Definition root_and_guest : Data :=
  after plain_env 2 [ CmdCreateUser "root" "h0" true false;
                      CmdCreateUser "guest" "h1" false true ].

Definition hour : Z := 3600 * 1000000000.

Definition autogen : RetentionPolicyInfo :=
  {| rp_Name := "autogen"; rp_ReplicaN := 1; rp_Duration := 0;
     rp_ShardGroupDuration := hour; rp_HotDuration := 0; rp_WarmDuration := 0;
     rp_IndexGroupDuration := 24 * hour; rp_IndexGroups := []; rp_Measurements := ∅;
     rp_MstVersions := ∅; rp_ShardGroups := []; rp_Subscriptions := [];
     rp_DownSamplePolicyInfo := None; rp_MarkDeleted := false |}.

(** One data node with two pts, and the database [db0]. *)
Definition with_db0 : Data :=
  after plain_env 2
    [ CmdCreateDataNode "h1:8086" "h1:8400" "writer";
      CmdCreateDatabase "db0" (Some autogen) None false 1 None;
      CmdCreateDBPtView "db0" ].

Definition db0_marked : Data :=
  after plain_env 2
    [ CmdCreateDataNode "h1:8086" "h1:8400" "writer";
      CmdCreateDatabase "db0" (Some autogen) None false 1 None;
      CmdCreateDBPtView "db0";
      CmdMarkDatabaseDelete "db0" ].

(** The live measurement [mst] of a retention policy and the key it is
    stored under: what [Measurement] finds, without its side effect. *)
Definition find_measurement (database retentionPolicy mst : string) (d : Data)
  : option (string * MeasurementInfo) :=
  match RetentionPolicy database retentionPolicy d with
  | inl _ => None
  | inr rp =>
      match rp_Measurement mst rp with
      | Some (key, msti) => if mst_MarkDeleted msti then None else Some (key, msti)
      | None => None
      end
  end.

(** Scenario S1 up to the measurement: [cpu] with the field [host] of
    type 4. *)
Definition with_cpu : Data :=
  after plain_env 2
    [ CmdCreateDataNode "h1:8086" "h1:8400" "writer";
      CmdCreateDatabase "db0" (Some autogen) None false 1 None;
      CmdCreateDBPtView "db0";
      CmdCreateMeasurement "db0" "autogen" "cpu"
        (Some {| sk_ShardKey := ["host"]; sk_Type := HASH; sk_ShardGroup := 0 |})
        None TSSTORE None [("host", 4)] None ].

(** The measurement [cpu] as [with_cpu] holds it. *)
Definition cpu_0 : MeasurementInfo :=
  {| mst_Name := "cpu_0"; mst_originName := "cpu";
     mst_ShardKeys := [ {| sk_ShardKey := ["host"]; sk_Type := HASH; sk_ShardGroup := 1 |} ];
     mst_Schema := {[ "host" := 4 ]}; mst_IndexRelation := None;
     mst_ColStoreInfo := None; mst_MarkDeleted := false;
     mst_EngineType := TSSTORE; mst_Options := None; mst_ObsOptions := None |}.

(** What [updatePtViewStatus nid Offline] makes of one pt. *)
Definition taken_offline (nid : Z) (pi : PtInfo) : PtInfo :=
  if decide (pt_OwnerNodeID pi = nid)
  then {| pt_OwnerNodeID := pt_OwnerNodeID pi; pt_Status := Offline; pt_PtId := pt_PtId pi;
          pt_Ver := (pt_Ver pi + 1) mod 2 ^ 64; pt_RGID := pt_RGID pi |}
  else pi.

(** Scenario S3: S1 up to the database, with take-over switched on. *)
Definition with_takeover : Data :=
  after plain_env 2
    [ CmdCreateDataNode "h1:8086" "h1:8400" "writer";
      CmdCreateDatabase "db0" (Some autogen) None false 1 None;
      CmdCreateDBPtView "db0";
      CmdMarkTakeover true ].

Definition node1 : DataNode :=
  {| dn_ID := 1; dn_Host := "h1:8086"; dn_RPCAddr := ""; dn_TCPHost := "h1:8400";
     dn_Status := 0; dn_LTime := 0; dn_GossipAddr := ""; dn_SegregateStatus := 0;
     dn_Role := "writer"; dn_ConnID := 1; dn_AliveConnID := 0 |}.

Definition StatusFailed : Z := 4.

(** [g'] is [g] after the marking step of [pruneShardGroups id]: when
    [id] lies between the ids of the first and of the last shard, one
    shard is marked, at a position whose shard has an id of at least [id]
    and whose predecessor has a smaller id; otherwise nothing changes. *)
Definition shard_marked (id : Z) (g g' : ShardGroupInfo) : Prop :=
  ∃ first final,
    head (sg_Shards g) = Some first ∧ last (sg_Shards g) = Some final ∧
    if decide (sh_ID first ≤ id ∧ id ≤ sh_ID final) then
      ∃ pos s,
        sg_Shards g !! pos = Some s ∧ id ≤ sh_ID s ∧
        (∀ s0, sg_Shards g !! (pos - 1)%nat = Some s0 → (0 < pos)%nat → sh_ID s0 < id) ∧
        g' = set_sg_Shards (<[pos := set_sh_MarkDelete true s]> (sg_Shards g)) g
    else g' = g.

Definition index_marked (id : Z) (g g' : IndexGroupInfo) : Prop :=
  ∃ first final,
    head (ig_Indexes g) = Some first ∧ last (ig_Indexes g) = Some final ∧
    if decide (ix_ID first ≤ id ∧ id ≤ ix_ID final) then
      ∃ pos x,
        ig_Indexes g !! pos = Some x ∧ id ≤ ix_ID x ∧
        (∀ x0, ig_Indexes g !! (pos - 1)%nat = Some x0 → (0 < pos)%nat → ix_ID x0 < id) ∧
        g' = set_ig_Indexes (<[pos := set_ix_MarkDelete true x]> (ig_Indexes g)) g
    else g' = g.

(** No group of the catalog is empty. *)
Definition groups_inhabited (d : Data) : Prop :=
  map_Forall (λ _ dbi,
    map_Forall (λ _ rp,
      Forall (λ g, sg_Shards g ≠ []) (rp_ShardGroups rp) ∧
      Forall (λ g, ig_Indexes g ≠ []) (rp_IndexGroups rp))
    (db_RetentionPolicies dbi)) (Databases d).

#[global] Instance groups_inhabited_dec d : Decision (groups_inhabited d).
Proof. unfold groups_inhabited. apply _. Defined.

(** The policy [rpn] of the database [db]. *)
Definition policy_of (db rpn : string) (d : Data) : option RetentionPolicyInfo :=
  Databases d !! db ≫= (λ dbi, db_RetentionPolicies dbi !! rpn).

(** Scenario S1. *)
Definition S1 : list Command :=
  [ CmdCreateDataNode "h1:8086" "h1:8400" "writer";
    CmdCreateDatabase "db0" (Some autogen) None false 1 None;
    CmdCreateDBPtView "db0";
    CmdCreateMeasurement "db0" "autogen" "cpu"
      (Some {| sk_ShardKey := ["host"]; sk_Type := HASH; sk_ShardGroup := 0 |})
      None TSSTORE None [("host", 4)] None;
    CmdCreateShardGroup "db0" "autogen" (1704069000 * 1000000000) 1 TSSTORE 0 ].

Definition after_S1 : Data := after plain_env 2 S1.

(** A shard group goes when it is deleted and all its shards are marked. *)
Definition sg_done (g : ShardGroupInfo) : Prop :=
  IsZero (sg_DeletedAt g) = false ∧ Forall (λ s, sh_MarkDelete s = true) (sg_Shards g).

#[global] Instance sg_done_dec g : Decision (sg_done g).
Proof. unfold sg_done. apply _. Defined.

(** [after_S1] pruned at shard id 2, and the first shard of its shard
    group. *)
Definition pruned_S1 : Data :=
  match pruneShardGroups 2 after_S1 with
  | Some (_, d) => d
  | None => after_S1
  end.

Definition shard_1 : ShardInfo :=
  {| sh_ID := 1; sh_Owners := [0]; sh_Min := ""; sh_Max := ""; sh_Tier := 1;
     sh_IndexID := 1; sh_DownSampleID := 0; sh_DownSampleLevel := 0;
     sh_ReadOnly := false; sh_MarkDelete := false |}.

(** What [GetEffectivePtNum db] reads, for a database that exists. *)
Definition effective_pt_num (db : string) (d : Data) : Z :=
  match Databases d !! db with
  | Some dbi =>
      let replicaN := if decide (db_ReplicaN dbi = 0) then 1 else db_ReplicaN dbi in
      if decide (replicaN = 1) then ClusterPtNum d
      else wrap32 (replicaN * Z.of_nat (length (DBRepGroups db d)))
  | None => 0
  end.

(** A counter after [n] increments. *)
Definition bump (n : nat) (x : Z) : Z := Nat.iter n incr64 x.

(** The [n] indexes allocated when the index counter stands at [base]:
    index [i] has the [i+1]-th next id and is owned by pt [i]. *)
Definition fresh_indexes (base : Z) (n : nat) : list IndexInfo :=
  (λ i, {| ix_ID := bump (S i) base; ix_Owners := [wrap32 (Z.of_nat i)];
           ix_MarkDelete := false |}) <$> seq 0 n.

(** Shard [i] of a re-sharding by [bounds], in closed form: ids are
    allocated from [base], the paired index group is [igi], and the
    database has [ptNum] pts. *)
Definition bounds_shard (bounds : list string) (tier : Z) (igi : IndexGroupInfo)
    (ptNum : nat) (base : Z) (i : nat) : ShardInfo :=
  {| sh_ID := bump (S i) base;
     sh_Owners := if decide (i < ptNum)%nat then [wrap32 (Z.of_nat i)] else [];
     sh_Min := if decide (0 < i)%nat then default "" (bounds !! (i - 1)%nat) else "";
     sh_Max := if decide (i ≠ length bounds) then default "" (bounds !! i) else "";
     sh_Tier := tier;
     sh_IndexID := if decide (i < ptNum)%nat
                   then default 0 (ix_ID <$> ig_Indexes igi !! i) else 0;
     sh_DownSampleID := 0; sh_DownSampleLevel := 0; sh_ReadOnly := false;
     sh_MarkDelete := false |}.

(** A re-sharding of the shard group of scenario S1 into three shards;
    the database has two pts. *)
Definition three_way : ReShardingInfo :=
  {| rs_Database := "db0"; rs_Rp := "autogen"; rs_ShardGroupID := 1;
     rs_SplitTime := (1704069000 + 900) * 1000000000; rs_Bounds := ["a"; "b"] |}.

Definition after_three_way : Data :=
  match ReSharding three_way after_S1 with
  | Some (_, d) => d
  | None => after_S1
  end.

(** The retention policy of [after_S1], its shard group, and the third
    shard of the group made by [three_way]. *)
Definition policy_S1 : RetentionPolicyInfo :=
  default autogen (policy_of "db0" "autogen" after_S1).

Definition group_S1 : ShardGroupInfo :=
  {| sg_ID := 1; sg_StartTime := 1704067200 * 1000000000;
     sg_EndTime := 1704070800 * 1000000000; sg_DeletedAt := zero_time;
     sg_Shards := [ shard_1;
                    {| sh_ID := 2; sh_Owners := [1]; sh_Min := ""; sh_Max := "";
                       sh_Tier := 1; sh_IndexID := 2; sh_DownSampleID := 0;
                       sh_DownSampleLevel := 0; sh_ReadOnly := false;
                       sh_MarkDelete := false |} ];
     sg_EngineType := TSSTORE; sg_Version := 0 |}.

Definition shard_5 : ShardInfo :=
  {| sh_ID := 5; sh_Owners := []; sh_Min := "b"; sh_Max := ""; sh_Tier := 1;
     sh_IndexID := 0; sh_DownSampleID := 0; sh_DownSampleLevel := 0;
     sh_ReadOnly := false; sh_MarkDelete := false |}.

(** Scenario S6: one pt per node, four data nodes, a database with two
    replicas under the replication policy. *)
Definition replication_env : Env :=
  {| ha_policy := Replication; now := 1704070000000000000;
     CheckSpecValid := λ _, None; validMeasurementShardType := λ _ _ _, None;
     shardingType := λ _, HASH;
     any_measurement := λ m, snd <$> head (map_to_list m);
     SplitHost := λ h, h |}.

Definition rpR : RetentionPolicyInfo :=
  {| rp_Name := "rpR"; rp_ReplicaN := 2; rp_Duration := 0;
     rp_ShardGroupDuration := hour; rp_HotDuration := 0; rp_WarmDuration := 0;
     rp_IndexGroupDuration := 24 * hour; rp_IndexGroups := []; rp_Measurements := ∅;
     rp_MstVersions := ∅; rp_ShardGroups := []; rp_Subscriptions := [];
     rp_DownSamplePolicyInfo := None; rp_MarkDeleted := false |}.

Definition S6 : list Command :=
  [ CmdCreateDataNode "h1:8086" "h1:8400" "writer";
    CmdCreateDataNode "h2:8086" "h2:8400" "writer";
    CmdCreateDataNode "h3:8086" "h3:8400" "writer";
    CmdCreateDataNode "h4:8086" "h4:8400" "writer";
    CmdCreateDatabase "dbR" (Some rpR) None false 2 None;
    CmdCreateDBPtView "dbR";
    CmdCreateReplication "dbR" 2 ].

Definition after_S6 : Data := after replication_env 1 S6.

(** The pt [p] of the view of [db]. *)
Definition pt_of (db : string) (d : Data) (p : Z) : option PtInfo :=
  DBPtView db d !! Z.to_nat p.

Definition slave (p : Z) : Peer := {| peer_ID := p; peer_PtRole := Slave |}.

Definition group_of (id master : Z) (peers : list Z) : ReplicaGroup :=
  {| rg_ID := id; rg_MasterPtID := master; rg_Peers := slave <$> peers;
     rg_Status := Health; rg_Term := 0 |}.

(** The shard/index link of invariant C1, for a shard [s] of the shard
    group [g] of the policy [rp]: an index group of [rp] overlaps [g],
    has the engine type of [g], and holds at position [owners[0]] an
    index with the id [index_id] of [s] and the owners of [s]. *)
Definition index_of_shard (rp : RetentionPolicyInfo) (g : ShardGroupInfo) (s : ShardInfo)
  : Prop :=
  ∃ owner igi ix,
    head (sh_Owners s) = Some owner ∧
    igi ∈ rp_IndexGroups rp ∧
    ig_Overlaps igi (sg_StartTime g) (sg_EndTime g) = true ∧
    ig_EngineType igi = sg_EngineType g ∧
    ig_Indexes igi !! Z.to_nat owner = Some ix ∧
    sh_IndexID s = ix_ID ix ∧
    ix_Owners ix = sh_Owners s.

Definition shard_index_inv (d : Data) : Prop :=
  ∀ db rpn rp g s,
    policy_of db rpn d = Some rp → g ∈ rp_ShardGroups rp → s ∈ sg_Shards g →
    index_of_shard rp g s.

(** Index [i] of an index group is owned by the pt [i]. *)
Definition owned_by_position (g : IndexGroupInfo) : Prop :=
  ∀ i ix, ig_Indexes g !! i = Some ix → ix_Owners ix = [Z.of_nat i].

(** Shard [i] of a hash-sharded shard group, in closed form. *)
Definition hash_shard (tier : Z) (igi : IndexGroupInfo) (base : Z) (i : nat) : ShardInfo :=
  {| sh_ID := bump (S i) base; sh_Owners := [wrap32 (Z.of_nat i)]; sh_Min := "";
     sh_Max := ""; sh_Tier := tier;
     sh_IndexID := default 0 (ix_ID <$> ig_Indexes igi !! i);
     sh_DownSampleID := 0; sh_DownSampleLevel := 0; sh_ReadOnly := false;
     sh_MarkDelete := false |}.

(** A timestamp in the hour after the shard group of scenario S1. *)
Definition next_hour : Z := (1704069000 + 3600) * 1000000000.

(** The catalog of scenario S6 with its replica groups in the store at
    address 0. *)
Definition store_S6 : gmap nat RGMap := {[ 0%nat := default ∅ (ReplicaGroups after_S6) ]}.

Definition catalog_S6 : Catalog := {| cat_fields := after_S6; cat_rg := Some 0%nat |}.

(** * Further operations of data.go *)

(** ** Users: privileges *)

(** [originql.NoPrivileges] *)
Definition NoPrivileges : Z := 0.

(** The loop over [ui.Privileges] returns at the key [database]; without
    such a key the result is [NoPrivileges]. *)
Definition UserPrivilege (name database : string) (d : Data) : error + Z :=
  match GetUser name d with
  | None => inl ErrUserNotFound
  | Some ui => inr (default NoPrivileges (ui_Privileges ui !! database))
  end.

(** The first user of a list with the name [n], as [GetUser] finds it. *)
Definition user_named (n : string) (l : list UserInfo) : option UserInfo :=
  snd <$> list_find (has_name n) l.

(** The user [CreateUser] appends. *)
Definition new_user (name hash : string) (admin rwuser : bool) : UserInfo :=
  {| ui_Name := name; ui_Hash := hash; ui_Admin := admin; ui_Rwuser := rwuser;
     ui_Privileges := ∅ |}.

(** A catalog with an admin and the user [guest]. *)
Definition two_users : Data :=
  after plain_env 2 [ CmdCreateUser "root" "h0" true false;
                      CmdCreateUser "guest" "h1" false true ].

(** ** Retention policies *)

Definition set_rp_MarkDeleted (v : bool) (x : RetentionPolicyInfo) : RetentionPolicyInfo :=
  {| rp_Name := rp_Name x; rp_ReplicaN := rp_ReplicaN x; rp_Duration := rp_Duration x;
     rp_ShardGroupDuration := rp_ShardGroupDuration x; rp_HotDuration := rp_HotDuration x;
     rp_WarmDuration := rp_WarmDuration x; rp_IndexGroupDuration := rp_IndexGroupDuration x;
     rp_IndexGroups := rp_IndexGroups x; rp_Measurements := rp_Measurements x;
     rp_MstVersions := rp_MstVersions x; rp_ShardGroups := rp_ShardGroups x;
     rp_Subscriptions := rp_Subscriptions x;
     rp_DownSamplePolicyInfo := rp_DownSamplePolicyInfo x; rp_MarkDeleted := v |}.

Definition set_mst_MarkDeleted (v : bool) (x : MeasurementInfo) : MeasurementInfo :=
  {| mst_Name := mst_Name x; mst_originName := mst_originName x;
     mst_ShardKeys := mst_ShardKeys x; mst_Schema := mst_Schema x;
     mst_IndexRelation := mst_IndexRelation x; mst_ColStoreInfo := mst_ColStoreInfo x;
     mst_MarkDeleted := v; mst_EngineType := mst_EngineType x;
     mst_Options := mst_Options x; mst_ObsOptions := mst_ObsOptions x |}.

(** [dbi] points into [data.Databases]; the database is stored back under
    the key it was found at. *)
Definition CreateRetentionPolicy (env : Env) (dbName : string)
    (rpi : option RetentionPolicyInfo) (makeDefault : bool) : M (option error) :=
  d ← get;
  match GetDatabase dbName d with
  | inl err => fail err
  | inr dbi =>
      match CheckCanCreateRetentionPolicy env dbi rpi makeDefault with
      | Some err => if decide (err = ErrRetentionPolicyExists) then ok else fail err
      | None =>
          rpi ← must rpi;
          modify (set_Databases (<[dbName := SetRetentionPolicy dbi rpi makeDefault]> (Databases d))) ;;
          ok
      end
  end.

Definition DropRetentionPolicy (database name : string) : M (option error) :=
  d ← get;
  match GetDatabase database d with
  | inl err => fail err
  | inr di =>
      if decide (db_RetentionPolicies di = ∅) then ok
      else
        modify (set_Databases
          (<[database := set_db_RetentionPolicies (delete name (db_RetentionPolicies di)) di]>
             (Databases d))) ;;
        ok
  end.

Definition CheckStreamExistInRetention (database rp : string) (d : Data) : option error :=
  if decide (map_Forall (λ _ v,
       ¬ ((smi_Database (st_SrcMst v) = database ∧ smi_RetentionPolicy (st_SrcMst v) = rp) ∨
          (smi_Database (st_DesMst v) = database ∧ smi_RetentionPolicy (st_DesMst v) = rp)))
       (Streams d))
  then None else Some ErrDropStreamFirst.

Definition CheckStreamExistInMst (database rp mst : string) (d : Data) : option error :=
  if decide (map_Forall (λ _ v,
       ¬ ((smi_Database (st_SrcMst v) = database ∧ smi_Name (st_SrcMst v) = mst ∧
           smi_RetentionPolicy (st_SrcMst v) = rp) ∨
          (smi_Database (st_DesMst v) = database ∧ smi_Name (st_DesMst v) = mst ∧
           smi_RetentionPolicy (st_DesMst v) = rp)))
       (Streams d))
  then None else Some ErrDropStreamFirst.

Definition MarkRetentionPolicyDelete (database name : string) : M (option error) :=
  d ← get;
  match RetentionPolicy database name d with
  | inl err => fail err
  | inr rp =>
      if CheckStreamExistInRetention database name d is Some e then fail e
      else if checkMigrateConflict database d is Some err then fail err
      else modify (put_rp database name (set_rp_MarkDeleted true rp)) ;; ok
  end.

Definition SetDefaultRetentionPolicy (database name : string) : M (option error) :=
  d ← get;
  match GetDatabase database d with
  | inl err => fail err
  | inr di =>
      match GetRetentionPolicy name di with
      | inl err => fail err
      | inr _ =>
          modify (set_Databases
            (<[database := set_db_DefaultRetentionPolicy name di]> (Databases d))) ;;
          ok
      end
  end.

(** ** Measurements: delete and drop *)

Definition MarkMeasurementDelete (database policy measurement : string) : M (option error) :=
  r ← Measurement database policy measurement;
  match r with
  | inl err => fail err
  | inr (key, mst) =>
      d ← get;
      if CheckStreamExistInMst database policy measurement d is Some e then fail e
      else if checkMigrateConflict database d is Some err then fail err
      else modify (put_mst database policy key (set_mst_MarkDeleted true mst)) ;; ok
  end.

(** The loop over [rpi.Measurements] acts at the key [nameWithVer]
    only. *)
Definition DropMeasurement (database policy nameWithVer : string) : M (option error) :=
  d ← get;
  match RetentionPolicy database policy d with
  | inl err => fail err
  | inr rpi =>
      match rp_Measurements rpi !! nameWithVer with
      | Some m =>
          if mst_MarkDeleted m
          then modify (put_rp database policy
                 (set_rp_Measurements (delete nameWithVer (rp_Measurements rpi)) rpi)) ;; ok
          else ok
      | None => ok
      end
  end.

(** The version [CreateMeasurement] gives a measurement that is not
    live: one more than the last version of the name, in 16 bits. *)
Definition next_version (mst : string) (rp : RetentionPolicyInfo) : Z :=
  if rp_MstVersions rp !! mst is Some version
  then Z.land (wrap32 (mv_Version version + 1)) 65535 else 0.

(** A second retention policy for [db0]. *)
Definition weekly : RetentionPolicyInfo :=
  {| rp_Name := "weekly"; rp_ReplicaN := 1; rp_Duration := 168 * hour;
     rp_ShardGroupDuration := 24 * hour; rp_HotDuration := 0; rp_WarmDuration := 0;
     rp_IndexGroupDuration := 168 * hour; rp_IndexGroups := []; rp_Measurements := ∅;
     rp_MstVersions := ∅; rp_ShardGroups := []; rp_Subscriptions := [];
     rp_DownSamplePolicyInfo := None; rp_MarkDeleted := false |}.

(** An operation refuses with [e] and leaves the catalog as it is. *)
Definition refused (e : error) (m : M (option error)) (d : Data) : Prop :=
  m d = Some (Some e, d).

(** The database [db0] as [with_db0] holds it. *)
Definition db0_info : DatabaseInfo :=
  {| db_Name := "db0"; db_DefaultRetentionPolicy := "autogen";
     db_RetentionPolicies := <["autogen" := autogen]> ∅; db_MarkDeleted := false;
     db_ShardKey := {| sk_ShardKey := []; sk_Type := ""; sk_ShardGroup := 0 |};
     db_EnableTagArray := false; db_ReplicaN := 1; db_Options := None |}.

(** The shard key [CreateMeasurement] works with. *)
Definition ski_of (shardKey : option ShardKeyInfo) : ShardKeyInfo :=
  if shardKey is Some sk then unmarshal_ski sk
  else {| sk_ShardKey := []; sk_Type := ""; sk_ShardGroup := 0 |}.

(** The checks [CreateMeasurement] makes on the shard key and on the
    column-store information pass. *)
Definition measurement_args_ok (env : Env) (rp : RetentionPolicyInfo) (mst : string)
    (shardKey : option ShardKeyInfo) (colStoreInfo : option opaque) : Prop :=
  (∀ sk, shardKey = Some sk →
     validMeasurementShardType env rp (sk_Type sk) mst = None ∧
     ¬ (1 < rp_ReplicaN rp ∧ sk_Type sk = RANGE)) ∧
  (colStoreInfo = None ∨ rp_ReplicaN rp ≤ 1).

(** ** Errors of the operations below *)

(** The errors that only the operations of this part return. *)
Inductive error2 :=
  | ErrDataNodeNotFoundf (nodeId : Z)
  | ErrDataNodeSegregatedf (nodeId status : Z)
  | ErrnoDataNoAliveAt (nodeId : Z)
  | ErrNodeIDRequired
  | ErrNodeNotFound
  | ErrNodeIdf (nodeId : Z)
  | ErrnoPtNotFound
  | ErrnoPtChanged
  | ErrInvalidShardKey
  | ErrDuplicateShardKey.

#[global] Instance error2_eq_dec : EqDecision error2.
Proof. solve_decision. Defined.

(** ** Data nodes *)

Definition has_id (id : Z) (n : DataNode) : Prop := dn_ID n = id.

#[global] Instance has_id_dec id n : Decision (has_id id n).
Proof. unfold has_id. apply _. Defined.

Definition GetNodeIndex (nodeId : Z) (d : Data) : error + Z :=
  match list_find (has_id nodeId) (DataNodes d) with
  | Some (i, _) => inr (Z.of_nat i)
  | None => inl (ErrnoDataNodeNotFound nodeId)
  end.

(** [None] is the panic of an index out of range at
    [data.DataNodes[nodeIndex]]. *)
Definition CheckDataNodeAlive (nodeId : Z) (d : Data) : option (option error2) :=
  match GetNodeIndex nodeId d with
  | inl _ => Some (Some (ErrDataNodeNotFoundf nodeId))
  | inr nodeIndex =>
      n ← DataNodes d !! Z.to_nat nodeIndex;
      if decide (dn_SegregateStatus n ≠ Normal)
      then Some (Some (ErrDataNodeSegregatedf nodeId (dn_SegregateStatus n)))
      else if decide (dn_Status n ≠ StatusAlive) then Some (Some (ErrnoDataNoAliveAt nodeId))
      else Some None
  end.

Definition GetSegregateStatusByNodeId (nodeId : Z) (d : Data) : Z :=
  match list_find (has_id nodeId) (DataNodes d) with
  | Some (_, dn) => dn_SegregateStatus dn
  | None => Normal
  end.

(** The outer loop stops at the first id without a node. *)
Fixpoint segregate_statuses (nodes : list DataNode) (nodeIds : list Z) : error2 + list Z :=
  match nodeIds with
  | [] => inr []
  | nodeId :: rest =>
      match list_find (has_id nodeId) nodes with
      | Some (_, dn) =>
          match segregate_statuses nodes rest with
          | inr l => inr (dn_SegregateStatus dn :: l)
          | inl e => inl e
          end
      | None => inl (ErrNodeIdf nodeId)
      end
  end.

Definition GetNodeSegregateStatus (nodeIds : list Z) (d : Data) : error2 + list Z :=
  segregate_statuses (DataNodes d) nodeIds.

(** [status[i]] is read only when a node has the id [nodeIds[i]]; it must
    exist then. *)
Fixpoint set_segregate (status : list Z) (i : nat) (nodeIds : list Z) (nodes : list DataNode)
  : option (list DataNode) :=
  match nodeIds with
  | [] => Some nodes
  | id :: rest =>
      match list_find (has_id id) nodes with
      | Some (idx, node) =>
          s ← status !! i;
          set_segregate status (S i) rest (<[idx := set_dn_SegregateStatus s node]> nodes)
      | None => set_segregate status (S i) rest nodes
      end
  end.

Definition SetSegregateNodeStatus (status nodeIds : list Z) : M unit :=
  d ← get;
  nodes ← must (set_segregate status 0 nodeIds (DataNodes d));
  modify (set_DataNodes nodes).

Definition GetNodeIDs (d : Data) : list Z := dn_ID <$> DataNodes d.

Definition RemoveNode (nodeIds : list Z) : M unit :=
  modify (λ d, set_DataNodes
    (filter (λ dn, list_find (λ nodeId, dn_ID dn = nodeId) nodeIds = None) (DataNodes d)) d).

(** ** Meta nodes *)

(** Modelled from the spec: the order behind [sort.Sort(NodeInfos)],
    meta nodes by id. *)
Definition ni_le (a b : NodeInfo) : Prop := ni_ID a ≤ ni_ID b.
#[global] Instance ni_le_dec a b : Decision (ni_le a b).
Proof. unfold ni_le. apply _. Defined.

Definition set_MetaNodes (v : list NodeInfo) (x : Data) : Data :=
  {| Term := Term x; Index := Index x; ClusterID := ClusterID x;
     ClusterPtNum := ClusterPtNum x; PtNumPerNode := PtNumPerNode x;
     MetaNodes := v; DataNodes := DataNodes x; PtView := PtView x;
     ReplicaGroups := ReplicaGroups x; Databases := Databases x; Streams := Streams x;
     Users := Users x; MigrateEvents := MigrateEvents x; QueryIDInit := QueryIDInit x;
     AdminUserExists := AdminUserExists x; TakeOverEnabled := TakeOverEnabled x;
     BalancerEnabled := BalancerEnabled x; ExpandShardsEnable := ExpandShardsEnable x;
     MaxNodeID := MaxNodeID x; MaxShardGroupID := MaxShardGroupID x;
     MaxShardID := MaxShardID x; MaxIndexGroupID := MaxIndexGroupID x;
     MaxIndexID := MaxIndexID x; MaxEventOpId := MaxEventOpId x;
     MaxDownSampleID := MaxDownSampleID x; MaxStreamID := MaxStreamID x;
     MaxConnID := MaxConnID x; MaxSubscriptionID := MaxSubscriptionID x;
     MaxCQChangeID := MaxCQChangeID x |}.

Definition CreateMetaNode (httpAddr rpcAddr tcpAddr : string) : M (option error2) :=
  d ← get;
  if list_find (λ n, ni_Host n = httpAddr) (MetaNodes d) is Some _ then mret None
  else
    let existingID :=
      if list_find (λ n, dn_TCPHost n = tcpAddr) (DataNodes d) is Some (_, n)
      then dn_ID n else 0 in
    existingID ←
      (if decide (existingID = 0)
       then modify (λ d, set_MaxNodeID (incr64 (MaxNodeID d)) d) ;; gets MaxNodeID
       else mret existingID);
    modify (λ d, set_MetaNodes (merge_sort ni_le (MetaNodes d ++
      [ {| ni_ID := existingID; ni_Host := httpAddr; ni_RPCAddr := rpcAddr;
           ni_TCPHost := tcpAddr |} ])) d) ;;
    mret None.

Definition DeleteMetaNode (id : Z) : M (option error2) :=
  d ← get;
  if decide (id = 0) then mret (Some ErrNodeIDRequired)
  else
    let nodes := filter (λ n, ni_ID n ≠ id) (MetaNodes d) in
    if decide (length nodes = length (MetaNodes d)) then mret (Some ErrNodeNotFound)
    else modify (set_MetaNodes nodes) ;; mret None.

(** ** The pt-view: updates *)

(** [info] is the pt as the caller last saw it: its id, owner and
    status. *)
Definition UpdatePtInfo (db : string) (info : PtInfo) (ownerId : Z) (status : PtStatus)
  : M (option error2) :=
  d ← get;
  let view := DBPtView db d in
  if decide (Z.of_nat (length view) ≤ pt_PtId info) then mret (Some ErrnoPtNotFound)
  else
    cur ← must (view !! Z.to_nat (pt_PtId info));
    if decide (pt_OwnerNodeID cur ≠ pt_OwnerNodeID info ∨ pt_Status cur ≠ pt_Status info)
    then mret (Some ErrnoPtChanged)
    else updatePtStatus db (pt_PtId info) ownerId status ;; mret None.

(** A pt as [updatePtStatus] makes it from a zero entry: pt [i], offline,
    version 1, owned by [owner i]. *)
Definition new_pt (owner : nat → Z) (i : nat) : PtInfo :=
  {| pt_OwnerNodeID := owner i; pt_Status := Offline; pt_PtId := Z.of_nat i; pt_Ver := 1;
     pt_RGID := 0 |}.

(** The nodes that [CreateDBPtView] spreads the pts over. *)
Definition assigned_nodes (env : Env) (d : Data) : list DataNode :=
  match ha_policy env with
  | SharedStorage => GetAliveWriteNode d
  | _ => GetWriteNode d
  end.

(** The id of the node at position [i % len(nodes)]. *)
Definition round_robin (nodes : list DataNode) (i : nat) : Z :=
  default 0 (dn_ID <$> nodes !! (i mod length nodes)%nat).

(** One data node and the database [db0], before its pt-view exists; and
    [with_db0] after a second data node has joined. *)
Definition before_view : Data :=
  after plain_env 2
    [ CmdCreateDataNode "h1:8086" "h1:8400" "writer";
      CmdCreateDatabase "db0" (Some autogen) None false 1 None ].

Definition node2 : DataNode :=
  {| dn_ID := 2; dn_Host := "h2:8086"; dn_RPCAddr := ""; dn_TCPHost := "h2:8400";
     dn_Status := 0; dn_LTime := 0; dn_GossipAddr := ""; dn_SegregateStatus := 0;
     dn_Role := "writer"; dn_ConnID := 2; dn_AliveConnID := 0 |}.

Definition four_pts : Data := set_ClusterPtNum 4 with_db0.


(** The node [CreateDataNode] appends for a host it has not seen: fresh
    id, the bumped connection id, every other field zero. *)
Definition joined_node (host tcpHost role : string) (d : Data) : DataNode :=
  {| dn_ID := incr64 (MaxNodeID d); dn_Host := host; dn_RPCAddr := ""; dn_TCPHost := tcpHost;
     dn_Status := 0; dn_LTime := 0; dn_GossipAddr := ""; dn_SegregateStatus := 0;
     dn_Role := role; dn_ConnID := incr64 (MaxConnID d); dn_AliveConnID := 0 |}.


(** The TCP hosts of the data nodes, in the order of the nodes. *)
Definition node_hosts (d : Data) : list string := dn_TCPHost <$> DataNodes d.

(** The commands on the user registry. *)
Definition user_op (c : Command) : bool :=
  match c with
  | CmdCreateUser _ _ _ _ | CmdDropUser _ | CmdUpdateUser _ _ | CmdSetPrivilege _ _ _
  | CmdSetAdminPrivilege _ _ => true
  | _ => false
  end.


(** ** Query id offsets *)

Definition QueryIDSpan : Z := 100000000.

Definition set_QueryIDInit (v : gmap string Z) (x : Data) : Data :=
  {| Term := Term x; Index := Index x; ClusterID := ClusterID x;
     ClusterPtNum := ClusterPtNum x; PtNumPerNode := PtNumPerNode x;
     MetaNodes := MetaNodes x; DataNodes := DataNodes x; PtView := PtView x;
     ReplicaGroups := ReplicaGroups x; Databases := Databases x; Streams := Streams x;
     Users := Users x; MigrateEvents := MigrateEvents x; QueryIDInit := v;
     AdminUserExists := AdminUserExists x; TakeOverEnabled := TakeOverEnabled x;
     BalancerEnabled := BalancerEnabled x; ExpandShardsEnable := ExpandShardsEnable x;
     MaxNodeID := MaxNodeID x; MaxShardGroupID := MaxShardGroupID x;
     MaxShardID := MaxShardID x; MaxIndexGroupID := MaxIndexGroupID x;
     MaxIndexID := MaxIndexID x; MaxEventOpId := MaxEventOpId x;
     MaxDownSampleID := MaxDownSampleID x; MaxStreamID := MaxStreamID x;
     MaxConnID := MaxConnID x; MaxSubscriptionID := MaxSubscriptionID x;
     MaxCQChangeID := MaxCQChangeID x |}.


Definition RegisterQueryIDOffset (host : string) : M (option error2) :=
  d ← get;
  if QueryIDInit d !! host is Some _ then mret None
  else
    let currentAssignedNum := Z.of_nat (size (QueryIDInit d)) in
    let newOffset := wrap64 (wrap_i64 (currentAssignedNum * QueryIDSpan)) in
    modify (set_QueryIDInit (<[host := newOffset]> (QueryIDInit d))) ;;
    mret None.

(** The registered offsets are multiples of the span below the number of
    hosts, and no two hosts have the same one. *)
Definition offsets_ok (m : gmap string Z) : Prop :=
  (∀ h v, m !! h = Some v → ∃ k, (k < size m)%nat ∧ v = Z.of_nat k * QueryIDSpan) ∧
  (∀ h1 h2 v, m !! h1 = Some v → m !! h2 = Some v → h1 = h2).

(** ** Times and shard keys *)

(** [t.UnixNano()] of a time given by its Unix nanoseconds is the int64
    of that number. *)
Definition MarshalTime (t : Z) : Z := if IsZero t then 0 else wrap_i64 t.

Definition UnmarshalTime (v : Z) : Z := if decide (v = 0) then zero_time else v.

Fixpoint ValidShardKey (shardKeys : list string) : option error2 :=
  match shardKeys with
  | [] => None
  | k :: rest =>
      if decide (k = "") then Some ErrInvalidShardKey
      else
        match rest with
        | [] => None
        | k' :: _ => if decide (k = k') then Some ErrDuplicateShardKey else ValidShardKey rest
        end
  end.


(** ** Shard groups: the live ones *)

Definition ShardGroups (database policy : string) (d : Data)
  : error + list ShardGroupInfo :=
  match RetentionPolicy database policy d with
  | inl err => inl err
  | inr rpi => inr (filter (λ g, sg_Deleted g = false) (rp_ShardGroups rpi))
  end.


(** * Paths of the object store (package fileops, file_ops.go)

    A Go string is the list of its bytes. *)

Module FileOps.

Inductive FsType := Unknown | Local | Obs | Hdfs.

Definition ObsPrefix : list Ascii.ascii := String.list_ascii_of_string "obs://".
Definition HdfsPrefix : list Ascii.ascii := String.list_ascii_of_string "hdfs://".

(** [strings.HasPrefix] *)
Definition HasPrefix (s prefix : list Ascii.ascii) : bool :=
  bool_decide (length prefix ≤ length s ∧ take (length prefix) s = prefix)%nat.

(** [strings.Index(s, "/")], [None] for -1. *)
Definition Index (s : list Ascii.ascii) : option nat :=
  fst <$> list_find (λ c, c = "/"%char) s.

(** [fmt.Sprintf("%s%s/%s/%s/%s/%s", ObsPrefix, endpoint, ak, sk, bucket, path)] *)
Definition EncodeObsPath (endpoint bucket path ak sk : list Ascii.ascii) : list Ascii.ascii :=
  ObsPrefix ++ endpoint ++ ["/"%char] ++ ak ++ ["/"%char] ++ sk ++ ["/"%char] ++
  bucket ++ ["/"%char] ++ path.

Inductive decode_error := ErrDecodeObsPath.

(** The result is (endpoint, ak, sk, bucket, basePath); the outer [None]
    is the panic of [path[len(ObsPrefix):]] on a path that is too
    short. *)
Definition decodeObsPath (path : list Ascii.ascii)
  : option (decode_error +
            list Ascii.ascii * list Ascii.ascii * list Ascii.ascii * list Ascii.ascii * list Ascii.ascii) :=
  if decide (length path < length ObsPrefix)%nat then None
  else
    let path := drop (length ObsPrefix) path in
    match Index path with
    | None => Some (inl ErrDecodeObsPath)
    | Some index =>
        let endpoint := take index path in
        let path := drop (index + 1) path in
        match Index path with
        | None => Some (inl ErrDecodeObsPath)
        | Some index =>
            let ak := take index path in
            let path := drop (index + 1) path in
            match Index path with
            | None => Some (inl ErrDecodeObsPath)
            | Some index =>
                let sk := take index path in
                let path := drop (index + 1) path in
                match Index path with
                | None => Some (inl ErrDecodeObsPath)
                | Some index =>
                    let bucket := take index path in
                    let basePath := drop (index + 1) path in
                    Some (inr (endpoint, ak, sk, bucket, basePath))
                end
            end
        end
    end.

Definition GetFsType (path : list Ascii.ascii) : FsType :=
  match path with
  | [] => Unknown
  | c :: _ =>
      if decide (c = "o"%char) then (if HasPrefix path ObsPrefix then Obs else Local)
      else if decide (c = "h"%char) then (if HasPrefix path HdfsPrefix then Hdfs else Local)
      else Local
  end.

End FileOps.

(** * Properties *)

(** ** What an operation leaves alone *)

Section keeps.
Context {F : Type} (proj : Data → F).

Lemma keeps_ret {A} (a : A) : keeps proj (mret a).
Proof. intros d a' d' H. unfold_M. by simplify_eq. Qed.

Lemma keeps_bind {A B} (m : M A) (f : A → M B) :
  keeps proj m → (∀ a, keeps proj (f a)) → keeps proj (m ≫= f).
Proof.
  intros Hm Hf d b d' H. unfold_M.
  destruct (m d) as [[a d1]|] eqn:E; [|done].
  rewrite <- (Hm _ _ _ E). by eapply Hf.
Qed.

Lemma keeps_get : keeps proj get.
Proof. intros d a d' H. unfold_M. by simplify_eq. Qed.

Lemma keeps_gets {A} (f : Data → A) : keeps proj (gets f).
Proof. intros d a d' H. unfold_M. by simplify_eq. Qed.

Lemma keeps_panic {A} : keeps proj (@panic A).
Proof. intros d a d' H. unfold_M. done. Qed.

Lemma keeps_must {A} (o : option A) : keeps proj (must o).
Proof. destruct o; [apply keeps_ret | apply keeps_panic]. Qed.

Lemma keeps_modify (f : Data → Data) :
  (∀ d, proj (f d) = proj d) → keeps proj (modify f).
Proof. intros Hf d a d' H. unfold_M. simplify_eq. apply Hf. Qed.

Lemma keeps_forM_ {A} (l : list A) (f : A → M unit) :
  (∀ a, keeps proj (f a)) → keeps proj (forM_ l f).
Proof.
  intros Hf. induction l as [|a l IH]; simpl.
  - apply keeps_ret.
  - apply keeps_bind; auto.
Qed.

Lemma keeps_foldM {A B} (f : B → A → M B) (b : B) (l : list A) :
  (∀ b a, keeps proj (f b a)) → keeps proj (foldM f b l).
Proof.
  intros Hf. revert b. induction l as [|a l IH]; intros b; simpl.
  - apply keeps_ret.
  - apply keeps_bind; auto.
Qed.

End keeps.

Ltac keeps_step :=
  match goal with
  | |- keeps _ (mret _) => apply keeps_ret
  | |- keeps _ ok => apply keeps_ret
  | |- keeps _ (fail _) => apply keeps_ret
  | |- keeps _ get => apply keeps_get
  | |- keeps _ (gets _) => apply keeps_gets
  | |- keeps _ panic => apply keeps_panic
  | |- keeps _ (must _) => apply keeps_must
  | |- keeps _ (forM_ _ _) => apply keeps_forM_; intros
  | |- keeps _ (foldM _ _ _) => apply keeps_foldM; intros
  | |- keeps _ (modify _) => apply keeps_modify; intros; try reflexivity
  | |- keeps _ (mbind _ _) => apply keeps_bind; [|intros]
  | |- keeps _ (if ?c then _ else _) => destruct c
  | |- keeps _ (match ?x with _ => _ end) => destruct x eqn:?
  | |- keeps _ (let '(_, _) := ?x in _) => destruct x
  | |- context [let '(_, _) := ?x in _] => is_var x; destruct x
  end.

Create HintDb keeps_db discriminated.

Ltac keeps_auto := repeat (first [ keeps_step | solve [ eauto with keeps_db ] ]).

Lemma put_rp_sig db rp r d : user_sig (put_rp db rp r d) = user_sig d.
Proof. unfold put_rp. by destruct (Databases d !! db). Qed.

Lemma put_mst_sig db rp k m d : user_sig (put_mst db rp k m d) = user_sig d.
Proof. unfold put_mst. destruct (_ ≫= _); [apply put_rp_sig | done]. Qed.

Lemma keeps_GetEffectivePtNum db : keeps user_sig (GetEffectivePtNum db).
Proof. unfold GetEffectivePtNum, DBReplicaN. keeps_auto. Qed.
#[local] Hint Resolve keeps_GetEffectivePtNum : keeps_db.

Lemma keeps_updatePtStatus db a b c : keeps user_sig (updatePtStatus db a b c).
Proof. unfold updatePtStatus. keeps_auto. Qed.
#[local] Hint Resolve keeps_updatePtStatus : keeps_db.

Lemma keeps_createReplicationInner db a b c e :
  keeps user_sig (createReplicationInner db a b c e).
Proof.
  unfold createReplicationInner, expandRepGroups. keeps_auto.
  by destruct (ReplicaGroups d).
Qed.
#[local] Hint Resolve keeps_createReplicationInner : keeps_db.

Lemma keeps_new_indexes n : keeps user_sig (new_indexes n).
Proof. unfold new_indexes. keeps_auto. Qed.
#[local] Hint Resolve keeps_new_indexes : keeps_db.

Lemma keeps_CreateIndexGroup rpi t e n : keeps user_sig (CreateIndexGroup rpi t e n).
Proof. unfold CreateIndexGroup. keeps_auto. Qed.
#[local] Hint Resolve keeps_CreateIndexGroup : keeps_db.

Lemma keeps_createIndexGroupIfNeeded rpi t e n :
  keeps user_sig (createIndexGroupIfNeeded rpi t e n).
Proof. unfold createIndexGroupIfNeeded. keeps_auto. Qed.
#[local] Hint Resolve keeps_createIndexGroupIfNeeded : keeps_db.

Lemma keeps_createIndexGroup db rp t : keeps user_sig (createIndexGroup db rp t).
Proof. unfold createIndexGroup. keeps_auto. Qed.
#[local] Hint Resolve keeps_createIndexGroup : keeps_db.

Lemma keeps_CreateShardGroupWithBounds db rp t bs e :
  keeps user_sig (CreateShardGroupWithBounds db rp t bs e).
Proof. unfold CreateShardGroupWithBounds. keeps_auto. Qed.
#[local] Hint Resolve keeps_CreateShardGroupWithBounds : keeps_db.

Lemma keeps_createShards db sgi igi rpi msti tier :
  keeps user_sig (createShards db sgi igi rpi msti tier).
Proof. unfold createShards. keeps_auto. Qed.
#[local] Hint Resolve keeps_createShards : keeps_db.

Lemma keeps_expandDBPtView db n node : keeps user_sig (expandDBPtView db n node).
Proof. unfold expandDBPtView, DBReplicaN. keeps_auto. Qed.
#[local] Hint Resolve keeps_expandDBPtView : keeps_db.

Lemma keeps_ExpandGroups env : keeps user_sig (ExpandGroups env).
Proof.
  unfold ExpandGroups, expand_indexes, expand_shards. keeps_auto.
  intros; apply put_rp_sig.
Qed.
#[local] Hint Resolve keeps_ExpandGroups : keeps_db.

Lemma keeps_Measurement db rp mst : keeps user_sig (Measurement db rp mst).
Proof. unfold Measurement. keeps_auto. all: intros; apply put_mst_sig. Qed.
#[local] Hint Resolve keeps_Measurement : keeps_db.

Lemma keeps_UpdateSchema db rp mst fs : keeps user_sig (UpdateSchema db rp mst fs).
Proof. unfold UpdateSchema. keeps_auto. intros; apply put_mst_sig. Qed.
#[local] Hint Resolve keeps_UpdateSchema : keeps_db.

Lemma keeps_createVersionMeasurement db rpn rp sk ir ski mst v e cs si o :
  keeps user_sig (createVersionMeasurement db rpn rp sk ir ski mst v e cs si o).
Proof. unfold createVersionMeasurement. keeps_auto. all: intros; apply put_rp_sig. Qed.
#[local] Hint Resolve keeps_createVersionMeasurement : keeps_db.

Lemma keeps_CreateMeasurement env db rpn mst sk ir e cs si o :
  keeps user_sig (CreateMeasurement env db rpn mst sk ir e cs si o).
Proof. unfold CreateMeasurement. keeps_auto. Qed.

Lemma keeps_CreateShardGroup env db rp t tier e v :
  keeps user_sig (CreateShardGroup env db rp t tier e v).
Proof.
  unfold CreateShardGroup, newShardGroup. keeps_auto.
  intros; apply put_rp_sig.
Qed.

Lemma keeps_ReSharding info : keeps user_sig (ReSharding info).
Proof. unfold ReSharding. keeps_auto. intros; apply put_rp_sig. Qed.

Lemma keeps_DeleteShardGroup env db rp id : keeps user_sig (DeleteShardGroup env db rp id).
Proof. unfold DeleteShardGroup. keeps_auto. intros; apply put_rp_sig. Qed.

Lemma keeps_DeleteIndexGroup env db rp id : keeps user_sig (DeleteIndexGroup env db rp id).
Proof. unfold DeleteIndexGroup. keeps_auto. intros; apply put_rp_sig. Qed.

Lemma keeps_PruneGroups b id : keeps user_sig (PruneGroups b id).
Proof. unfold PruneGroups, pruneShardGroups, pruneIndexGroups, walk_rps. keeps_auto. Qed.

Lemma keeps_CreateDataNode env host tcp role :
  keeps user_sig (CreateDataNode env host tcp role).
Proof. unfold CreateDataNode, initDataNodePtView. keeps_auto. Qed.

Lemma keeps_CreateDatabase env n rpi sk eta rn o :
  keeps user_sig (CreateDatabase env n rpi sk eta rn o).
Proof. unfold CreateDatabase, SetDatabase. keeps_auto. Qed.

Lemma keeps_dbPtAssigner p n : keeps user_sig (dbPtAssigner p n).
Proof.
  destruct p; unfold dbPtAssigner, assignPtForWAF, assignPtForSS, assign_round_robin;
    keeps_auto.
Qed.
#[local] Hint Resolve keeps_dbPtAssigner : keeps_db.

Lemma keeps_CreateDBPtView env n : keeps user_sig (CreateDBPtView env n).
Proof. unfold CreateDBPtView. keeps_auto. by destruct (PtView d). Qed.

Lemma keeps_CreateReplication db n : keeps user_sig (CreateReplication db n).
Proof. unfold CreateReplication, createReplicationImp. keeps_auto. Qed.

Lemma keeps_UpdateReplication db a b ps st : keeps user_sig (UpdateReplication db a b ps st).
Proof. unfold UpdateReplication. keeps_auto. Qed.

Lemma keeps_UpdateNodeStatus env id st lt gp : keeps user_sig (UpdateNodeStatus env id st lt gp).
Proof. unfold UpdateNodeStatus, updatePtViewStatus. keeps_auto. Qed.

Lemma keeps_MarkDatabaseDelete name : keeps user_sig (MarkDatabaseDelete name).
Proof. unfold MarkDatabaseDelete. keeps_auto. Qed.

Lemma keeps_DropDatabase name : keeps user_sig (DropDatabase name).
Proof.
  unfold DropDatabase. keeps_auto.
  unfold user_sig; simpl. f_equal. rewrite <- list_fmap_compose. by apply list_fmap_ext.
Qed.

Lemma sig_insert_same i (u u' : UserInfo) d :
  Users d !! i = Some u → ui_Name u' = ui_Name u → ui_Admin u' = ui_Admin u →
  user_sig (set_Users (<[i := u']> (Users d)) d) = user_sig d.
Proof.
  intros Hi Hn Ha. unfold user_sig; simpl. f_equal.
  rewrite list_fmap_insert. apply list_insert_id.
  rewrite list_lookup_fmap, Hi. simpl. by rewrite Hn, Ha.
Qed.

Lemma keeps_UpdateUser name hash : keeps user_sig (UpdateUser name hash).
Proof.
  intros d r d' H. unfold UpdateUser in H. unfold_M.
  destruct (list_find _ _) as [[i u]|] eqn:E; [|by simplify_eq].
  destruct (decide _); simplify_eq; [done|].
  apply list_find_Some in E as (Hi & _ & _). by apply sig_insert_same with u.
Qed.

Lemma keeps_SetPrivilege name db p : keeps user_sig (SetPrivilege name db p).
Proof.
  intros d r d' H. unfold SetPrivilege in H. unfold_M.
  destruct (list_find _ _) as [[i u]|] eqn:E; [|by simplify_eq].
  destruct (GetDatabase db d); simplify_eq; [done|].
  apply list_find_Some in E as (Hi & _ & _). by apply sig_insert_same with u.
Qed.

Lemma keeps_SetAdminPrivilege name admin : keeps user_sig (SetAdminPrivilege name admin).
Proof. unfold SetAdminPrivilege. keeps_auto. Qed.

Lemma keeps_apply env c : user_command c = false → keeps user_sig (apply env c).
Proof.
  destruct c; simpl; intros Hc; try done.
  - apply keeps_bind; [apply keeps_CreateDataNode | intros; apply keeps_ret].
  - apply keeps_CreateDatabase.
  - apply keeps_CreateDBPtView.
  - apply keeps_CreateReplication.
  - apply keeps_UpdateReplication.
  - apply keeps_MarkDatabaseDelete.
  - apply keeps_bind; [apply keeps_DropDatabase | intros; apply keeps_ret].
  - apply keeps_CreateMeasurement.
  - apply keeps_UpdateSchema.
  - apply keeps_CreateShardGroup.
  - apply keeps_ReSharding.
  - apply keeps_DeleteShardGroup.
  - apply keeps_DeleteIndexGroup.
  - apply keeps_PruneGroups.
  - apply keeps_UpdateNodeStatus.
  - unfold MarkTakeover. keeps_auto.
  - unfold MarkBalancer. keeps_auto.
  - apply keeps_UpdateUser.
  - apply keeps_SetPrivilege.
  - apply keeps_SetAdminPrivilege.
Qed.

(** ** The admin user *)

Lemma filter_admin_sig (l : list UserInfo) :
  length (filter is_admin l) =
  length (filter (λ p : string * bool, p.2 = true) ((λ u, (ui_Name u, ui_Admin u)) <$> l)).
Proof.
  induction l as [|u l IH]; [done|].
  rewrite fmap_cons, !filter_cons. simpl.
  destruct (decide (is_admin u)) as [Ha|Ha]; unfold is_admin in Ha;
    destruct (decide (ui_Admin u = true)); try done; simpl; by rewrite IH.
Qed.

Lemma existsb_admin_sig (l : list UserInfo) :
  existsb ui_Admin l = existsb snd ((λ u, (ui_Name u, ui_Admin u)) <$> l).
Proof. induction l as [|u l IH]; [done|]. simpl. by rewrite IH. Qed.

Lemma user_inv_sig d d' : user_sig d' = user_sig d → user_inv d → user_inv d'.
Proof.
  unfold user_sig, user_inv, admin_count, HasAdminUser. intros [= Hl Hc].
  rewrite !filter_admin_sig, !existsb_admin_sig, Hl, Hc. done.
Qed.

Lemma no_admin_filter (l : list UserInfo) :
  existsb ui_Admin l = false → filter is_admin l = [].
Proof.
  induction l as [|u l IH]; [done|]. simpl. intros [Hu Hl]%orb_false_iff.
  rewrite filter_cons. destruct (decide (is_admin u)) as [Ha|Ha]; [|auto].
  unfold is_admin in Ha. congruence.
Qed.

Lemma delete_non_admin (l : list UserInfo) i u :
  l !! i = Some u → ui_Admin u = false →
  filter is_admin (delete i l) = filter is_admin l ∧
  existsb ui_Admin (delete i l) = existsb ui_Admin l.
Proof.
  revert i. induction l as [|v l IH]; intros [|i] Hi Hu; try done.
  - injection Hi as ->. change (delete 0%nat (u :: l)) with l.
    rewrite filter_cons. destruct (decide (is_admin u)) as [Ha|Ha].
    + unfold is_admin in Ha. congruence.
    + simpl. by rewrite Hu.
  - change (delete (S i) (v :: l)) with (v :: delete i l).
    destruct (IH i Hi Hu) as [E1 E2]. rewrite !filter_cons, E1. simpl. by rewrite E2.
Qed.

Lemma GetUser_find name d u :
  GetUser name d = Some u ↔ ∃ i, list_find (has_name name) (Users d) = Some (i, u).
Proof.
  unfold GetUser. destruct (list_find _ _) as [[i v]|]; simpl; split.
  - intros [= ->]. eauto.
  - intros [j [= _ ->]]. done.
  - done.
  - intros [? ?]. done.
Qed.

Lemma CreateUser_inv n h a rw d r d' :
  CreateUser n h a rw d = Some (r, d') → user_inv d → user_inv d'.
Proof.
  unfold CreateUser, user_inv, admin_count, HasAdminUser. unfold_M. intros H [Hcnt Hc].
  destruct (decide (n = "")); [by simplify_eq|].
  destruct (GetUser n d); [by simplify_eq|].
  destruct a; simpl in H.
  - destruct (existsb ui_Admin (Users d)) eqn:E; simplify_eq/=; [by rewrite E|].
    rewrite filter_app, length_app, existsb_app, (no_admin_filter _ E). simpl.
    split; [done | by rewrite orb_true_r].
  - simplify_eq/=. rewrite filter_app, length_app, existsb_app. simpl.
    rewrite Nat.add_0_r, orb_false_r. done.
Qed.

Lemma DropUser_inv n d r d' :
  DropUser n d = Some (r, d') → user_inv d → user_inv d'.
Proof.
  unfold DropUser, user_inv, admin_count, HasAdminUser, GetUser. unfold_M. intros H Hinv.
  destruct (list_find _ _) as [[i u]|] eqn:E; simpl in H.
  - destruct (ui_Admin u) eqn:Hu; simplify_eq/=; [done|].
    apply list_find_Some in E as (Hi & _ & _).
    destruct (delete_non_admin _ _ _ Hi Hu) as [-> ->]. done.
  - by simplify_eq.
Qed.

Lemma apply_user_inv env c d r d' :
  apply env c d = Some (r, d') → user_inv d → user_inv d'.
Proof.
  intros H. destruct (user_command c) eqn:Hc.
  - destruct c; try done; simpl in H; eauto using CreateUser_inv, DropUser_inv.
  - apply user_inv_sig. by eapply keeps_apply.
Qed.

Lemma reachable_run env cs d rs d' :
  reachable d → run_commands env cs d = Some (rs, d') → reachable d'.
Proof.
  revert d rs d'. induction cs as [|c cs IH]; intros d rs d' Hd H; simpl in H.
  - by simplify_eq.
  - destruct (apply env c d) as [[r d1]|] eqn:E; simpl in H; [|done].
    destruct (run_commands env cs d1) as [[rs1 d2]|] eqn:E2; simpl in H; [|done].
    simplify_eq. eapply IH; [|done]. by eapply reach_step.
Qed.

(** C8. In every catalog that commands can produce there is at most one
    admin user, and [HasAdminUser], the scan of the user list, agrees
    with the cached flag [AdminUserExists]. *)
Theorem admin_cache_mirrors_users d :
  reachable d →
  (admin_count d ≤ 1)%nat ∧ (HasAdminUser d = true ↔ AdminUserExists d = true).
Proof.
  intros Hd. assert (user_inv d) as [Hcnt Hc].
  { induction Hd as [n b | env c d r d' _ IH H]; [|by eapply apply_user_inv].
    unfold user_inv, admin_count. simpl. split; [lia | done]. }
  split; [done | by rewrite Hc].
Qed.

Lemma reachable_after env n cs : reachable (after env n cs).
Proof.
  unfold after. destruct (run_commands _ _ _) as [[rs d]|] eqn:E.
  - eapply reachable_run; [apply reach_init | done].
  - apply reach_init.
Qed.

Lemma admin_cache_mirrors_users_witness :
  (admin_count (after plain_env 2 admin_scenario) ≤ 1)%nat ∧
  (HasAdminUser (after plain_env 2 admin_scenario) = true ↔
   AdminUserExists (after plain_env 2 admin_scenario) = true).
Proof. apply (admin_cache_mirrors_users (after plain_env 2 admin_scenario)), reachable_after. Defined.

Lemma admin_named_sig d n :
  (∃ u, u ∈ Users d ∧ ui_Name u = n ∧ ui_Admin u = true) ↔ (n, true) ∈ (user_sig d).1.
Proof.
  unfold user_sig; simpl. rewrite list_elem_of_fmap. split.
  - intros (u & Hu & <- & Ha). exists u. by rewrite Ha.
  - intros (u & [= -> Ha] & Hu). eauto.
Qed.

Lemma elem_of_delete_other (l : list UserInfo) i u v :
  u ∈ l → l !! i = Some v → ui_Admin v = false → ui_Admin u = true → u ∈ delete i l.
Proof.
  intros [j Hj]%list_elem_of_lookup Hi Hv Hu. apply list_elem_of_lookup.
  destruct (decide (j < i)%nat) as [Hlt|Hge].
  - exists j. by rewrite list_lookup_delete_lt.
  - assert (j ≠ i) by (intros ->; congruence).
    exists (j - 1)%nat. rewrite list_lookup_delete_ge by lia.
    by replace (S (j - 1)) with j by lia.
Qed.

Lemma apply_keeps_admin env c d r d' u :
  apply env c d = Some (r, d') → u ∈ Users d → ui_Admin u = true →
  ∃ u', u' ∈ Users d' ∧ ui_Name u' = ui_Name u ∧ ui_Admin u' = true.
Proof.
  intros H Hu Ha. destruct (user_command c) eqn:Hc.
  - destruct c; try done; simpl in H.
    + (* CreateUser *)
      exists u. split; [|done]. revert H. unfold CreateUser. unfold_M.
      repeat case_match; intros; simplify_eq/=; try done; set_solver.
    + (* DropUser *)
      exists u. split; [|done]. revert H. unfold DropUser, GetUser. unfold_M.
      destruct (list_find _ _) as [[i v]|] eqn:E; simpl; [|by intros; simplify_eq].
      destruct (ui_Admin v) eqn:Hv; intros; simplify_eq/=; [done|].
      apply list_find_Some in E as (Hi & _ & _). by eapply elem_of_delete_other.
  - apply admin_named_sig. rewrite (keeps_apply env c Hc _ _ _ H).
    apply admin_named_sig. eauto.
Qed.

(** C10. [DropUser] on the name of an admin fails and changes nothing;
    [SetAdminPrivilege] on an existing user fails and changes nothing;
    and whatever command is applied, a user who is an admin before it is
    still there, and still an admin, after it. *)
Theorem admin_is_permanent :
  (∀ d name u, GetUser name d = Some u → ui_Admin u = true →
     DropUser name d = Some (Some ErrUserDropSelf, d)) ∧
  (∀ d name admin u, GetUser name d = Some u →
     SetAdminPrivilege name admin d = Some (Some ErrGrantOrRevokeAdmin, d)) ∧
  (∀ env c d r d' u, apply env c d = Some (r, d') → u ∈ Users d → ui_Admin u = true →
     ∃ u', u' ∈ Users d' ∧ ui_Name u' = ui_Name u ∧ ui_Admin u' = true).
Proof.
  split; [|split].
  - intros d name u Hu Ha. unfold DropUser. unfold_M. by rewrite Hu, Ha.
  - intros d name admin u Hu. unfold SetAdminPrivilege. unfold_M. by rewrite Hu.
  - apply apply_keeps_admin.
Qed.

Lemma admin_is_permanent_witness :
  DropUser "root" root_and_guest = Some (Some ErrUserDropSelf, root_and_guest) ∧
  SetAdminPrivilege "guest" true root_and_guest
    = Some (Some ErrGrantOrRevokeAdmin, root_and_guest) ∧
  ∃ u', u' ∈ Users root_and_guest ∧ ui_Name u' = "root" ∧ ui_Admin u' = true.
Proof.
  destruct admin_is_permanent as (Hdrop & Hset & Hkeep).
  split; [|split].
  - apply (Hdrop root_and_guest "root" root_user); reflexivity.
  - eapply (Hset root_and_guest "guest" true); reflexivity.
  - apply (Hkeep plain_env (CmdDropUser "root") root_and_guest
             (Some ErrUserDropSelf) root_and_guest root_user).
    + reflexivity.
    + vm_compute. apply list_elem_of_here.
    + reflexivity.
Defined.

(** ** Creating a database *)

(** C2, as the code has it.  [CreateDatabase] fails with
    [ErrDatabaseNameRequired] on the empty name and, for a name, with
    [ErrStorageNodeNotReady] while the cluster has no pt.  Past these two
    checks, a database of that name that is marked deleted makes it fail,
    and one that is not makes it return success whatever the arguments
    are.  None of these outcomes changes the catalog. *)
Theorem CreateDatabase_on_existing env dbName rpi shardKey enableTagArray replicaN options d :
  (dbName = "" →
     CreateDatabase env dbName rpi shardKey enableTagArray replicaN options d
     = Some (Some ErrDatabaseNameRequired, d)) ∧
  (dbName ≠ "" → ClusterPtNum d = 0 →
     CreateDatabase env dbName rpi shardKey enableTagArray replicaN options d
     = Some (Some ErrStorageNodeNotReady, d)) ∧
  (∀ dbi, dbName ≠ "" → ClusterPtNum d ≠ 0 → Databases d !! dbName = Some dbi →
     CreateDatabase env dbName rpi shardKey enableTagArray replicaN options d
     = if db_MarkDeleted dbi then Some (Some (ErrDatabaseBeingDeleted dbName), d)
       else Some (None, d)).
Proof.
  unfold CreateDatabase, CheckCanCreateDatabase, checkStoreReady, Database. unfold_M.
  split; [|split].
  - intros ->. done.
  - intros Hn Hz. destruct (decide (dbName = "")); [done|].
    destruct (decide (ClusterPtNum d = 0)); done.
  - intros dbi Hn Hz Hdb. destruct (decide (dbName = "")); [done|].
    destruct (decide (ClusterPtNum d = 0)); [done|]. rewrite Hdb.
    destruct (db_MarkDeleted dbi); done.
Qed.

Lemma CreateDatabase_on_existing_witness :
  CreateDatabase plain_env "" (Some autogen) None false 1 None with_db0
    = Some (Some ErrDatabaseNameRequired, with_db0) ∧
  CreateDatabase plain_env "db0" (Some autogen) None false 1 None (init_data 2 false)
    = Some (Some ErrStorageNodeNotReady, init_data 2 false) ∧
  CreateDatabase plain_env "db0" (Some autogen) None false 1 None with_db0
    = Some (None, with_db0) ∧
  CreateDatabase plain_env "db0" (Some autogen) None false 1 None db0_marked
    = Some (Some (ErrDatabaseBeingDeleted "db0"), db0_marked).
Proof.
  split; [|split; [|split]].
  - apply (CreateDatabase_on_existing plain_env "" (Some autogen) None false 1 None with_db0).
    reflexivity.
  - apply (CreateDatabase_on_existing plain_env "db0" (Some autogen) None false 1 None
             (init_data 2 false)); [discriminate | reflexivity].
  - apply (proj2 (proj2 (CreateDatabase_on_existing plain_env "db0" (Some autogen) None
             false 1 None with_db0))
             (database_of_args "db0" (Some autogen) None false 1 None));
      [discriminate | vm_compute; discriminate | vm_compute; reflexivity].
  - apply (proj2 (proj2 (CreateDatabase_on_existing plain_env "db0" (Some autogen) None
             false 1 None db0_marked))
             (set_db_MarkDeleted true (database_of_args "db0" (Some autogen) None false 1 None)));
      [discriminate | vm_compute; discriminate | vm_compute; reflexivity].
Defined.

(** C2 as stated does not hold: here [db0] exists with [replica_n = 1],
    the arguments ask for [replica_n = 2], and the call succeeds. *)
Lemma CreateDatabase_differing_succeeds :
  ∃ dbi, Databases with_db0 !! "db0" = Some dbi ∧ db_MarkDeleted dbi = false ∧
    dbi ≠ database_of_args "db0" (Some autogen) None false 2 None ∧
    CreateDatabase plain_env "db0" (Some autogen) None false 2 None with_db0
      = Some (None, with_db0) ∧
    CreateDatabase plain_env "db0" (Some autogen) None false 2 None with_db0
      ≠ Some (Some ErrDatabaseExists, with_db0).
Proof.
  exists (database_of_args "db0" (Some autogen) None false 1 None).
  split; [vm_compute; reflexivity|]. split; [reflexivity|]. split.
  - intros H. apply (f_equal db_ReplicaN) in H. vm_compute in H. discriminate.
  - assert (CreateDatabase plain_env "db0" (Some autogen) None false 2 None with_db0
            = Some (None, with_db0)) as E by (vm_compute; reflexivity).
    split; [exact E|]. rewrite E. discriminate.
Qed.

(** ** Updating a schema *)

Lemma add_fields_Some fields : ∀ schema schema',
  add_fields schema fields = Some schema' →
  (∀ n t, (n, t) ∈ fields → schema' !! n = Some t) ∧
  (∀ n t, schema !! n = Some t → schema' !! n = Some t) ∧
  (∀ n, n ∉ fields.*1 → schema' !! n = schema !! n).
Proof.
  induction fields as [|[n0 t0] fields IH]; intros schema schema' H; simpl in H.
  - simplify_eq. split; [|done]. intros n t Hin. by apply elem_of_nil in Hin.
  - destruct (schema !! n0) as [t'|] eqn:E.
    + destruct (decide (t' ≠ t0)) as [|Heq]; [done|].
      assert (t' = t0) as -> by (destruct (decide (t' = t0)); done).
      destruct (IH _ _ H) as (H1 & H2 & H3). split; [|split].
      * intros n t [[= -> ->]|Hin]%elem_of_cons; eauto.
      * done.
      * intros n Hn. apply H3. rewrite fmap_cons in Hn.
        by apply not_elem_of_cons in Hn as [_ Hn].
    + destruct (IH _ _ H) as (H1 & H2 & H3). split; [|split].
      * intros n t [[= -> ->]|Hin]%elem_of_cons; [|by eauto].
        apply H2. by rewrite lookup_insert_eq.
      * intros n t Hn. apply H2. rewrite lookup_insert_ne; [done|]. congruence.
      * intros n Hn. rewrite fmap_cons in Hn.
        apply not_elem_of_cons in Hn as [Hne Hn]. rewrite H3 by done.
        rewrite lookup_insert_ne; [done|]. simpl in Hne. congruence.
Qed.

Lemma add_fields_conflict fields : ∀ schema n t t',
  (n, t) ∈ fields → schema !! n = Some t' → t' ≠ t → add_fields schema fields = None.
Proof.
  induction fields as [|[n0 t0] fields IH]; intros schema n t t' Hin Hn Hne; simpl.
  - by apply elem_of_nil in Hin.
  - apply elem_of_cons in Hin as [[= <- <-]|Hin].
    + rewrite Hn. by destruct (decide (t' ≠ t)).
    + destruct (schema !! n0) as [t1|] eqn:E.
      * destruct (decide (t1 ≠ t0)); [done | by eapply IH].
      * eapply IH; [done| |done]. rewrite lookup_insert_ne; [done|]. congruence.
Qed.

Lemma db_RetentionPolicies_set v x :
  db_RetentionPolicies (set_db_RetentionPolicies v x) = v.
Proof. done. Qed.

Lemma rp_Measurements_set v x : rp_Measurements (set_rp_Measurements v x) = v.
Proof. done. Qed.

Lemma find_measurement_put database rp mst d key m m' :
  find_measurement database rp mst d = Some (key, m) →
  mst_MarkDeleted m' = false →
  find_measurement database rp mst (put_mst database rp key m' d) = Some (key, m').
Proof.
  unfold find_measurement, RetentionPolicy, GetDatabase, GetRetentionPolicy, Database,
    put_mst, put_rp, rp_Measurement.
  intros H Hm'.
  destruct (Databases d !! database) as [dbi|] eqn:Edb; [|done].
  destruct (db_MarkDeleted dbi) eqn:Edel; [done|].
  cbn [mbind option_bind] in *.
  destruct (db_RetentionPolicies dbi !! rp) as [rpi|] eqn:Erp; [|done].
  destruct (rp_MarkDeleted rpi) eqn:Erdel; [done|].
  destruct (rp_MstVersions rpi !! mst) as [mv|] eqn:Emv; [|done].
  cbn [mbind option_bind] in *.
  destruct (rp_Measurements rpi !! mv_NameWithVersion mv) as [m0|] eqn:Em; [|done].
  cbn [mbind option_bind] in *.
  destruct (mst_MarkDeleted m0); [done|]. simplify_eq.
  cbn [Databases set_Databases]. rewrite lookup_insert_eq.
  change (db_MarkDeleted (set_db_RetentionPolicies ?v dbi)) with (db_MarkDeleted dbi).
  rewrite Edel, db_RetentionPolicies_set, lookup_insert_eq.
  change (rp_MarkDeleted (set_rp_Measurements ?v rpi)) with (rp_MarkDeleted rpi).
  rewrite Erdel. cbv beta iota.
  change (rp_MstVersions (set_rp_Measurements ?v rpi)) with (rp_MstVersions rpi).
  rewrite Emv.
  cbn [mbind option_bind]. rewrite rp_Measurements_set, lookup_insert_eq.
  cbn [mbind option_bind]. by rewrite Hm'.
Qed.

Lemma Measurement_found database rp mst d key m :
  find_measurement database rp mst d = Some (key, m) →
  ∃ m1, mst_Schema m1 = mst_Schema m ∧ mst_MarkDeleted m1 = false ∧
        Measurement database rp mst d
        = Some (inr (key, m1), put_mst database rp key m1 d).
Proof.
  unfold find_measurement, RetentionPolicy, Measurement. unfold_M. intros H.
  destruct (GetDatabase database d) as [|db]; [done|].
  destruct (GetRetentionPolicy rp db) as [|rpi]; [done|].
  destruct (rp_Measurement mst rpi) as [[k m0]|]; [|done].
  destruct (mst_MarkDeleted m0) eqn:Edel; [done|]. simplify_eq.
  destruct (mst_ObsOptions m) eqn:Eo; [|destruct (db_Options db) eqn:Edo];
    eexists; (split; [|split; [|reflexivity]]); done.
Qed.



(** Scenario S5: the conflicting update is refused and the schema of
    [cpu] still maps [host] to its first type. *)
Example S5_schema_conflict :
  ∃ d', UpdateSchema "db0" "autogen" "cpu" [("host", 1)] with_cpu
          = Some (Some ErrFieldTypeConflict, d') ∧
        (mst_Schema ∘ snd) <$> find_measurement "db0" "autogen" "cpu" d'
          = Some {[ "host" := 4 ]}.
Proof. eexists. split; vm_compute; reflexivity. Qed.



(** ** Node status *)

Lemma updatePtViewStatus_lookup nid d db (ptView : list PtInfo) :
  PtView d ≫= (.!! db) = Some ptView →
  PtView (set_PtView
    (fmap (M := gmap string) (fmap (M := list) (λ pi,
       if decide (pt_OwnerNodeID pi = nid)
       then set_pt_Ver (incr64 (pt_Ver pi)) (set_pt_Status Offline pi)
       else pi)) <$> PtView d) d) ≫= (.!! db)
  = Some (taken_offline nid <$> ptView).
Proof.
  simpl. destruct (PtView d) as [m|]; [|done]. simpl. intros H.
  by rewrite lookup_fmap, H.
Qed.

(** C4. With take-over disabled [UpdateNodeStatus] returns success and
    changes nothing.  With take-over enabled and the node found: a
    logical time below the stored one fails with [OlderEvent]; otherwise,
    under the shared-storage policy, status alive with
    [conn_id = alive_conn_id] fails with [DataNodeSplitBrain]; otherwise
    the call succeeds, the node takes the status and the logical time
    (and [alive_conn_id := conn_id] when the status is alive), and in the
    view of every database every pt owned by the node is offline with
    its version incremented, the other pts being as they were. *)
Theorem UpdateNodeStatus_spec env id status lTime gossipPort d :
  (TakeOverEnabled d = false →
     UpdateNodeStatus env id status lTime gossipPort d = Some (None, d)) ∧
  (∀ i dn, TakeOverEnabled d = true → DataNode_ id d = Some (i, dn) →
     (lTime < dn_LTime dn →
        UpdateNodeStatus env id status lTime gossipPort d = Some (Some ErrnoOlderEvent, d)) ∧
     (dn_LTime dn ≤ lTime → ha_policy env = SharedStorage → status = StatusAlive →
      dn_ConnID dn = dn_AliveConnID dn →
        UpdateNodeStatus env id status lTime gossipPort d
        = Some (Some ErrnoDataNodeSplitBrain, d)) ∧
     (dn_LTime dn ≤ lTime →
      ¬ (ha_policy env = SharedStorage ∧ status = StatusAlive ∧
         dn_ConnID dn = dn_AliveConnID dn) →
        ∃ d' dn',
          UpdateNodeStatus env id status lTime gossipPort d = Some (None, d') ∧
          DataNodes d' = <[i := dn']> (DataNodes d) ∧
          dn_ID dn' = dn_ID dn ∧ dn_ConnID dn' = dn_ConnID dn ∧
          dn_Status dn' = status ∧ dn_LTime dn' = lTime ∧
          dn_AliveConnID dn'
            = (if decide (status = StatusAlive) then dn_ConnID dn else dn_AliveConnID dn) ∧
          ∀ db (ptView : list PtInfo), PtView d ≫= (.!! db) = Some ptView →
            PtView d' ≫= (.!! db) = Some (taken_offline id <$> ptView))).
Proof.
  unfold UpdateNodeStatus, updatePtViewStatus. unfold_M. split.
  - intros ->. done.
  - intros i dn -> ->. simpl. split; [|split].
    + intros Hlt. by destruct (decide (lTime < dn_LTime dn)).
    + intros Hle Hha Hst Hc. destruct (decide (lTime < dn_LTime dn)); [lia|].
      by destruct (decide (_ ∧ _ ∧ _)) as [|[]].
    + intros Hle Hno. destruct (decide (lTime < dn_LTime dn)); [lia|].
      destruct (decide (_ ∧ _ ∧ _)); [done|].
      eexists _, _. split; [reflexivity|].
      split; [reflexivity|].
      repeat split.
      * by repeat (destruct (decide _)).
      * by repeat (destruct (decide _)).
      * by repeat (destruct (decide _)).
      * by repeat (destruct (decide _)).
      * by repeat (destruct (decide _)).
      * intros db ptView H. by apply (updatePtViewStatus_lookup id d db ptView).
Qed.

(** Scenario S3: node 1 fails, both pts of [db0] go offline and their
    version goes from 1 to 2. *)
Lemma UpdateNodeStatus_spec_witness :
  ∃ d' dn',
    UpdateNodeStatus plain_env 1 StatusFailed 10 "8401" with_takeover = Some (None, d') ∧
    DataNodes d' = <[0%nat := dn']> (DataNodes with_takeover) ∧
    dn_ID dn' = 1 ∧ dn_ConnID dn' = 1 ∧ dn_Status dn' = StatusFailed ∧ dn_LTime dn' = 10 ∧
    dn_AliveConnID dn' = 0 ∧
    PtView d' ≫= (.!! "db0")
    = Some [ {| pt_OwnerNodeID := 1; pt_Status := Offline; pt_PtId := 0; pt_Ver := 2;
                pt_RGID := 0 |};
             {| pt_OwnerNodeID := 1; pt_Status := Offline; pt_PtId := 1; pt_Ver := 2;
                pt_RGID := 0 |} ].
Proof.
  destruct (UpdateNodeStatus_spec plain_env 1 StatusFailed 10 "8401" with_takeover)
    as [_ H].
  destruct (H 0%nat node1 eq_refl eq_refl) as (_ & _ & Hacc).
  assert (dn_LTime node1 ≤ 10) as Hle by (vm_compute; discriminate).
  assert (¬ (ha_policy plain_env = SharedStorage ∧ StatusFailed = StatusAlive ∧
             dn_ConnID node1 = dn_AliveConnID node1)) as Hno
    by (intros (Hha & _); discriminate Hha).
  destruct (Hacc Hle Hno)
    as (d' & dn' & Hrun & Hnodes & Hid & Hconn & Hst & Hlt & Halive & Hpt).
  exists d', dn'. do 7 (split; [assumption|]).
  exact (Hpt "db0"
    [ {| pt_OwnerNodeID := 1; pt_Status := Offline; pt_PtId := 0; pt_Ver := 1;
         pt_RGID := 0 |};
      {| pt_OwnerNodeID := 1; pt_Status := Offline; pt_PtId := 1; pt_Ver := 1;
         pt_RGID := 0 |} ] eq_refl).
Defined.


(** ** Pruning *)

Lemma sort_Search_loop_spec f : ∀ fuel i j,
  (j - i ≤ fuel)%nat → (i ≤ j)%nat →
  let r := sort_Search_loop fuel f i j in
  (i ≤ r ≤ j)%nat ∧ ((r < j)%nat → f r = true) ∧ ((i < r)%nat → f (r - 1)%nat = false).
Proof.
  induction fuel as [|fuel IH]; intros i j Hfuel Hij; cbn [sort_Search_loop].
  - repeat split; lia.
  - destruct (decide (i < j)%nat) as [Hlt|]; [|repeat split; lia].
    pose proof (Nat.div_mod_eq (i + j) 2) as Hdiv.
    pose proof (Nat.mod_upper_bound (i + j) 2 ltac:(lia)) as Hmod.
    set (h := ((i + j) / 2)%nat) in *.
    destruct (f h) eqn:Hf.
    + destruct (IH i h ltac:(lia) ltac:(lia)) as (Hr & Ht & Hp).
      split; [lia|]. split; [|done].
      intros _. destruct (decide (sort_Search_loop fuel f i h = h)) as [->|]; [done|].
      apply Ht. lia.
    + destruct (IH (h + 1)%nat j ltac:(lia) ltac:(lia)) as (Hr & Ht & Hp).
      split; [lia|]. split; [done|].
      intros _. destruct (decide (sort_Search_loop fuel f (h + 1) j = h + 1)%nat) as [->|].
      * by replace (h + 1 - 1)%nat with h by lia.
      * apply Hp. lia.
Qed.

Lemma sort_Search_spec n f :
  let r := sort_Search n f in
  (r ≤ n)%nat ∧ ((r < n)%nat → f r = true) ∧ ((0 < r)%nat → f (r - 1)%nat = false).
Proof.
  destruct (sort_Search_loop_spec f n 0%nat n ltac:(lia) ltac:(lia)) as (H1 & H2 & H3).
  unfold sort_Search. repeat split; [lia | done | done].
Qed.

Lemma prune_mark_shard_spec id g :
  sg_Shards g ≠ [] → ∃ g', prune_mark_shard id g = Some g' ∧ shard_marked id g g'.
Proof.
  intros Hne. unfold prune_mark_shard, shard_marked.
  destruct (head (sg_Shards g)) as [first|] eqn:Eh;
    [|by apply head_None in Eh].
  destruct (last (sg_Shards g)) as [final|] eqn:El;
    [|by apply last_None in El].
  cbn [mbind option_bind].
  destruct (decide (sh_ID first ≤ id ∧ id ≤ sh_ID final)) as [[Hlo Hhi]|Hout].
  - set (f := λ i : nat, if sg_Shards g !! i is Some s then bool_decide (id ≤ sh_ID s)
                          else false).
    destruct (sort_Search_spec (length (sg_Shards g)) f) as (Hle & Ht & Hp).
    set (pos := sort_Search (length (sg_Shards g)) f) in *.
    assert (pos < length (sg_Shards g))%nat as Hpos.
    { destruct (decide (pos = length (sg_Shards g))) as [E|]; [|lia].
      assert (0 < pos)%nat as H0 by (destruct (sg_Shards g); simpl in *; [done|lia]).
      specialize (Hp H0). rewrite E in Hp. unfold f in Hp.
      rewrite last_lookup in El. replace (length (sg_Shards g) - 1)%nat
        with (Nat.pred (length (sg_Shards g))) in Hp by lia.
      rewrite El in Hp. by apply bool_decide_eq_false in Hp. }
    destruct (lookup_lt_is_Some_2 _ _ Hpos) as [s Hs]. rewrite Hs.
    cbn [mbind option_bind].
    eexists. split; [done|]. exists first, final. split; [done|]. split; [done|].
    destruct (decide _) as [_|[]]; [|done].
    exists pos, s. split; [done|]. split; [|split; [|done]].
    + specialize (Ht Hpos). unfold f in Ht. rewrite Hs in Ht.
      by apply bool_decide_eq_true in Ht.
    + intros s0 Hs0 H0. specialize (Hp H0). unfold f in Hp. rewrite Hs0 in Hp.
      apply bool_decide_eq_false in Hp. lia.
  - eexists. split; [done|]. exists first, final. split; [done|]. split; [done|].
    by destruct (decide _).
Qed.

Lemma prune_mark_index_spec id g :
  ig_Indexes g ≠ [] → ∃ g', prune_mark_index id g = Some g' ∧ index_marked id g g'.
Proof.
  intros Hne. unfold prune_mark_index, index_marked.
  destruct (head (ig_Indexes g)) as [first|] eqn:Eh;
    [|by apply head_None in Eh].
  destruct (last (ig_Indexes g)) as [final|] eqn:El;
    [|by apply last_None in El].
  cbn [mbind option_bind].
  destruct (decide (ix_ID first ≤ id ∧ id ≤ ix_ID final)) as [[Hlo Hhi]|Hout].
  - set (f := λ i : nat, if ig_Indexes g !! i is Some s then bool_decide (id ≤ ix_ID s)
                          else false).
    destruct (sort_Search_spec (length (ig_Indexes g)) f) as (Hle & Ht & Hp).
    set (pos := sort_Search (length (ig_Indexes g)) f) in *.
    assert (pos < length (ig_Indexes g))%nat as Hpos.
    { destruct (decide (pos = length (ig_Indexes g))) as [E|]; [|lia].
      assert (0 < pos)%nat as H0 by (destruct (ig_Indexes g); simpl in *; [done|lia]).
      specialize (Hp H0). rewrite E in Hp. unfold f in Hp.
      rewrite last_lookup in El. replace (length (ig_Indexes g) - 1)%nat
        with (Nat.pred (length (ig_Indexes g))) in Hp by lia.
      rewrite El in Hp. by apply bool_decide_eq_false in Hp. }
    destruct (lookup_lt_is_Some_2 _ _ Hpos) as [s Hs]. rewrite Hs.
    cbn [mbind option_bind].
    eexists. split; [done|]. exists first, final. split; [done|]. split; [done|].
    destruct (decide _) as [_|[]]; [|done].
    exists pos, s. split; [done|]. split; [|split; [|done]].
    + specialize (Ht Hpos). unfold f in Ht. rewrite Hs in Ht.
      by apply bool_decide_eq_true in Ht.
    + intros s0 Hs0 H0. specialize (Hp H0). unfold f in Hp. rewrite Hs0 in Hp.
      apply bool_decide_eq_false in Hp. lia.
  - eexists. split; [done|]. exists first, final. split; [done|]. split; [done|].
    by destruct (decide _).
Qed.

Lemma sg_removable_done g : sg_removable g = false ↔ ¬ sg_done g.
Proof.
  unfold sg_removable, sg_done, sg_canDelete.
  rewrite andb_false_iff, negb_false_iff. split.
  - intros [Hz|Hf] [Hz' Hall]; [congruence|].
    apply not_true_iff_false in Hf. apply Hf, Is_true_true, forallb_True.
    eapply Forall_impl; [done|]. intros s Hs. by rewrite Hs.
  - intros Hno. destruct (IsZero (sg_DeletedAt g)); [by left|]. right.
    apply not_true_iff_false. intros Hf. apply Hno. split; [done|].
    apply Is_true_true, forallb_True in Hf.
    eapply Forall_impl; [done|]. intros s Hs. by apply Is_true_true.
Qed.

Lemma prune_shard_groups_spec id gs :
  Forall (λ g, sg_Shards g ≠ []) gs →
  ∃ gs', Forall2 (shard_marked id) gs gs' ∧
         prune_shard_groups id gs = Some (filter (λ g, ¬ sg_done g) gs').
Proof.
  induction 1 as [|g gs Hg _ (gs' & Hall & IH)]; simpl.
  - exists []. by split; [constructor|].
  - destruct (prune_mark_shard_spec id g Hg) as (g' & -> & Hm). rewrite IH.
    cbn [mbind option_bind]. exists (g' :: gs'). split; [by constructor|].
    rewrite filter_cons. destruct (sg_removable g') eqn:E.
    + destruct (decide (¬ sg_done g')) as [Hn|]; [|done].
      apply sg_removable_done in Hn. congruence.
    + destruct (decide (¬ sg_done g')) as [|Hn]; [done|].
      by apply sg_removable_done in E.
Qed.

Lemma ig_canDelete_false g :
  ¬ Forall (λ x, ix_MarkDelete x = true) (ig_Indexes g) → ig_canDelete g = false.
Proof.
  intros Hno. apply not_true_iff_false. intros Hf. apply Hno.
  apply Is_true_true, forallb_True in Hf.
  eapply Forall_impl; [done|]. intros x Hx. by apply Is_true_true.
Qed.

Lemma prune_index_groups_spec id gs :
  Forall (λ g, ig_Indexes g ≠ []) gs →
  ∃ gs', Forall2 (index_marked id) gs gs' ∧
         prune_index_groups id gs = Some (filter (λ g, ig_canDelete g = false) gs').
Proof.
  induction 1 as [|g gs Hg _ (gs' & Hall & IH)]; simpl.
  - exists []. by split; [constructor|].
  - destruct (prune_mark_index_spec id g Hg) as (g' & -> & Hm). rewrite IH.
    cbn [mbind option_bind]. exists (g' :: gs'). split; [by constructor|].
    rewrite filter_cons. by destruct (ig_canDelete g').
Qed.

Lemma map_traverse_Some {A B} (f : A → option B) (m : gmap string A) :
  (∀ k a, m !! k = Some a → is_Some (f a)) →
  ∃ m', map_traverse f m = Some m' ∧ ∀ k, m' !! k = m !! k ≫= f.
Proof.
  intros H. unfold map_traverse. destruct (decide _) as [|Hno].
  - eexists. split; [done|]. intros k. apply lookup_omap.
  - destruct Hno. by apply map_Forall_lookup_2.
Qed.

Lemma walk_rps_Some fn d :
  (∀ db dbi rpn rp, Databases d !! db = Some dbi →
     db_RetentionPolicies dbi !! rpn = Some rp → is_Some (fn rp)) →
  ∃ d', walk_rps fn d = Some (tt, d') ∧
        ∀ db rpn, policy_of db rpn d' = policy_of db rpn d ≫= fn.
Proof.
  intros H.
  destruct (map_traverse_Some
    (λ db, rps ← map_traverse fn (db_RetentionPolicies db);
           Some (set_db_RetentionPolicies rps db)) (Databases d)) as (dbs & Hrun & Hdbs).
  { intros db dbi Hdb.
    destruct (map_traverse_Some fn (db_RetentionPolicies dbi)) as (rps & -> & _); [|done].
    intros rpn rp Hrp. by apply (H db dbi rpn rp). }
  exists (set_Databases dbs d). split.
  { clear Hdbs. unfold walk_rps. unfold_M. by rewrite Hrun. }
  intros db rpn. unfold policy_of.
  cbn [Databases set_Databases]. rewrite Hdbs.
  destruct (Databases d !! db) as [dbi|] eqn:Hdb; [|done]. cbn [mbind option_bind].
  destruct (map_traverse_Some fn (db_RetentionPolicies dbi)) as (rps & -> & Hrps).
  { intros rpn' rp. by apply (H db dbi). }
  cbn [mbind option_bind]. by rewrite db_RetentionPolicies_set, Hrps.
Qed.





(** ** Loops, counters and sorting *)

(** A counting loop that keeps [P] returns, with [P] at the end. *)
Lemma foldM_seq_inv {B} (f : B → nat → M B) (P : nat → B → Data → Prop) n :
  ∀ a b d,
    P a b d →
    (∀ i b d, (a ≤ i < a + n)%nat → P i b d →
       ∃ b' d', f b i d = Some (b', d') ∧ P (S i) b' d') →
    ∃ b' d', foldM f b (seq a n) d = Some (b', d') ∧ P (a + n)%nat b' d'.
Proof.
  induction n as [|n IH]; intros a b d HP Hstep; simpl.
  - exists b, d. rewrite Nat.add_0_r. done.
  - destruct (Hstep a b d ltac:(lia) HP) as (b1 & d1 & Hf & HP1).
    destruct (IH (S a) b1 d1 HP1) as (b2 & d2 & Hrun & HP2).
    { intros i b' d' Hi. apply Hstep. lia. }
    exists b2, d2. unfold_M. rewrite Hf. split; [done|].
    by replace (a + S n)%nat with (S a + n)%nat by lia.
Qed.

Lemma set_MaxIndexID_same d : set_MaxIndexID (MaxIndexID d) d = d.
Proof. by destruct d. Qed.

Lemma set_MaxShardID_same d : set_MaxShardID (MaxShardID d) d = d.
Proof. by destruct d. Qed.

Lemma GetEffectivePtNum_eq db d :
  is_Some (Databases d !! db) →
  GetEffectivePtNum db d = Some (effective_pt_num db d, d).
Proof.
  intros [dbi Hdb]. unfold GetEffectivePtNum, DBReplicaN, effective_pt_num. unfold_M.
  rewrite Hdb. simpl. by destruct (decide _).
Qed.

Lemma new_indexes_spec n d :
  new_indexes n d
  = Some (fresh_indexes (MaxIndexID d) n, set_MaxIndexID (bump n (MaxIndexID d)) d).
Proof.
  unfold new_indexes.
  destruct (foldM_seq_inv
    (λ acc i, modify (λ d, set_MaxIndexID (incr64 (MaxIndexID d)) d) ;;
              d ← get;
              mret (acc ++ [ {| ix_ID := MaxIndexID d; ix_Owners := [wrap32 (Z.of_nat i)];
                                ix_MarkDelete := false |} ]))
    (λ k acc d', acc = fresh_indexes (MaxIndexID d) k ∧
                 d' = set_MaxIndexID (bump k (MaxIndexID d)) d) n 0%nat [] d)
    as (acc & d' & -> & -> & ->).
  - split; [done|]. symmetry. apply set_MaxIndexID_same.
  - intros i acc d' _ [-> ->]. eexists _, _. split; [unfold_M; reflexivity|].
    split; [|done]. unfold fresh_indexes. by rewrite seq_S, fmap_app.
  - done.
Qed.

Section sort_last.
Context {A : Type} (key : A → Z).

Let le (a b : A) : Prop := key a ≤ key b.

Context `{!∀ a b, Decision (le a b)}.

#[local] Instance le_trans : Transitive le.
Proof. intros a b c. unfold le. lia. Qed.

#[local] Instance le_total : Total le.
Proof. intros a b. unfold le. lia. Qed.

(** An element that is later than all the others ends up last, whatever
    the sort does with equal keys. *)
Lemma merge_sort_last (l : list A) (x : A) :
  Forall (λ a, key a < key x) l → last (merge_sort le (l ++ [x])) = Some x.
Proof.
  intros Hlt.
  pose proof (merge_sort_Permutation le (l ++ [x])) as Hperm.
  pose proof (StronglySorted_merge_sort le (l ++ [x])) as Hsort.
  destruct (last (merge_sort le (l ++ [x]))) as [y|] eqn:El.
  - apply last_Some in El as [l' El]. rewrite El in Hperm, Hsort.
    assert (y ∈ l ++ [x]) as Hy by (rewrite <- Hperm; apply elem_of_app; right; left).
    apply elem_of_app in Hy as [Hy|Hy]; [|by apply list_elem_of_singleton in Hy as ->].
    assert (x ∈ l' ++ [y]) as Hx by (rewrite Hperm; apply elem_of_app; right; left).
    apply elem_of_app in Hx as [Hx|Hx]; [|by apply list_elem_of_singleton in Hx as ->].
    pose proof (StronglySorted_app_1_elem_of le l' [y] x y Hsort Hx ltac:(left)) as Hle.
    rewrite Forall_forall in Hlt. specialize (Hlt y Hy). unfold le in Hle. lia.
  - apply last_None in El. rewrite El in Hperm.
    apply Permutation_nil_l in Hperm. by destruct l.
Qed.

End sort_last.


(** ** Re-sharding *)

Lemma createIndexGroup_spec db rp start d lastSg :
  is_Some (Databases d !! db) → last (rp_ShardGroups rp) = Some lastSg →
  ∃ igi,
    createIndexGroup db rp start d
    = Some (set_rp_IndexGroups (sort_IndexGroupInfos (rp_IndexGroups rp ++ [igi])) rp,
            set_MaxIndexID (bump (Z.to_nat (effective_pt_num db d)) (MaxIndexID d))
              (set_MaxIndexGroupID (incr64 (MaxIndexGroupID d)) d)) ∧
    ig_StartTime igi = start ∧ ig_EngineType igi = TSSTORE ∧
    ig_Indexes igi = fresh_indexes (MaxIndexID d) (Z.to_nat (effective_pt_num db d)).
Proof.
  intros Hdb Hlast. unfold createIndexGroup. rewrite Hlast.
  eexists. split; [|split; [|split]].
  - unfold_M. cbv beta iota.
    rewrite (GetEffectivePtNum_eq db (set_MaxIndexGroupID _ d)) by done.
    rewrite new_indexes_spec. reflexivity.
  - done.
  - done.
  - done.
Qed.

Lemma bounds_owner_spec shardN i igi s : ∀ n a,
  (i < shardN)%nat → (a ≤ i)%nat →
  bounds_owner shardN i igi (seq a n) s
  = if decide (i < a + n)%nat then own igi i s else Some s.
Proof.
  induction n as [|n IH]; intros a Hi Ha; simpl.
  - destruct (decide _); [lia | done].
  - destruct (decide (a `mod` shardN = i)%nat) as [Hm|Hm].
    + assert (a = i) as ->.
      { destruct (decide (a = i)) as [|Hne]; [done|].
        rewrite Nat.mod_small in Hm by lia. done. }
      destruct (decide _); [done | lia].
    + assert (a ≠ i) by (intros ->; rewrite Nat.mod_small in Hm by lia; done).
      rewrite IH by lia. repeat destruct (decide _); try done; lia.
Qed.

Lemma own_Some igi i s ix :
  ig_Indexes igi !! i = Some ix →
  own igi i s
  = Some (set_sh_IndexID (ix_ID ix) (set_sh_Owners (sh_Owners s ++ [wrap32 (Z.of_nat i)]) s)).
Proof. intros H. unfold own. by rewrite H. Qed.

Lemma CreateShardGroupWithBounds_spec db rp start bounds et d lastSg igi first :
  is_Some (Databases d !! db) →
  last (rp_ShardGroups rp) = Some lastSg →
  last (rp_IndexGroups rp) = Some igi →
  head (sg_Shards lastSg) = Some first →
  (Z.to_nat (effective_pt_num db d) ≤ length (ig_Indexes igi))%nat →
  CreateShardGroupWithBounds db rp start bounds et d
  = Some ((set_rp_ShardGroups (sort_ShardGroupInfos (rp_ShardGroups rp ++
             [ {| sg_ID := incr64 (MaxShardGroupID d); sg_StartTime := start;
                  sg_EndTime := sg_EndTime lastSg; sg_DeletedAt := zero_time;
                  sg_Shards := bounds_shard bounds (sh_Tier first) igi
                                 (Z.to_nat (effective_pt_num db d)) (MaxShardID d)
                               <$> seq 0 (S (length bounds));
                  sg_EngineType := et; sg_Version := 0 |} ])) rp, None),
          set_MaxShardID (bump (S (length bounds)) (MaxShardID d))
            (set_MaxShardGroupID (incr64 (MaxShardGroupID d)) d)).
Proof.
  intros Hdb Hlast Hig Hfirst Hlen. unfold CreateShardGroupWithBounds.
  unfold_M. rewrite Hlast, Hig. cbv beta iota.
  match goal with
  | |- context [foldM ?f [] (seq 0 ?n) ?d1] =>
      destruct (foldM_seq_inv f
        (λ k acc d',
           acc = bounds_shard bounds (sh_Tier first) igi
                   (Z.to_nat (effective_pt_num db d)) (MaxShardID d) <$> seq 0 k ∧
           d' = set_MaxShardID (bump k (MaxShardID d)) d1) n 0%nat [] d1)
        as (acc & d' & -> & -> & ->)
  end.
  - split; [done|].
    exact (eq_sym (set_MaxShardID_same (set_MaxShardGroupID (incr64 (MaxShardGroupID d)) d))).
  - intros i acc dk Hi [-> ->]. cbv beta iota. rewrite Hfirst.
    rewrite GetEffectivePtNum_eq by done.
    change (effective_pt_num db (set_MaxShardID ?a (set_MaxShardID ?b (set_MaxShardGroupID ?c d))))
      with (effective_pt_num db d).
    rewrite bounds_owner_spec by lia. rewrite Nat.add_0_l.
    destruct (decide (i < Z.to_nat (effective_pt_num db d))%nat) as [Hpt|Hpt].
    + destruct (lookup_lt_is_Some_2 (ig_Indexes igi) i ltac:(lia)) as [ix Hix].
      rewrite (own_Some _ _ _ ix Hix).
      eexists _, _. split; [reflexivity|]. split; [|done].
      rewrite seq_S, fmap_app. f_equal. simpl. f_equal.
      unfold bounds_shard. rewrite Hix. simpl.
      destruct (decide (i < Z.to_nat (effective_pt_num db d))%nat); [|lia].
      replace (length bounds - 0)%nat with (length bounds) by lia.
      repeat destruct (decide _); try done; try lia.
    + eexists _, _. split; [reflexivity|]. split; [|done].
      rewrite seq_S, fmap_app. f_equal. simpl. f_equal.
      unfold bounds_shard.
      destruct (decide (i < Z.to_nat (effective_pt_num db d))%nat); [lia|].
      replace (length bounds - 0)%nat with (length bounds) by lia.
      repeat destruct (decide _); try done; try lia.
  - done.
Qed.

Lemma RetentionPolicy_inr db rpn d rp :
  RetentionPolicy db rpn d = inr rp →
  is_Some (Databases d !! db) ∧ policy_of db rpn d = Some rp.
Proof.
  unfold RetentionPolicy, GetDatabase, Database, GetRetentionPolicy, policy_of.
  destruct (Databases d !! db) as [dbi|]; [|done].
  destruct (db_MarkDeleted dbi); [done|]. cbn [mbind option_bind].
  destruct (db_RetentionPolicies dbi !! rpn) as [rp0|]; [|done].
  destruct (rp_MarkDeleted rp0); [done|]. intros [= ->]. split; [by eexists | done].
Qed.

Lemma policy_of_put_rp db rpn rp d :
  is_Some (Databases d !! db) → policy_of db rpn (put_rp db rpn rp d) = Some rp.
Proof.
  intros [dbi Hdb]. unfold policy_of, put_rp. rewrite Hdb.
  cbn [Databases set_Databases]. rewrite lookup_insert_eq. cbn [mbind option_bind].
  by rewrite db_RetentionPolicies_set, lookup_insert_eq.
Qed.

Lemma fresh_indexes_length base n : length (fresh_indexes base n) = n.
Proof. unfold fresh_indexes. by rewrite length_fmap, length_seq. Qed.

Lemma fresh_indexes_lookup base n i :
  (i < n)%nat →
  fresh_indexes base n !! i
  = Some {| ix_ID := bump (S i) base; ix_Owners := [wrap32 (Z.of_nat i)];
            ix_MarkDelete := false |}.
Proof.
  intros Hi. unfold fresh_indexes. by rewrite list_lookup_fmap, lookup_seq_lt.
Qed.

Lemma wrap32_small i : 0 ≤ i < 2 ^ 32 → wrap32 i = i.
Proof. intros. unfold wrap32. by apply Z.mod_small. Qed.

(** C3, as the code has it.  With the retention policy found and
    [newest] its last shard group: a target other than [newest] fails
    with [ErrShardGroupAlreadyReSharding].  Otherwise, when [newest] has a
    shard and the split time is later than the start of every index
    group, the call succeeds; the policy gains one index group, with one
    index per pt, and one shard group with [|bounds| + 1] shards.  Shard
    [i] has [max = bounds[i]] (none for the last) and [min = bounds[i-1]]
    (none for the first).  When [i] is below the number of pts, its
    owners are the single pt [i] and its index id is that of index [i] of
    the new index group; otherwise it has no owner and index id 0. *)
Theorem ReSharding_spec info d rp newest :
  RetentionPolicy (rs_Database info) (rs_Rp info) d = inr rp →
  last (rp_ShardGroups rp) = Some newest →
  (sg_ID newest ≠ rs_ShardGroupID info →
     ReSharding info d
     = Some (Some (ErrShardGroupAlreadyReSharding (rs_ShardGroupID info)), d)) ∧
  (sg_ID newest = rs_ShardGroupID info →
   sg_Shards newest ≠ [] →
   Forall (λ g, ig_StartTime g < wrap_i64 (rs_SplitTime info + 1)) (rp_IndexGroups rp) →
   0 ≤ effective_pt_num (rs_Database info) d < 2 ^ 32 →
   ∃ d' rp' igi sgi,
     ReSharding info d = Some (None, d') ∧
     policy_of (rs_Database info) (rs_Rp info) d' = Some rp' ∧
     rp_IndexGroups rp' ≡ₚ rp_IndexGroups rp ++ [igi] ∧
     rp_ShardGroups rp' ≡ₚ rp_ShardGroups rp ++ [sgi] ∧
     ig_StartTime igi = wrap_i64 (rs_SplitTime info + 1) ∧
     Z.of_nat (length (ig_Indexes igi)) = effective_pt_num (rs_Database info) d ∧
     sg_StartTime sgi = wrap_i64 (rs_SplitTime info + 1) ∧
     sg_EndTime sgi = sg_EndTime newest ∧
     sg_EngineType sgi = sg_EngineType newest ∧
     length (sg_Shards sgi) = S (length (rs_Bounds info)) ∧
     ∀ i s, sg_Shards sgi !! i = Some s →
       (∀ b, rs_Bounds info !! i = Some b → sh_Max s = b) ∧
       (i = length (rs_Bounds info) → sh_Max s = "") ∧
       (∀ b, (0 < i)%nat → rs_Bounds info !! (i - 1)%nat = Some b → sh_Min s = b) ∧
       (i = 0%nat → sh_Min s = "") ∧
       (Z.of_nat i < effective_pt_num (rs_Database info) d →
          sh_Owners s = [Z.of_nat i] ∧
          ∃ ix, ig_Indexes igi !! i = Some ix ∧ sh_IndexID s = ix_ID ix ∧
                ix_Owners ix = [Z.of_nat i]) ∧
       (effective_pt_num (rs_Database info) d ≤ Z.of_nat i →
          sh_Owners s = [] ∧ sh_IndexID s = 0)).
Proof.
  intros HRP Hlast. destruct (RetentionPolicy_inr _ _ _ _ HRP) as [Hdb Hpol].
  split.
  - intros Hne. unfold ReSharding. unfold_M. rewrite HRP, Hlast.
    by destruct (decide _).
  - intros Heq Hsh Hig Hpt.
    destruct (head (sg_Shards newest)) as [first|] eqn:Hfirst;
      [|by apply head_None in Hfirst].
    set (db := rs_Database info) in *. set (start := wrap_i64 (rs_SplitTime info + 1)) in *.
    destruct (createIndexGroup_spec db rp start d newest Hdb Hlast)
      as (igi & Hcig & Hst & Het & Hix).
    set (rp1 := set_rp_IndexGroups (sort_IndexGroupInfos (rp_IndexGroups rp ++ [igi])) rp) in *.
    set (d1 := set_MaxIndexID (bump (Z.to_nat (effective_pt_num db d)) (MaxIndexID d))
                 (set_MaxIndexGroupID (incr64 (MaxIndexGroupID d)) d)) in *.
    assert (last (rp_IndexGroups rp1) = Some igi) as Hlast_ig.
    { apply (merge_sort_last ig_StartTime). by rewrite Hst. }
    pose proof (CreateShardGroupWithBounds_spec db rp1 start (rs_Bounds info)
                  (sg_EngineType newest) d1 newest igi first Hdb Hlast Hlast_ig Hfirst)
      as Hcsg.
    rewrite Hix, fresh_indexes_length in Hcsg. specialize (Hcsg ltac:(done)).
    eexists _, _, igi, _. split; [|split; [|split; [|split]]].
    + clear Hpol Hdb Hlast_ig. subst db start rp1 d1.
      unfold ReSharding. unfold_M. rewrite HRP, Hlast.
      destruct (decide _); [done|]. rewrite Hcig. cbv beta iota.
      rewrite Hcsg. reflexivity.
    + by apply policy_of_put_rp.
    + apply merge_sort_Permutation.
    + apply merge_sort_Permutation.
    + split; [done|]. split; [rewrite Hix, fresh_indexes_length, Z2Nat.id; [done|lia]|].
      do 3 (split; [done|]). split; [cbn [sg_Shards]; by rewrite length_fmap, length_seq|].
      intros i s Hs. cbn [sg_Shards] in Hs.
      rewrite list_lookup_fmap in Hs.
      destruct (seq 0 (S (length (rs_Bounds info))) !! i) as [j|] eqn:Hj; [|done].
      apply lookup_seq in Hj as [-> Hi]. injection Hs as <-. cbn [bounds_shard].
      assert (∀ x, effective_pt_num db
                     (set_MaxIndexID x (set_MaxIndexGroupID (incr64 (MaxIndexGroupID d)) d))
                   = effective_pt_num db d) as Hn by done.
      clear Hcig Hcsg Hlast_ig. subst rp1 d1 db start.
      unfold bounds_shard; simpl. rewrite !Hn.
      split; [|split; [|split; [|split; [|split]]]].
      * intros b Hb. apply lookup_lt_Some in Hb as Hlt.
        destruct (decide _); [by rewrite Hb | lia].
      * intros ->. by destruct (decide _).
      * intros b H0 Hb. destruct (decide _); [by rewrite Hb | lia].
      * intros ->. done.
      * intros Hlt. destruct (decide _) as [Hlt'|]; [|lia].
        rewrite wrap32_small by lia. split; [done|].
        rewrite Hix, fresh_indexes_lookup by done. eexists. split; [done|].
        split; [done|]. simpl. by rewrite wrap32_small by lia.
      * intros Hge. destruct (decide _); [lia | done].
Qed.

Lemma ReSharding_spec_witness :
  RetentionPolicy "db0" "autogen" after_S1 = inr policy_S1 ∧
  last (rp_ShardGroups policy_S1) = Some group_S1 ∧
  ∃ d' rp' igi sgi,
    ReSharding three_way after_S1 = Some (None, d') ∧
    policy_of "db0" "autogen" d' = Some rp' ∧
    rp_IndexGroups rp' ≡ₚ rp_IndexGroups policy_S1 ++ [igi] ∧
    rp_ShardGroups rp' ≡ₚ rp_ShardGroups policy_S1 ++ [sgi] ∧
    length (ig_Indexes igi) = 2%nat ∧
    length (sg_Shards sgi) = 3%nat ∧
    ∀ i s, sg_Shards sgi !! i = Some s →
      (Z.of_nat i < 2 →
         sh_Owners s = [Z.of_nat i] ∧
         ∃ ix, ig_Indexes igi !! i = Some ix ∧ sh_IndexID s = ix_ID ix ∧
               ix_Owners ix = [Z.of_nat i]) ∧
      (2 ≤ Z.of_nat i → sh_Owners s = [] ∧ sh_IndexID s = 0).
Proof.
  assert (RetentionPolicy "db0" "autogen" after_S1 = inr policy_S1) as HRP
    by (vm_compute; reflexivity).
  assert (last (rp_ShardGroups policy_S1) = Some group_S1) as Hlast
    by (vm_compute; reflexivity).
  split; [exact HRP|]. split; [exact Hlast|].
  destruct (ReSharding_spec three_way after_S1 policy_S1 group_S1 HRP Hlast)
    as [_ Hok].
  destruct Hok as (d' & rp' & igi & sgi & Hrun & Hpol & Hig & Hsg & _ & Hn & _ & _ & _
                   & Hlen & Hsh).
  - reflexivity.
  - discriminate.
  - apply (bool_decide_unpack _). vm_compute. exact I.
  - vm_compute. split; [discriminate | reflexivity].
  - exists d', rp', igi, sgi. split; [exact Hrun|]. split; [exact Hpol|].
    split; [exact Hig|]. split; [exact Hsg|].
    split; [change (effective_pt_num (rs_Database three_way) after_S1) with 2 in Hn; lia|].
    split; [exact Hlen|].
    intros i s Hs. destruct (Hsh i s Hs) as (_ & _ & _ & _ & Hlt & Hge).
    split; [exact Hlt | exact Hge].
Defined.

(** C3 as stated does not hold: [three_way] asks for three shards of a
    database with two pts, and the third shard gets no owner and no
    index. *)
Lemma ReSharding_shard_without_owner :
  ReSharding three_way after_S1 = Some (None, after_three_way) ∧
  (policy_of "db0" "autogen" after_three_way ≫= λ rp,
     rp_ShardGroups rp !! 1%nat ≫= λ g, sg_Shards g !! 2%nat) = Some shard_5 ∧
  sh_Owners shard_5 = [] ∧ sh_IndexID shard_5 = 0.
Proof.
  split; [vm_compute; reflexivity|]. split; [vm_compute; reflexivity|].
  split; reflexivity.
Qed.

(** ** Replica groups *)

(** C5, as the code has it.  In scenario S6 every command succeeds; the
    pt-view of the database has 4 pts and there are exactly 2 replica
    groups; group 0 has master pt 0 and peer pt 1, group 1 has master
    pt 2 and peer pt 3; peer [i] of a group is the pt
    [master + pt_num_per_node * (i + 1)]; a peer lives on another node
    than its master; and the replica group id of every covered pt is the
    id of its group. *)
Theorem S6_replica_groups :
  run_commands replication_env S6 (init_data 1 false) = Some (replicate 7 None, after_S6) ∧
  length (DBPtView "dbR" after_S6) = 4%nat ∧
  DBRepGroups "dbR" after_S6 = [group_of 0 0 [1]; group_of 1 2 [3]] ∧
  Forall (λ g, ∀ i p, rg_Peers g !! i = Some p →
                peer_ID p = rg_MasterPtID g + PtNumPerNode after_S6 * (Z.of_nat i + 1))
         (DBRepGroups "dbR" after_S6) ∧
  Forall (λ g, Forall (λ p, pt_OwnerNodeID <$> pt_of "dbR" after_S6 (peer_ID p)
                            ≠ pt_OwnerNodeID <$> pt_of "dbR" after_S6 (rg_MasterPtID g))
                      (rg_Peers g))
         (DBRepGroups "dbR" after_S6) ∧
  Forall (λ g, Forall (λ p, pt_RGID <$> pt_of "dbR" after_S6 p = Some (rg_ID g))
                      (rg_MasterPtID g :: (peer_ID <$> rg_Peers g)))
         (DBRepGroups "dbR" after_S6).
Proof.
  assert (DBRepGroups "dbR" after_S6 = [group_of 0 0 [1]; group_of 1 2 [3]]) as Hg
    by (vm_compute; reflexivity).
  split; [vm_compute; reflexivity|]. split; [vm_compute; reflexivity|].
  split; [exact Hg|]. rewrite Hg.
  split; [|split].
  - repeat constructor; intros [|[|i]] p [= <-]; reflexivity.
  - repeat constructor; vm_compute; discriminate.
  - repeat constructor; vm_compute; reflexivity.
Qed.

(** C5 as stated does not hold: in scenario S6 the groups are not
    (master 0, peer 2) and (master 1, peer 3). *)
Lemma S6_groups_not_interleaved :
  run_commands replication_env S6 (init_data 1 false) = Some (replicate 7 None, after_S6) ∧
  ¬ ∃ g0 g1,
      DBRepGroups "dbR" after_S6 = [g0; g1] ∧
      rg_MasterPtID g0 = 0 ∧ peer_ID <$> rg_Peers g0 = [2] ∧
      rg_MasterPtID g1 = 1 ∧ peer_ID <$> rg_Peers g1 = [3].
Proof.
  split; [vm_compute; reflexivity|].
  intros (g0 & g1 & Hg & _ & _ & Hm & _).
  assert (rg_MasterPtID <$> DBRepGroups "dbR" after_S6 !! 1%nat = Some 2) as H
    by (vm_compute; reflexivity).
  rewrite Hg in H. simpl in H. rewrite Hm in H. discriminate.
Qed.

(** ** Shard groups and their index groups *)

Lemma Truncate_bounds t dur : 0 < dur → Truncate t dur ≤ t < Truncate t dur + dur.
Proof.
  intros Hd. unfold Truncate. destruct (decide _); [lia|].
  pose proof (Z.mod_pos_bound (t - zero_time) dur Hd). lia.
Qed.

Lemma clamp_end_covers t dur :
  0 < dur → t ≤ MaxNanoTime → t < clamp_end (Truncate t dur + dur).
Proof.
  intros Hd Ht. pose proof (Truncate_bounds t dur Hd).
  unfold clamp_end. destruct (decide _); lia.
Qed.

Lemma set_MaxIndexGroupID_same d : set_MaxIndexGroupID (MaxIndexGroupID d) d = d.
Proof. by destruct d. Qed.

Lemma shard_owners_spec shardN i igi : ∀ n a s,
  (i < shardN)%nat → (a + n ≤ shardN)%nat →
  shard_owners shardN i igi (seq a n) s
  = if decide (a ≤ i < a + n)%nat then own igi i s else Some s.
Proof.
  induction n as [|n IH]; intros a s Hi Ha; simpl.
  - destruct (decide _); [lia | done].
  - destruct (decide (a `mod` shardN = i)%nat) as [Hm|Hm].
    + rewrite Nat.mod_small in Hm by lia. subst a.
      destruct (decide _); [|lia].
      destruct (own igi i s) as [s'|]; [|done]. cbn [mbind option_bind].
      rewrite IH by lia. destruct (decide _); [lia | done].
    + rewrite Nat.mod_small in Hm by lia.
      rewrite IH by lia. repeat destruct (decide _); try done; lia.
Qed.

Lemma createShards_spec db sgi igi rpi msti tier d :
  is_Some (Databases d !! db) →
  is_range msti = false →
  (Z.to_nat (effective_pt_num db d) ≤ length (ig_Indexes igi))%nat →
  createShards db sgi igi rpi msti tier d
  = Some (set_sg_Shards (hash_shard tier igi (MaxShardID d)
                           <$> seq 0 (Z.to_nat (effective_pt_num db d))) sgi,
          set_MaxShardID (bump (Z.to_nat (effective_pt_num db d)) (MaxShardID d)) d).
Proof.
  intros Hdb Hr Hlen. unfold createShards. unfold_M.
  rewrite GetEffectivePtNum_eq by done. rewrite Hr. cbv beta iota.
  match goal with
  | |- context [foldM ?f [] (seq 0 ?n) ?d1] =>
      destruct (foldM_seq_inv f
        (λ k acc d',
           acc = hash_shard tier igi (MaxShardID d) <$> seq 0 k ∧
           d' = set_MaxShardID (bump k (MaxShardID d)) d1) n 0%nat [] d1)
        as (acc & d' & -> & -> & ->)
  end.
  - split; [done|]. exact (eq_sym (set_MaxShardID_same d)).
  - intros i acc dk Hi [-> ->]. cbv beta iota.
    rewrite shard_owners_spec by lia.
    destruct (decide _) as [_|]; [|lia].
    destruct (lookup_lt_is_Some_2 (ig_Indexes igi) i ltac:(lia)) as [ix Hix].
    rewrite (own_Some _ _ _ ix Hix).
    eexists _, _. split; [reflexivity|]. split; [|done].
    rewrite seq_S, fmap_app. f_equal. simpl. f_equal.
    unfold hash_shard. by rewrite Hix.
  - done.
Qed.

Lemma CreateIndexGroup_spec rpi ts et ptNum d :
  CreateIndexGroup rpi ts et ptNum d
  = let igi :=
      {| ig_ID := incr64 (MaxIndexGroupID d);
         ig_StartTime := Truncate ts (rp_IndexGroupDuration rpi);
         ig_EndTime := clamp_end (Truncate ts (rp_IndexGroupDuration rpi)
                                  + rp_IndexGroupDuration rpi);
         ig_Indexes := fresh_indexes (MaxIndexID d) (Z.to_nat ptNum);
         ig_DeletedAt := zero_time; ig_EngineType := et |} in
    Some ((set_rp_IndexGroups (sort_IndexGroupInfos (rp_IndexGroups rpi ++ [igi])) rpi, igi),
          set_MaxIndexID (bump (Z.to_nat ptNum) (MaxIndexID d))
            (set_MaxIndexGroupID (incr64 (MaxIndexGroupID d)) d)).
Proof.
  unfold CreateIndexGroup. unfold_M. cbv beta iota.
  rewrite new_indexes_spec. reflexivity.
Qed.

(** The index group that [createIndexGroupIfNeeded] hands to a new shard
    group: it is in the policy, has the engine type, covers the
    timestamp, and has an index, owned by its position, for every pt. *)
Lemma createIndexGroupIfNeeded_spec rpi ts et ptNum d :
  0 < rp_IndexGroupDuration rpi → ts ≤ MaxNanoTime → 0 ≤ ptNum < 2 ^ 32 →
  Forall owned_by_position (rp_IndexGroups rpi) →
  ∃ rpi1 igi x y,
    createIndexGroupIfNeeded rpi ts et ptNum d
    = Some ((rpi1, igi), set_MaxIndexID x (set_MaxIndexGroupID y d)) ∧
    (∃ igs, rpi1 = set_rp_IndexGroups igs rpi) ∧
    igi ∈ rp_IndexGroups rpi1 ∧
    ig_EngineType igi = et ∧
    ig_Contains igi ts = true ∧
    (Z.to_nat ptNum ≤ length (ig_Indexes igi))%nat ∧
    ∀ i ix, (i < Z.to_nat ptNum)%nat → ig_Indexes igi !! i = Some ix →
            ix_Owners ix = [Z.of_nat i].
Proof.
  intros Hdur Hts Hpt Hown.
  assert (∃ rpi1 igi x y,
    CreateIndexGroup rpi ts et ptNum d
    = Some ((rpi1, igi), set_MaxIndexID x (set_MaxIndexGroupID y d)) ∧
    (∃ igs, rpi1 = set_rp_IndexGroups igs rpi) ∧
    igi ∈ rp_IndexGroups rpi1 ∧
    ig_EngineType igi = et ∧
    ig_Contains igi ts = true ∧
    (Z.to_nat ptNum ≤ length (ig_Indexes igi))%nat ∧
    ∀ i ix, (i < Z.to_nat ptNum)%nat → ig_Indexes igi !! i = Some ix →
            ix_Owners ix = [Z.of_nat i]) as Hnew.
  { rewrite CreateIndexGroup_spec. cbv zeta.
    eexists _, _, _, _. split; [reflexivity|]. split; [by eexists|].
    split; [|split; [done|split; [|split]]].
    - cbn [rp_IndexGroups set_rp_IndexGroups]. unfold sort_IndexGroupInfos.
      rewrite merge_sort_Permutation. apply elem_of_app. right. apply list_elem_of_singleton.
      done.
    - unfold ig_Contains. cbn [ig_StartTime ig_EndTime]. apply bool_decide_eq_true.
      split; [apply Truncate_bounds; lia | by apply clamp_end_covers].
    - cbn [ig_Indexes]. by rewrite fresh_indexes_length.
    - intros i ix Hi. cbn [ig_Indexes]. rewrite fresh_indexes_lookup by done.
      intros [= <-]. cbn [ix_Owners]. by rewrite wrap32_small by lia. }
  unfold createIndexGroupIfNeeded.
  destruct (decide _); [done|].
  destruct (list_find _ _) as [[k g]|] eqn:Hfind; [|done].
  destruct (decide _) as [Hn|]; [|done].
  apply list_find_Some in Hfind as (Hk & [Het Hc] & _).
  exists rpi, g, (MaxIndexID d), (MaxIndexGroupID d).
  split; [by rewrite set_MaxIndexGroupID_same, set_MaxIndexID_same|].
  split; [exists (rp_IndexGroups rpi); by destruct rpi|].
  split; [by eapply list_elem_of_lookup_2|].
  split; [done|]. split; [done|]. split; [lia|].
  intros i ix _ Hix. rewrite Forall_forall in Hown.
  by apply (Hown g (list_elem_of_lookup_2 _ _ _ Hk) i ix).
Qed.

(** C1, as the code has it.  [CreateShardGroup] for a timestamp that no
    shard group of the policy covers, with hash sharding, returns
    success and adds one shard group [g] with one shard per pt; every
    shard of [g] is linked as C1 says: an index group of the policy
    overlaps [g], has its engine type, and holds at position
    [owners[0]] the index with the shard's [index_id] and owners. *)
Theorem CreateShardGroup_links_shards env db pol ts tier et ver d rpi msti :
  checkStoreReady d = None →
  RetentionPolicy db pol d = inr rpi →
  rp_ShardGroupByTimestampAndEngineType rpi ts et = None →
  any_measurement env (rp_Measurements rpi) = Some msti →
  is_range msti = false →
  0 < rp_ShardGroupDuration rpi → 0 < rp_IndexGroupDuration rpi →
  ts ≤ MaxNanoTime →
  0 ≤ effective_pt_num db d < 2 ^ 32 →
  Forall owned_by_position (rp_IndexGroups rpi) →
  ∃ d' rp' g,
    CreateShardGroup env db pol ts tier et ver d = Some (None, d') ∧
    policy_of db pol d' = Some rp' ∧
    rp_ShardGroups rp' ≡ₚ rp_ShardGroups rpi ++ [g] ∧
    sg_Contains g ts = true ∧ sg_EngineType g = et ∧
    Z.of_nat (length (sg_Shards g)) = effective_pt_num db d ∧
    ∀ s, s ∈ sg_Shards g → index_of_shard rp' g s.
Proof.
  intros Hready HRP Hnone Hany Hhash Hsgd Higd Hts Hpt Hown.
  destruct (RetentionPolicy_inr _ _ _ _ HRP) as [Hdb _].
  destruct (createIndexGroupIfNeeded_spec rpi ts et (effective_pt_num db d) d
              Higd Hts Hpt Hown)
    as (rpi1 & igi & x & y & Hcig & [igs ->] & Higi & Het & Hcov & Hlen & Hpos).
  set (d1 := set_MaxIndexID x (set_MaxIndexGroupID y d)) in *.
  set (rpi1 := set_rp_IndexGroups igs rpi) in *.
  set (sgi := {| sg_ID := MaxShardGroupID
                            (set_MaxShardGroupID (incr64 (MaxShardGroupID d1)) d1);
                 sg_StartTime := Truncate ts (rp_ShardGroupDuration rpi1);
                 sg_EndTime := clamp_end (Truncate ts (rp_ShardGroupDuration rpi1)
                                          + rp_ShardGroupDuration rpi1);
                 sg_DeletedAt := zero_time; sg_Shards := []; sg_EngineType := et;
                 sg_Version := ver |}).
  pose proof (createShards_spec db sgi igi rpi1 msti tier
                (set_MaxShardGroupID (incr64 (MaxShardGroupID d1)) d1) Hdb Hhash Hlen)
    as Hcs.
  assert (∀ a b c, effective_pt_num db
                     (set_MaxShardGroupID a (set_MaxIndexID b (set_MaxIndexGroupID c d)))
                   = effective_pt_num db d) as Hn by done.
  assert (Truncate ts (rp_ShardGroupDuration rpi) ≤ ts
          < clamp_end (Truncate ts (rp_ShardGroupDuration rpi) + rp_ShardGroupDuration rpi))
    as Hin by (split; [apply Truncate_bounds | apply clamp_end_covers]; done).
  eexists _, _, _. split; [|split; [|split; [|split; [|split; [|split]]]]].
  - clear Hpos Higi. subst sgi rpi1 d1.
    unfold CreateShardGroup, newShardGroup. unfold_M.
    rewrite HRP, Hready, Hnone, Hany. cbv beta iota.
    rewrite GetEffectivePtNum_eq by done. rewrite Hcig. cbv beta iota.
    rewrite Hcs. reflexivity.
  - by apply policy_of_put_rp.
  - apply merge_sort_Permutation.
  - apply bool_decide_eq_true. exact Hin.
  - done.
  - subst sgi rpi1 d1. cbn [sg_Shards set_sg_Shards].
    rewrite length_fmap, length_seq, Hn. lia.
  - intros s Hs. subst sgi rpi1 d1. cbn [sg_Shards set_sg_Shards] in Hs.
    rewrite Hn in Hs.
    apply list_elem_of_fmap in Hs as (i & -> & Hi).
    apply elem_of_seq in Hi.
    destruct (lookup_lt_is_Some_2 (ig_Indexes igi) i ltac:(lia)) as [ix Hix].
    exists (Z.of_nat i), igi, ix.
    assert (wrap32 (Z.of_nat i) = Z.of_nat i) as Hw by (apply wrap32_small; lia).
    split; [cbn [hash_shard sh_Owners head]; by rewrite Hw|].
    split; [done|].
    split.
    { apply bool_decide_eq_true in Hcov. apply bool_decide_eq_true.
      cbn [sg_StartTime sg_EndTime set_sg_Shards rp_ShardGroupDuration set_rp_IndexGroups].
      lia. }
    split; [done|].
    split; [by rewrite Nat2Z.id|].
    split; [cbn [hash_shard sh_IndexID]; by rewrite Hix|].
    cbn [hash_shard sh_Owners]. rewrite Hw. apply (Hpos i ix); [lia | done].
Qed.

Lemma CreateShardGroup_links_shards_witness :
  ∃ d' rp' g,
    CreateShardGroup plain_env "db0" "autogen" next_hour 1 TSSTORE 0 after_S1
    = Some (None, d') ∧
    policy_of "db0" "autogen" d' = Some rp' ∧
    rp_ShardGroups rp' ≡ₚ rp_ShardGroups policy_S1 ++ [g] ∧
    sg_Contains g next_hour = true ∧ sg_EngineType g = TSSTORE ∧
    Z.of_nat (length (sg_Shards g)) = effective_pt_num "db0" after_S1 ∧
    ∀ s, s ∈ sg_Shards g → index_of_shard rp' g s.
Proof.
  apply (CreateShardGroup_links_shards plain_env "db0" "autogen" next_hour 1 TSSTORE 0
           after_S1 policy_S1 cpu_0).
  - vm_compute. reflexivity.
  - vm_compute. reflexivity.
  - vm_compute. reflexivity.
  - vm_compute. reflexivity.
  - vm_compute. reflexivity.
  - vm_compute. reflexivity.
  - vm_compute. reflexivity.
  - vm_compute. discriminate.
  - vm_compute. split; [discriminate | reflexivity].
  - assert (ig_Indexes <$> rp_IndexGroups policy_S1
            = [[ {| ix_ID := 1; ix_Owners := [0]; ix_MarkDelete := false |};
                 {| ix_ID := 2; ix_Owners := [1]; ix_MarkDelete := false |} ]]) as Hig
      by (vm_compute; reflexivity).
    destruct (rp_IndexGroups policy_S1) as [|g [|g' l]]; [constructor| |discriminate].
    injection Hig as Hig. repeat constructor.
    intros i ix. rewrite Hig. destruct i as [|[|i]]; intros [= <-]; reflexivity.
Defined.

(** C1 as stated does not hold: the catalog after scenario S1 and the
    re-sharding [three_way] is reachable, and its shard 5 has no owner
    and no index. *)
Lemma resharding_breaks_shard_index_inv :
  reachable after_three_way ∧ ¬ shard_index_inv after_three_way.
Proof.
  split.
  - unfold after_three_way.
    destruct (ReSharding three_way after_S1) as [[r d]|] eqn:E; [|apply reachable_after].
    apply (reach_step plain_env (CmdReSharding three_way) after_S1 r d);
      [apply reachable_after | exact E].
  - intros Hinv.
    assert ((policy_of "db0" "autogen" after_three_way ≫= λ rp,
               rp_ShardGroups rp !! 1%nat ≫= λ g, sg_Shards g !! 2%nat)
            = Some shard_5) as H.
    { vm_compute. reflexivity. }
    destruct (policy_of "db0" "autogen" after_three_way) as [rp|] eqn:Hrp; [|discriminate].
    cbn [mbind option_bind] in H.
    destruct (rp_ShardGroups rp !! 1%nat) as [g|] eqn:Hg; [|discriminate].
    cbn [mbind option_bind] in H.
    destruct (Hinv "db0" "autogen" rp g _ Hrp (list_elem_of_lookup_2 _ _ _ Hg)
                (list_elem_of_lookup_2 _ _ _ H)) as (owner & _ & _ & Ho & _).
    discriminate.
Qed.

(** ** Clone *)

Lemma clone_fields_id d : clone_fields d = d.
Proof.
  destruct d. unfold clone_fields, CloneMetaNodes, CloneDataNodes, CloneDBPtView,
    CloneDatabases, CloneStreams, CloneUsers, CloneMigrateEvents, CloneQueryIDInit.
  cbn. f_equal; try apply list_fmap_id; try apply map_fmap_id.
  destruct PtView0 as [m|]; [|done]. simpl. f_equal.
  apply map_eq. intros i. rewrite lookup_fmap.
  destruct (m !! i); [|done]. simpl. by rewrite list_fmap_id.
Qed.

(** C9 fails on the replica groups.  A clone reads as the original at
    the moment of cloning.  But the clone of the catalog of scenario S6
    holds the two replica groups of [dbR] only until the original drops
    the database: then the clone has none. *)
Theorem Clone_shares_replica_groups :
  (∀ c st, view st (Clone c) = view st c) ∧
  view store_S6 catalog_S6 = after_S6 ∧
  DBRepGroups "dbR" (view store_S6 (Clone catalog_S6))
  = [group_of 0 0 [1]; group_of 1 2 [3]] ∧
  ∃ c' st',
    run (DropDatabase "dbR") catalog_S6 store_S6 = Some (tt, c', st') ∧
    DBRepGroups "dbR" (view st' (Clone catalog_S6)) = [].
Proof.
  split; [|split; [|split]].
  - intros c st. unfold view, Clone. cbn [cat_fields cat_rg]. by rewrite clone_fields_id.
  - vm_compute. reflexivity.
  - vm_compute. reflexivity.
  - destruct (run (DropDatabase "dbR") catalog_S6 store_S6) as [[[[] c'] st']|] eqn:E;
      [|vm_compute in E; discriminate].
    exists c', st'. split; [done|].
    vm_compute in E. injection E as _ <-. vm_compute. reflexivity.
Qed.

(** * Properties of the further operations *)

(** ** Users *)

Lemma list_find_cons_eq {A} (P : A → Prop) `{∀ x, Decision (P x)} x l :
  list_find P (x :: l)
  = if decide (P x) then Some (0%nat, x) else prod_map S id <$> list_find P l.
Proof. done. Qed.

Lemma user_named_cons n u l :
  user_named n (u :: l) = if decide (ui_Name u = n) then Some u else user_named n l.
Proof.
  unfold user_named. rewrite list_find_cons_eq. unfold has_name at 1.
  destruct (decide (ui_Name u = n)); [done|].
  by destruct (list_find _ l) as [[i x]|].
Qed.

Lemma user_named_app n l k :
  user_named n (l ++ k) = if user_named n l is Some u then Some u else user_named n k.
Proof.
  induction l as [|u l IH]; [done|]. simpl. rewrite !user_named_cons.
  by destruct (decide _).
Qed.

Lemma user_named_None n l : user_named n l = None ↔ n ∉ ui_Name <$> l.
Proof.
  induction l as [|u l IH]; [by split; [intros _; apply not_elem_of_nil|]|].
  rewrite user_named_cons, fmap_cons, not_elem_of_cons.
  destruct (decide _) as [<-|Hne]; [by split; [|intros []]|].
  rewrite IH. split; [by split | by intros []].
Qed.

Lemma user_named_name n l u : user_named n l = Some u → ui_Name u = n.
Proof.
  induction l as [|v l IH]; [done|]. rewrite user_named_cons.
  destruct (decide _); [by intros [= <-] | done].
Qed.

Lemma user_named_fmap n (f : UserInfo → UserInfo) l :
  (∀ u, ui_Name (f u) = ui_Name u) → user_named n (f <$> l) = f <$> user_named n l.
Proof.
  intros Hf. induction l as [|u l IH]; [done|].
  rewrite fmap_cons, !user_named_cons. pose proof (Hf u).
  repeat destruct (decide _); try done; congruence.
Qed.

(** Replacing the user that [list_find] lands on by one of the same
    name. *)
Lemma user_named_insert n l i u u' m :
  list_find (has_name n) l = Some (i, u) → ui_Name u' = n →
  user_named m (<[i := u']> l) = if decide (m = n) then Some u' else user_named m l.
Proof.
  revert i. induction l as [|v l IH]; intros i; [done|].
  rewrite list_find_cons_eq. unfold has_name at 1.
  destruct (decide (ui_Name v = n)) as [Hv|Hv].
  - intros [= <- <-] Hu'. simpl. rewrite !user_named_cons.
    repeat destruct (decide _); congruence.
  - destruct (list_find _ l) as [[j w]|] eqn:E; [|done]. intros [= <- <-] Hu'.
    simpl. rewrite !user_named_cons, (IH j eq_refl Hu').
    repeat destruct (decide _); congruence.
Qed.

(** Deleting the user that [list_find] lands on, names being unique. *)
Lemma user_named_delete n l i u m :
  list_find (has_name n) l = Some (i, u) → NoDup (ui_Name <$> l) →
  user_named m (delete i l) = if decide (m = n) then None else user_named m l.
Proof.
  revert i. induction l as [|v l IH]; intros i; [done|].
  rewrite list_find_cons_eq. unfold has_name at 1.
  rewrite fmap_cons, NoDup_cons.
  destruct (decide (ui_Name v = n)) as [Hv|Hv].
  - intros [= <- <-] [Hnot _]. simpl. rewrite user_named_cons.
    destruct (decide (m = n)) as [->|Hm].
    + apply user_named_None. by rewrite <- Hv.
    + destruct (decide _); congruence.
  - destruct (list_find _ l) as [[j w]|] eqn:E; [|done]. intros [= <- <-] [_ Hnd].
    simpl. rewrite !user_named_cons, (IH j eq_refl Hnd).
    repeat destruct (decide _); congruence.
Qed.

Lemma list_find_user_named n l i u : list_find (has_name n) l = Some (i, u) → user_named n l = Some u.
Proof. intros H. unfold user_named. by rewrite H. Qed.

Lemma list_find_user_named_None n l : list_find (has_name n) l = None → user_named n l = None.
Proof. intros H. unfold user_named. by rewrite H. Qed.

Lemma GetUser_named n d : GetUser n d = user_named n (Users d).
Proof. done. Qed.


(** X2. With unique user names, [DropUser] refuses an admin and an
    unknown name, and then changes nothing.  Otherwise the user is gone:
    [GetUser] no longer finds the name and finds every other name as
    before. *)
Theorem DropUser_spec name d :
  NoDup (ui_Name <$> Users d) →
  ∃ r d', DropUser name d = Some (r, d') ∧
    match r with
    | Some e =>
        d' = d ∧
        (e = ErrUserDropSelf ∧ (∃ u, GetUser name d = Some u ∧ ui_Admin u = true) ∨
         e = ErrUserNotFound ∧ GetUser name d = None)
    | None =>
        (∃ u, GetUser name d = Some u ∧ ui_Admin u = false) ∧
        ∀ n, GetUser n d' = if decide (n = name) then None else GetUser n d
    end.
Proof.
  intros Hnd. unfold DropUser. unfold_M.
  destruct (list_find (has_name name) (Users d)) as [[i u]|] eqn:Hf.
  - pose proof (list_find_user_named _ _ _ _ Hf) as Hu.
    change (user_named name (Users d)) with (GetUser name d) in Hu. rewrite Hu.
    destruct (ui_Admin u) eqn:Ha.
    + eexists _, _. split; [reflexivity|]. split; [done|]. left. eauto.
    + eexists _, _. split; [reflexivity|]. split; [eauto|].
      intros n. unfold GetUser. cbn [Users set_Users].
      by apply (user_named_delete name _ i u).
  - pose proof (list_find_user_named_None _ _ Hf) as Hu.
    change (user_named name (Users d)) with (GetUser name d) in Hu. rewrite Hu.
    eexists _, _. split; [reflexivity|]. split; [done|]. by right.
Qed.

Lemma DropUser_spec_witness :
  NoDup (ui_Name <$> Users two_users) ∧
  ∃ r d', DropUser "guest" two_users = Some (r, d') ∧
    match r with
    | Some e =>
        d' = two_users ∧
        (e = ErrUserDropSelf ∧
           (∃ u, GetUser "guest" two_users = Some u ∧ ui_Admin u = true) ∨
         e = ErrUserNotFound ∧ GetUser "guest" two_users = None)
    | None =>
        (∃ u, GetUser "guest" two_users = Some u ∧ ui_Admin u = false) ∧
        ∀ n, GetUser n d' = if decide (n = "guest") then None else GetUser n two_users
    end.
Proof.
  assert (NoDup (ui_Name <$> Users two_users)) as Hnd.
  { apply (bool_decide_unpack _). vm_compute. exact I. }
  split; [exact Hnd|]. exact (DropUser_spec "guest" two_users Hnd).
Defined.

(** X3. [UpdateUser] refuses an unknown name and the hash already in
    use, and then changes nothing.  Otherwise [GetUser] finds the user
    with the new hash, everything else of it as before, and finds every
    other name as before. *)
Theorem UpdateUser_spec name hash d :
  ∃ r d', UpdateUser name hash d = Some (r, d') ∧
    match r with
    | Some e =>
        d' = d ∧
        (e = ErrUserNotFound ∧ GetUser name d = None ∨
         e = ErrPwdUsed ∧ ∃ u, GetUser name d = Some u ∧ ui_Hash u = hash)
    | None =>
        ∃ u, GetUser name d = Some u ∧ ui_Hash u ≠ hash ∧
             ∀ n, GetUser n d' = if decide (n = name) then Some (set_ui_Hash hash u)
                                 else GetUser n d
    end.
Proof.
  unfold UpdateUser. unfold_M.
  destruct (list_find (has_name name) (Users d)) as [[i u]|] eqn:Hf.
  - pose proof (list_find_user_named _ _ _ _ Hf) as Hu.
    destruct (decide (ui_Hash u = hash)) as [Hh|Hh].
    + eexists _, _. split; [reflexivity|]. split; [done|]. right. eauto.
    + eexists _, _. split; [reflexivity|]. exists u. split; [done|]. split; [done|].
      intros n. unfold GetUser. cbn [Users set_Users].
      apply (user_named_insert name _ i u); [done|].
      apply list_find_Some in Hf as (_ & Hn & _). by destruct u.
  - eexists _, _. split; [reflexivity|]. split; [done|]. left.
    split; [done|]. by apply list_find_user_named_None.
Qed.


(** X5. After [DropDatabase] the database, its pt-view and its replica
    groups are gone and no user holds a privilege on it; every other
    database, view, group list and privilege is as before. *)
Theorem DropDatabase_spec name d :
  ∃ d', DropDatabase name d = Some (tt, d') ∧
    Database name d' = None ∧ DBPtView name d' = [] ∧ DBRepGroups name d' = [] ∧
    (∀ u, UserPrivilege u name d' = inr NoPrivileges ∨
          UserPrivilege u name d' = inl ErrUserNotFound) ∧
    ∀ n, n ≠ name →
      Database n d' = Database n d ∧ DBPtView n d' = DBPtView n d ∧
      DBRepGroups n d' = DBRepGroups n d ∧
      ∀ u, UserPrivilege u n d' = UserPrivilege u n d.
Proof.
  set (drop := λ u, set_ui_Privileges (delete name (ui_Privileges u)) u).
  destruct (DropDatabase name d) as [[[] d']|] eqn:E; [|done].
  assert (Databases d' = delete name (Databases d) ∧
          PtView d' = delete name <$> PtView d ∧
          ReplicaGroups d' = delete name <$> ReplicaGroups d ∧
          Users d' = drop <$> Users d) as (HD & HP & HR & HU).
  { unfold DropDatabase in E. unfold_M. by simplify_eq. }
  assert (∀ u db, UserPrivilege u db d'
                  = match GetUser u d with
                    | None => inl ErrUserNotFound
                    | Some ui => inr (default NoPrivileges (delete name (ui_Privileges ui) !! db))
                    end) as Hpriv.
  { intros u db. unfold UserPrivilege. rewrite !GetUser_named, HU.
    rewrite (user_named_fmap u drop) by (by intros []).
    by destruct (user_named u (Users d)). }
  exists d'. split; [done|].
  split; [unfold Database; rewrite HD; apply lookup_delete_eq|].
  split.
  { unfold DBPtView. rewrite HP. destruct (PtView d) as [m|]; [|done]. cbn.
    by rewrite lookup_delete_eq. }
  split.
  { unfold DBRepGroups. rewrite HR. destruct (ReplicaGroups d) as [m|]; [|done]. cbn.
    by rewrite lookup_delete_eq. }
  split.
  { intros u. rewrite Hpriv. destruct (GetUser u d); [left | by right].
    by rewrite lookup_delete_eq. }
  intros n Hn. split; [unfold Database; rewrite HD; by apply lookup_delete_ne|].
  split.
  { unfold DBPtView. rewrite HP. destruct (PtView d) as [m|]; [|done]. cbn.
    by rewrite lookup_delete_ne. }
  split.
  { unfold DBRepGroups. rewrite HR. destruct (ReplicaGroups d) as [m|]; [|done]. cbn.
    by rewrite lookup_delete_ne. }
  intros u. rewrite Hpriv. unfold UserPrivilege. destruct (GetUser u d); [|done].
  by rewrite lookup_delete_ne.
Qed.

(** X6. User names are unique in every catalog that commands can
    produce. *)
Theorem user_names_unique d : reachable d → NoDup (ui_Name <$> Users d).
Proof.
  induction 1 as [n b | env c d r d' _ IH H]; [constructor|].
  destruct (user_command c) eqn:Hc.
  - destruct c; try done; simpl in H.
    + (* CreateUser *)
      unfold CreateUser in H. unfold_M.
      destruct (decide (name = "")); [by simplify_eq|].
      destruct (GetUser name d) as [u|] eqn:Hu; [by simplify_eq|].
      assert (NoDup (ui_Name <$> (Users d ++ [new_user name hash admin rwuser]))) as Hnew.
      { rewrite fmap_app. apply NoDup_app. split; [done|]. split; [|apply NoDup_singleton].
        intros x Hx Hin. apply list_elem_of_singleton in Hin. subst x.
        by apply (user_named_None name (Users d)) in Hx. }
      destruct (admin && HasAdminUser d); [by simplify_eq|].
      destruct admin; by simplify_eq.
    + (* DropUser *)
      unfold DropUser in H. unfold_M.
      destruct (if GetUser name d is Some u then ui_Admin u else false); [by simplify_eq|].
      destruct (list_find _ _) as [[i u]|]; [|by simplify_eq]. simplify_eq.
      cbn [Users set_Users]. apply (sublist_NoDup _ (ui_Name <$> Users d));
        first [exact IH | apply fmap_sublist, sublist_delete].
  - pose proof (keeps_apply env c Hc d r d' H) as Hsig.
    unfold user_sig in Hsig. injection Hsig as Hsig _.
    apply (f_equal (fmap fst)) in Hsig. rewrite <- !list_fmap_compose in Hsig.
    change (fst ∘ _) with ui_Name in Hsig. by rewrite Hsig.
Qed.

(** ** Databases *)

Lemma database_of_args_fields dbName rpi shardKey tag replicaN options :
  let dbi := database_of_args dbName rpi shardKey tag replicaN options in
  db_Name dbi = dbName ∧ db_MarkDeleted dbi = false ∧ db_ReplicaN dbi = replicaN ∧
  db_EnableTagArray dbi = tag ∧
  db_RetentionPolicies dbi = (if rpi is Some rp then <[rp_Name rp := rp]> ∅ else ∅) ∧
  db_DefaultRetentionPolicy dbi = (if rpi is Some rp then rp_Name rp else "").
Proof. by destruct rpi, shardKey, options. Qed.

(** X7. On a ready store, [CreateDatabase] with a new name and a valid
    retention policy succeeds.  Afterwards the database is found under
    its name with the given replica count and tag-array flag, the policy
    is found in it and is its default, and every other database is as
    before. *)
Theorem CreateDatabase_fresh env dbName rp shardKey tag replicaN options d :
  dbName ≠ "" → ClusterPtNum d ≠ 0 → Database dbName d = None →
  rp_Name rp ≠ "" → 1 ≤ rp_ReplicaN rp → CheckSpecValid env rp = None →
  rp_MarkDeleted rp = false →
  ∃ d' dbi,
    CreateDatabase env dbName (Some rp) shardKey tag replicaN options d = Some (None, d') ∧
    GetDatabase dbName d' = inr dbi ∧
    db_Name dbi = dbName ∧ db_ReplicaN dbi = replicaN ∧ db_EnableTagArray dbi = tag ∧
    db_DefaultRetentionPolicy dbi = rp_Name rp ∧
    RetentionPolicy dbName (rp_Name rp) d' = inr rp ∧
    ∀ n, n ≠ dbName → Database n d' = Database n d.
Proof.
  intros Hname Hready Hfresh Hrp Hrep Hvalid Hlive.
  pose proof (database_of_args_fields dbName (Some rp) shardKey tag replicaN options)
    as (Hn & Hdel & HrepN & Htag & Hrps & Hdef).
  set (dbi := database_of_args dbName (Some rp) shardKey tag replicaN options) in *.
  exists (set_Databases (<[dbName := dbi]> (Databases d)) d), dbi.
  assert (GetDatabase dbName (set_Databases (<[dbName := dbi]> (Databases d)) d) = inr dbi)
    as Hget.
  { unfold GetDatabase, Database. cbn [Databases set_Databases].
    by rewrite lookup_insert_eq, Hdel. }
  split.
  { unfold CreateDatabase, CheckCanCreateDatabase, checkStoreReady, SetDatabase. unfold_M.
    destruct (decide (dbName = "")); [done|].
    destruct (decide (ClusterPtNum d = 0)); [done|]. rewrite Hfresh.
    unfold CheckCanCreateRetentionPolicy.
    destruct (decide (rp_Name rp = "")); [done|].
    destruct (decide (rp_ReplicaN rp < 1)); [lia|]. rewrite Hvalid.
    cbn [NewDatabase db_RetentionPolicies db_ReplicaN]. rewrite lookup_empty.
    destruct (decide (0 ≠ 0 ∧ _)) as [[? _]|]; [done|].
    fold dbi. by rewrite Hn. }
  split; [done|]. do 4 (split; [done|]).
  split.
  { unfold RetentionPolicy. rewrite Hget. unfold GetRetentionPolicy.
    by rewrite Hrps, lookup_insert_eq, Hlive. }
  intros n Hne. unfold Database. cbn [Databases set_Databases].
  by rewrite lookup_insert_ne.
Qed.

Lemma CreateDatabase_fresh_witness :
  ∃ d' dbi,
    CreateDatabase plain_env "db1" (Some weekly) None true 1 None with_db0 = Some (None, d') ∧
    GetDatabase "db1" d' = inr dbi ∧
    db_Name dbi = "db1" ∧ db_ReplicaN dbi = 1 ∧ db_EnableTagArray dbi = true ∧
    db_DefaultRetentionPolicy dbi = rp_Name weekly ∧
    RetentionPolicy "db1" (rp_Name weekly) d' = inr weekly ∧
    ∀ n, n ≠ "db1" → Database n d' = Database n with_db0.
Proof.
  apply (CreateDatabase_fresh plain_env "db1" weekly None true 1 None with_db0).
  - discriminate.
  - vm_compute. discriminate.
  - vm_compute. reflexivity.
  - discriminate.
  - vm_compute. discriminate.
  - reflexivity.
  - reflexivity.
Defined.

Lemma MarkDatabaseDelete_marks name d0 d :
  MarkDatabaseDelete name d0 = Some (None, d) →
  GetDatabase name d = inl (ErrnoDatabaseIsBeingDelete name) ∧
  ClusterPtNum d = ClusterPtNum d0.
Proof.
  unfold MarkDatabaseDelete. unfold_M. intros H.
  destruct (Databases d0 !! name) as [dbi|]; [|done].
  destruct (CheckStreamExistInDatabase name d0); [done|].
  destruct (db_MarkDeleted dbi); [done|].
  destruct (checkMigrateConflict name d0); [done|]. simplify_eq.
  unfold GetDatabase, Database. cbn [Databases set_Databases].
  by rewrite lookup_insert_eq.
Qed.

(** X8. Once [MarkDatabaseDelete] has succeeded the database is closed:
    [GetDatabase] refuses it, and so does, without changing the catalog,
    every operation on its retention policies, measurements and groups;
    [CreateShardGroup] does on a ready store. *)
Theorem marked_database_is_closed env name d0 d :
  MarkDatabaseDelete name d0 = Some (None, d) →
  let e := ErrnoDatabaseIsBeingDelete name in
  GetDatabase name d = inl e ∧
  (∀ rpi makeDefault, refused e (CreateRetentionPolicy env name rpi makeDefault) d) ∧
  (∀ rp, refused e (DropRetentionPolicy name rp) d) ∧
  (∀ rp, refused e (MarkRetentionPolicyDelete name rp) d) ∧
  (∀ rp, refused e (SetDefaultRetentionPolicy name rp) d) ∧
  (∀ rp mst shardKey indexR engineType colStoreInfo schemaInfo options,
     refused e (CreateMeasurement env name rp mst shardKey indexR engineType colStoreInfo
                  schemaInfo options) d) ∧
  (∀ rp mst fields, refused e (UpdateSchema name rp mst fields) d) ∧
  (∀ rp mst, refused e (MarkMeasurementDelete name rp mst) d) ∧
  (∀ rp mst, refused e (DropMeasurement name rp mst) d) ∧
  (∀ info, rs_Database info = name → refused e (ReSharding info) d) ∧
  (∀ rp id, refused e (DeleteShardGroup env name rp id) d) ∧
  (∀ rp id, refused e (DeleteIndexGroup env name rp id) d) ∧
  (ClusterPtNum d0 ≠ 0 →
     ∀ rp ts tier engineType version,
       refused e (CreateShardGroup env name rp ts tier engineType version) d).
Proof.
  intros H e. destruct (MarkDatabaseDelete_marks _ _ _ H) as [Hget Hpt].
  assert (∀ rp, RetentionPolicy name rp d = inl e) as Hrp
    by (intros rp; unfold RetentionPolicy; by rewrite Hget).
  split; [done|].
  repeat split; intros; unfold refused.
  - unfold CreateRetentionPolicy. unfold_M. by rewrite Hget.
  - unfold DropRetentionPolicy. unfold_M. by rewrite Hget.
  - unfold MarkRetentionPolicyDelete. unfold_M. by rewrite Hrp.
  - unfold SetDefaultRetentionPolicy. unfold_M. by rewrite Hget.
  - unfold CreateMeasurement. unfold_M. by rewrite Hrp.
  - unfold UpdateSchema, Measurement. unfold_M. by rewrite Hget.
  - unfold MarkMeasurementDelete, Measurement. unfold_M. by rewrite Hget.
  - unfold DropMeasurement. unfold_M. by rewrite Hrp.
  - unfold ReSharding. unfold_M. subst name. by rewrite Hrp.
  - unfold DeleteShardGroup. unfold_M. by rewrite Hrp.
  - unfold DeleteIndexGroup. unfold_M. by rewrite Hrp.
  - unfold CreateShardGroup, checkStoreReady. unfold_M. rewrite Hpt.
    destruct (decide (ClusterPtNum d0 = 0)); [done|]. by rewrite Hrp.
Qed.

Lemma marked_database_is_closed_witness :
  MarkDatabaseDelete "db0" with_db0 = Some (None, db0_marked) ∧
  GetDatabase "db0" db0_marked = inl (ErrnoDatabaseIsBeingDelete "db0") ∧
  (∀ rp mst fields,
     refused (ErrnoDatabaseIsBeingDelete "db0") (UpdateSchema "db0" rp mst fields) db0_marked) ∧
  (∀ rp ts tier engineType version,
     refused (ErrnoDatabaseIsBeingDelete "db0")
       (CreateShardGroup plain_env "db0" rp ts tier engineType version) db0_marked).
Proof.
  assert (MarkDatabaseDelete "db0" with_db0 = Some (None, db0_marked)) as H
    by (vm_compute; reflexivity).
  split; [exact H|].
  destruct (marked_database_is_closed plain_env "db0" with_db0 db0_marked H)
    as (Hget & _ & _ & _ & _ & _ & Hschema & _ & _ & _ & _ & _ & Hsg).
  split; [exact Hget|]. split; [exact Hschema|].
  apply Hsg. vm_compute. discriminate.
Defined.

(** ** Retention policies *)

Lemma policy_of_insert_db dbName dbi d n :
  policy_of dbName n (set_Databases (<[dbName := dbi]> (Databases d)) d)
  = db_RetentionPolicies dbi !! n.
Proof. unfold policy_of. cbn [Databases set_Databases]. by rewrite lookup_insert_eq. Qed.

Lemma GetDatabase_inr name d dbi :
  GetDatabase name d = inr dbi → Databases d !! name = Some dbi ∧ db_MarkDeleted dbi = false.
Proof.
  unfold GetDatabase, Database. destruct (Databases d !! name) as [x|]; [|done].
  destruct (db_MarkDeleted x) eqn:E; [done|]. by intros [= ->].
Qed.

(** X9. [CreateRetentionPolicy] with a named, valid policy on a database
    that [GetDatabase] accepts.  A new name is refused when its replica
    count differs from a non-zero one of the database; otherwise the
    policy is stored, is the default when asked for, and every other
    policy and database is as before.  A name in use never changes the
    catalog: the call succeeds when the stored policy equals the given
    one (and, if the default is asked for, is the default), and fails
    with [ErrRetentionPolicyConflict] otherwise. *)
Theorem CreateRetentionPolicy_spec env dbName rp makeDefault d dbi :
  GetDatabase dbName d = inr dbi →
  rp_Name rp ≠ "" → 1 ≤ rp_ReplicaN rp → CheckSpecValid env rp = None →
  let run := CreateRetentionPolicy env dbName (Some rp) makeDefault in
  (db_RetentionPolicies dbi !! rp_Name rp = None →
     (db_ReplicaN dbi ≠ 0 → rp_ReplicaN rp ≠ db_ReplicaN dbi →
        refused ErrReplicaNConflict run d) ∧
     (db_ReplicaN dbi = 0 ∨ rp_ReplicaN rp = db_ReplicaN dbi →
        ∃ d' dbi',
          run d = Some (None, d') ∧
          policy_of dbName (rp_Name rp) d' = Some rp ∧
          (∀ n, n ≠ rp_Name rp → policy_of dbName n d' = policy_of dbName n d) ∧
          Database dbName d' = Some dbi' ∧
          db_DefaultRetentionPolicy dbi'
          = (if makeDefault then rp_Name rp else db_DefaultRetentionPolicy dbi) ∧
          ∀ n, n ≠ dbName → Database n d' = Database n d)) ∧
  (∀ existRp, db_RetentionPolicies dbi !! rp_Name rp = Some existRp →
     (EqualsAnotherRp existRp rp = true →
      makeDefault = false ∨ db_DefaultRetentionPolicy dbi = rp_Name rp →
        run d = Some (None, d)) ∧
     (EqualsAnotherRp existRp rp = false ∨
      makeDefault = true ∧ db_DefaultRetentionPolicy dbi ≠ rp_Name rp →
        refused ErrRetentionPolicyConflict run d)).
Proof.
  intros Hget Hname Hrep Hvalid run.
  destruct (GetDatabase_inr _ _ _ Hget) as [Hdb Hlive].
  assert (∀ r, CheckCanCreateRetentionPolicy env dbi (Some rp) makeDefault = r →
               run d = match r with
                       | Some err => if decide (err = ErrRetentionPolicyExists)
                                     then Some (None, d) else Some (Some err, d)
                       | None => Some (None, set_Databases
                                   (<[dbName := SetRetentionPolicy dbi rp makeDefault]>
                                      (Databases d)) d)
                       end) as Hrun.
  { intros r Hr. unfold run, CreateRetentionPolicy. unfold_M. rewrite Hget, Hr.
    destruct r as [err|]; [by destruct (decide _) | done]. }
  assert (CheckCanCreateRetentionPolicy env dbi (Some rp) makeDefault
          = match db_RetentionPolicies dbi !! rp_Name rp with
            | None =>
                if decide (db_ReplicaN dbi ≠ 0 ∧ rp_ReplicaN rp ≠ db_ReplicaN dbi)
                then Some ErrReplicaNConflict else None
            | Some existRp =>
                if negb (EqualsAnotherRp existRp rp) then Some ErrRetentionPolicyConflict
                else if makeDefault &&
                        bool_decide (db_DefaultRetentionPolicy dbi ≠ rp_Name rp)
                then Some ErrRetentionPolicyConflict
                else Some ErrRetentionPolicyExists
            end) as Hcheck.
  { unfold CheckCanCreateRetentionPolicy.
    destruct (decide (rp_Name rp = "")); [done|].
    destruct (decide (rp_ReplicaN rp < 1)); [lia|]. by rewrite Hvalid. }
  split.
  - intros Hnone. rewrite Hnone in Hcheck. split.
    + intros H0 Hne. unfold refused. rewrite (Hrun _ Hcheck).
      destruct (decide (_ ∧ _)) as [|[]]; done.
    + intros Hok. destruct (decide (_ ∧ _)) as [[? ?]|_] in Hcheck; [by destruct Hok|].
      eexists _, _. split; [exact (Hrun _ Hcheck)|].
      split; [rewrite policy_of_insert_db; destruct makeDefault; cbn;
              by rewrite lookup_insert_eq|].
      split.
      { intros n Hn. rewrite policy_of_insert_db. unfold policy_of. rewrite Hdb. cbn.
        destruct makeDefault; cbn; by rewrite lookup_insert_ne. }
      split; [unfold Database; cbn [Databases set_Databases]; apply lookup_insert_eq|].
      split; [by destruct makeDefault|].
      intros n Hn. unfold Database. cbn [Databases set_Databases].
      by rewrite lookup_insert_ne.
  - intros existRp Hsome. rewrite Hsome in Hcheck. split.
    + intros Heq Hdef. rewrite (Hrun _ Hcheck), Heq. cbn.
      destruct Hdef as [-> | Hdef]; [done|].
      rewrite bool_decide_eq_false_2 by (by intros []). by rewrite andb_false_r.
    + intros Hbad. unfold refused. rewrite (Hrun _ Hcheck).
      destruct Hbad as [-> | [-> Hne]]; [done|].
      destruct (EqualsAnotherRp existRp rp); [|done]. cbn.
      by rewrite bool_decide_eq_true_2.
Qed.

Lemma CreateRetentionPolicy_spec_witness :
  GetDatabase "db0" with_db0 = inr db0_info ∧
  (∃ d', CreateRetentionPolicy plain_env "db0" (Some weekly) false with_db0 = Some (None, d') ∧
         policy_of "db0" "weekly" d' = Some weekly ∧
         policy_of "db0" "autogen" d' = policy_of "db0" "autogen" with_db0) ∧
  CreateRetentionPolicy plain_env "db0" (Some autogen) true with_db0 = Some (None, with_db0).
Proof.
  assert (GetDatabase "db0" with_db0 = inr db0_info) as Hget by (vm_compute; reflexivity).
  split; [exact Hget|]. split.
  - destruct (CreateRetentionPolicy_spec plain_env "db0" weekly false with_db0 db0_info Hget)
      as [Hnew _]; [discriminate | vm_compute; discriminate | reflexivity |].
    destruct (Hnew eq_refl) as [_ Hok].
    destruct (Hok (or_intror eq_refl)) as (d' & dbi' & Hrun & Hpol & Hother & _).
    exists d'. split; [exact Hrun|]. split; [exact Hpol|]. apply Hother. discriminate.
  - destruct (CreateRetentionPolicy_spec plain_env "db0" autogen true with_db0 db0_info Hget)
      as [_ Hold]; [discriminate | vm_compute; discriminate | reflexivity |].
    destruct (Hold autogen eq_refl) as [Hsame _].
    apply Hsame; [vm_compute; reflexivity | by right].
Defined.

(** X10. [DropRetentionPolicy] on a database that [GetDatabase] accepts
    succeeds, also for a policy that is in use or is the default.  The
    policy is gone, the other policies and databases are as before, and
    the default policy name of the database is left as it was: after
    dropping the default policy, [SetDefaultRetentionPolicy] with that
    name is refused. *)
Theorem DropRetentionPolicy_spec database name d di :
  GetDatabase database d = inr di →
  ∃ d' di',
    DropRetentionPolicy database name d = Some (None, d') ∧
    policy_of database name d' = None ∧
    (∀ n, n ≠ name → policy_of database n d' = policy_of database n d) ∧
    GetDatabase database d' = inr di' ∧
    db_DefaultRetentionPolicy di' = db_DefaultRetentionPolicy di ∧
    (∀ n, n ≠ database → Database n d' = Database n d) ∧
    refused (ErrRetentionPolicyNotFound name) (SetDefaultRetentionPolicy database name) d'.
Proof.
  intros Hget. destruct (GetDatabase_inr _ _ _ Hget) as [Hdb Hlive].
  assert (∀ d' di', GetDatabase database d' = inr di' →
            db_RetentionPolicies di' !! name = None →
            refused (ErrRetentionPolicyNotFound name)
              (SetDefaultRetentionPolicy database name) d') as Hset.
  { intros d' di' Hg Hn. unfold refused, SetDefaultRetentionPolicy, GetRetentionPolicy.
    unfold_M. by rewrite Hg, Hn. }
  unfold DropRetentionPolicy. unfold_M. rewrite Hget.
  destruct (decide (db_RetentionPolicies di = ∅)) as [Hempty|Hne].
  - exists d, di. split; [done|].
    assert (∀ n, policy_of database n d = None) as Hnone.
    { intros n. unfold policy_of. rewrite Hdb. cbn. by rewrite Hempty, lookup_empty. }
    split; [done|]. split; [done|]. split; [done|]. split; [done|]. split; [done|].
    apply (Hset d di Hget). by rewrite Hempty, lookup_empty.
  - eexists _, _. split; [reflexivity|].
    split; [rewrite policy_of_insert_db; apply lookup_delete_eq|].
    split.
    { intros n Hn. rewrite policy_of_insert_db. unfold policy_of. rewrite Hdb. cbn.
      by apply lookup_delete_ne. }
    assert (GetDatabase database
              (set_Databases (<[database := set_db_RetentionPolicies
                                  (delete name (db_RetentionPolicies di)) di]>
                                (Databases d)) d)
            = inr (set_db_RetentionPolicies (delete name (db_RetentionPolicies di)) di))
      as Hget'.
    { unfold GetDatabase, Database. cbn [Databases set_Databases].
      rewrite lookup_insert_eq. cbn. by rewrite Hlive. }
    split; [exact Hget'|]. split; [done|].
    split.
    { intros n Hn. unfold Database. cbn [Databases set_Databases].
      by rewrite lookup_insert_ne. }
    apply (Hset _ _ Hget'). cbn. apply lookup_delete_eq.
Qed.

Lemma DropRetentionPolicy_spec_witness :
  ∃ d' di',
    DropRetentionPolicy "db0" "autogen" with_db0 = Some (None, d') ∧
    policy_of "db0" "autogen" d' = None ∧
    (∀ n, n ≠ "autogen" → policy_of "db0" n d' = policy_of "db0" n with_db0) ∧
    GetDatabase "db0" d' = inr di' ∧
    db_DefaultRetentionPolicy di' = db_DefaultRetentionPolicy db0_info ∧
    (∀ n, n ≠ "db0" → Database n d' = Database n with_db0) ∧
    refused (ErrRetentionPolicyNotFound "autogen")
      (SetDefaultRetentionPolicy "db0" "autogen") d'.
Proof.
  apply (DropRetentionPolicy_spec "db0" "autogen" with_db0 db0_info).
  vm_compute. reflexivity.
Defined.

(** ** Measurements *)

Lemma CreateMeasurement_checked env database rpName mst shardKey indexR engineType
    colStoreInfo schemaInfo options d rp :
  RetentionPolicy database rpName d = inr rp →
  measurement_args_ok env rp mst shardKey colStoreInfo →
  CreateMeasurement env database rpName mst shardKey indexR engineType colStoreInfo
    schemaInfo options d
  = match rp_Measurement mst rp with
    | Some (_, msti) =>
        if mst_MarkDeleted msti then
          createVersionMeasurement database rpName rp shardKey indexR (ski_of shardKey) mst
            (next_version mst rp) engineType colStoreInfo schemaInfo options d
        else
          match last (mst_ShardKeys msti) with
          | Some latest =>
              if EqualsToAnother (ski_of shardKey) latest then Some (None, d)
              else Some (Some ErrMeasurementExists, d)
          | None => Some (Some ErrMeasurementExists, d)
          end
    | None =>
        createVersionMeasurement database rpName rp shardKey indexR (ski_of shardKey) mst
          (next_version mst rp) engineType colStoreInfo schemaInfo options d
    end.
Proof.
  intros HRP [Hsk Hcol]. unfold CreateMeasurement, ski_of. unfold_M. rewrite HRP.
  assert ((if colStoreInfo is Some _ then bool_decide (1 < rp_ReplicaN rp) else false)
          = false) as Hc.
  { destruct colStoreInfo; [|done]. destruct Hcol as [|Hle]; [done|].
    apply bool_decide_eq_false. lia. }
  destruct shardKey as [sk|].
  - destruct (Hsk sk eq_refl) as [Hv Hno]. cbn [unmarshal_ski sk_Type]. rewrite Hv.
    assert (bool_decide (1 < rp_ReplicaN rp) && bool_decide (sk_Type sk = RANGE) = false)
      as ->.
    { destruct (bool_decide (1 < rp_ReplicaN rp)) eqn:E1; [|done].
      destruct (bool_decide (sk_Type sk = RANGE)) eqn:E2; [|done].
      apply bool_decide_eq_true in E1, E2. by destruct Hno. }
    rewrite Hc.
    destruct (rp_Measurement mst rp) as [[k msti]|]; [|done].
    destruct (mst_MarkDeleted msti); [done|].
    destruct (last (mst_ShardKeys msti)); [|done]. by destruct (EqualsToAnother _ _).
  - rewrite Hc.
    destruct (rp_Measurement mst rp) as [[k msti]|]; [|done].
    destruct (mst_MarkDeleted msti); [done|].
    destruct (last (mst_ShardKeys msti)); [|done]. by destruct (EqualsToAnother _ _).
Qed.

Lemma Measurement_run database rp mst d key m :
  find_measurement database rp mst d = Some (key, m) →
  ∃ o, Measurement database rp mst d
       = Some (inr (key, set_mst_ObsOptions o m),
               put_mst database rp key (set_mst_ObsOptions o m) d).
Proof.
  unfold find_measurement, RetentionPolicy, Measurement. unfold_M. intros H.
  destruct (GetDatabase database d) as [|db]; [done|].
  destruct (GetRetentionPolicy rp db) as [|rpi]; [done|].
  destruct (rp_Measurement mst rpi) as [[k m0]|]; [|done].
  destruct (mst_MarkDeleted m0) eqn:Edel; [done|]. simplify_eq.
  destruct (mst_ObsOptions m) as [o|] eqn:Eo; [|destruct (db_Options db) as [o|] eqn:Edo].
  - exists (Some o). by destruct m; simplify_eq/=.
  - by exists (Some o).
  - exists None. by destruct m; simplify_eq/=.
Qed.

Lemma put_mst_versions {A} (f : gmap string MeasurementVer → option A) database rpName key m d :
  (policy_of database rpName (put_mst database rpName key m d)
     ≫= λ rp', f (rp_MstVersions rp'))
  = (policy_of database rpName d ≫= λ rp', f (rp_MstVersions rp')).
Proof.
  unfold put_mst. fold (policy_of database rpName d).
  destruct (policy_of database rpName d) as [rp|] eqn:E; [|by rewrite E].
  rewrite policy_of_put_rp; [done|].
  unfold policy_of in E. destruct (Databases d !! database); [by eexists | done].
Qed.

(** X11. [CreateMeasurement] of a name without live measurement, in a
    policy stored under its own name and with arguments that pass the
    checks, creates the measurement: afterwards it is live under the
    next version of the name, with the given engine type.  The schema is
    filled in after the measurement is stored: when the supplied fields
    conflict among themselves the call returns [ErrFieldTypeConflict]
    and the measurement stays, with an empty schema. *)
Theorem CreateMeasurement_new env database rpName mst shardKey indexR engineType
    colStoreInfo schemaInfo options d rp :
  RetentionPolicy database rpName d = inr rp →
  rp_Name rp = rpName →
  find_measurement database rpName mst d = None →
  measurement_args_ok env rp mst shardKey colStoreInfo →
  ∃ r d' m,
    CreateMeasurement env database rpName mst shardKey indexR engineType colStoreInfo
      schemaInfo options d = Some (r, d') ∧
    find_measurement database rpName mst d'
    = Some (GetNameWithVersion mst (next_version mst rp), m) ∧
    (policy_of database rpName d' ≫= λ rp', mv_Version <$> rp_MstVersions rp' !! mst)
    = Some (next_version mst rp) ∧
    mst_originName m = mst ∧ mst_EngineType m = engineType ∧
    match add_fields ∅ schemaInfo with
    | Some schema => r = None ∧ mst_Schema m = schema
    | None => r = Some ErrFieldTypeConflict ∧ mst_Schema m = ∅
    end.
Proof.
  intros HRP Hkey Hnot Hargs.
  rewrite (CreateMeasurement_checked _ _ _ _ _ _ _ _ _ _ _ rp HRP Hargs).
  cut (∃ r d' m,
         createVersionMeasurement database rpName rp shardKey indexR (ski_of shardKey) mst
           (next_version mst rp) engineType colStoreInfo schemaInfo options d
         = Some (r, d') ∧
         find_measurement database rpName mst d'
         = Some (GetNameWithVersion mst (next_version mst rp), m) ∧
         (policy_of database rpName d' ≫= λ rp', mv_Version <$> rp_MstVersions rp' !! mst)
         = Some (next_version mst rp) ∧
         mst_originName m = mst ∧ mst_EngineType m = engineType ∧
         match add_fields ∅ schemaInfo with
         | Some schema => r = None ∧ mst_Schema m = schema
         | None => r = Some ErrFieldTypeConflict ∧ mst_Schema m = ∅
         end).
  { intros Htail. unfold find_measurement in Hnot. rewrite HRP in Hnot.
    destruct (rp_Measurement mst rp) as [[k msti]|]; [|done].
    by destruct (mst_MarkDeleted msti). }
  destruct (RetentionPolicy_inr _ _ _ _ HRP) as [Hdb Hpol].
  set (ver := next_version mst rp) in *.
  set (key := GetNameWithVersion mst ver).
  set (ski := {| sk_ShardKey := sk_ShardKey (ski_of shardKey);
                 sk_Type := sk_Type (ski_of shardKey);
                 sk_ShardGroup := if decide (length (rp_ShardGroups rp) = 0%nat)
                                  then wrap64 (MaxShardGroupID d + 1) else 0 |}).
  set (msti := {| mst_Name := key; mst_originName := mst;
                  mst_ShardKeys := if shardKey is Some _ then [ski] else [];
                  mst_Schema := ∅; mst_IndexRelation := indexR;
                  mst_ColStoreInfo := colStoreInfo; mst_MarkDeleted := false;
                  mst_EngineType := engineType; mst_Options := options;
                  mst_ObsOptions := None |}).
  set (rp1 := set_rp_Measurements (<[key := msti]> (rp_Measurements rp))
                (set_rp_MstVersions
                   (<[mst := {| mv_NameWithVersion := key; mv_Version := ver |}]>
                      (rp_MstVersions rp)) rp)).
  set (dA := put_rp database rpName rp1 d).
  assert (createVersionMeasurement database rpName rp shardKey indexR (ski_of shardKey) mst
            ver engineType colStoreInfo schemaInfo options d
          = if decide (0 < length schemaInfo)%nat
            then UpdateSchema database rpName mst schemaInfo dA
            else Some (None, dA)) as Hcvm.
  { unfold createVersionMeasurement. unfold_M. fold key ski msti rp1 dA.
    destruct (decide (0 < length schemaInfo)%nat); [|reflexivity].
    change (rp_Name (set_rp_Measurements ?a ?b)) with (rp_Name rp). by rewrite Hkey. }
  assert (policy_of database rpName dA = Some rp1) as HpolA
    by (by apply policy_of_put_rp).
  assert (find_measurement database rpName mst dA = Some (key, msti)) as HfindA.
  { destruct Hdb as [dbi Hdbi]. unfold find_measurement, RetentionPolicy, GetDatabase,
      Database, GetRetentionPolicy.
    unfold policy_of in HpolA, Hpol. 
    destruct (Databases dA !! database) as [dbA|] eqn:EA; [|done].
    assert (db_MarkDeleted dbA = false ∧ rp_MarkDeleted rp = false) as [HdA Hrpl].
    { unfold RetentionPolicy, GetDatabase, Database, GetRetentionPolicy in HRP.
      rewrite Hdbi in HRP. rewrite Hdbi in Hpol. cbn in Hpol.
      destruct (db_MarkDeleted dbi) eqn:E1; [done|]. rewrite Hpol in HRP.
      destruct (rp_MarkDeleted rp) eqn:E2; [done|]. split; [|done].
      unfold dA, put_rp in EA. rewrite Hdbi in EA. cbn [Databases set_Databases] in EA.
      rewrite lookup_insert_eq in EA. by simplify_eq. }
    rewrite HdA. cbn in HpolA. rewrite HpolA.
    change (rp_MarkDeleted rp1) with (rp_MarkDeleted rp). rewrite Hrpl.
    unfold rp_Measurement. cbn [rp1 rp_MstVersions rp_Measurements set_rp_Measurements
      set_rp_MstVersions]. rewrite lookup_insert_eq. cbn. by rewrite lookup_insert_eq. }
  assert ((policy_of database rpName dA ≫= λ rp', mv_Version <$> rp_MstVersions rp' !! mst)
          = Some ver) as Hver.
  { rewrite HpolA. cbn. by rewrite lookup_insert_eq. }
  rewrite Hcvm. destruct (decide (0 < length schemaInfo)%nat) as [Hlen|Hlen].
  - destruct (Measurement_run _ _ _ _ _ _ HfindA) as [o HM].
    set (m1 := set_mst_ObsOptions o msti) in *.
    pose proof (find_measurement_put _ _ _ _ _ _ m1 HfindA eq_refl) as Hfind1.
    unfold UpdateSchema. unfold_M. rewrite HM.
    change (mst_Schema m1) with (∅ : gmap string Z).
    destruct (add_fields ∅ schemaInfo) as [schema|] eqn:E.
    + eexists _, _, _. split; [reflexivity|].
      split; [by apply (find_measurement_put _ _ _ _ _ m1)|].
      split; [by rewrite !(put_mst_versions (λ vs, mv_Version <$> vs !! mst))|]. done.
    + eexists _, _, _. split; [reflexivity|]. split; [exact Hfind1|].
      split; [by rewrite (put_mst_versions (λ vs, mv_Version <$> vs !! mst))|]. done.
  - assert (schemaInfo = []) as -> by (destruct schemaInfo; [done | simpl in Hlen; lia]).
    eexists _, _, _. split; [reflexivity|]. split; [exact HfindA|].
    split; [exact Hver|]. done.
Qed.

Lemma CreateMeasurement_new_witness :
  ∃ r d' m,
    CreateMeasurement plain_env "db0" "autogen" "mem" None None TSSTORE None
      [("a", 1); ("a", 2)] None with_db0 = Some (r, d') ∧
    find_measurement "db0" "autogen" "mem" d'
    = Some (GetNameWithVersion "mem" (next_version "mem" autogen), m) ∧
    (policy_of "db0" "autogen" d' ≫= λ rp', mv_Version <$> rp_MstVersions rp' !! "mem")
    = Some (next_version "mem" autogen) ∧
    mst_originName m = "mem" ∧ mst_EngineType m = TSSTORE ∧
    match add_fields ∅ [("a", 1); ("a", 2)] with
    | Some schema => r = None ∧ mst_Schema m = schema
    | None => r = Some ErrFieldTypeConflict ∧ mst_Schema m = ∅
    end.
Proof.
  apply (CreateMeasurement_new plain_env "db0" "autogen" "mem" None None TSSTORE None
           [("a", 1); ("a", 2)] None with_db0 autogen).
  - vm_compute. reflexivity.
  - reflexivity.
  - vm_compute. reflexivity.
  - split; [intros sk; discriminate | by left].
Defined.

(** X12. [CreateMeasurement] never changes a live measurement.  With
    arguments that pass the checks it returns success exactly when the
    measurement has a shard key and the latest one equals the supplied
    one, and [ErrMeasurementExists] otherwise; so a measurement created
    without shard key is refused when created again. *)
Theorem CreateMeasurement_live env database rpName mst shardKey indexR engineType
    colStoreInfo schemaInfo options d rp key m :
  RetentionPolicy database rpName d = inr rp →
  find_measurement database rpName mst d = Some (key, m) →
  measurement_args_ok env rp mst shardKey colStoreInfo →
  ∃ r,
    CreateMeasurement env database rpName mst shardKey indexR engineType colStoreInfo
      schemaInfo options d = Some (r, d) ∧
    (r = None ∨ r = Some ErrMeasurementExists) ∧
    (r = None ↔ ∃ latest, last (mst_ShardKeys m) = Some latest ∧
                          EqualsToAnother (ski_of shardKey) latest = true).
Proof.
  intros HRP Hfind Hargs.
  rewrite (CreateMeasurement_checked _ _ _ _ _ _ _ _ _ _ _ rp HRP Hargs).
  unfold find_measurement in Hfind. rewrite HRP in Hfind.
  destruct (rp_Measurement mst rp) as [[k msti]|]; [|done].
  destruct (mst_MarkDeleted msti); [done|]. simplify_eq.
  destruct (last (mst_ShardKeys m)) as [latest|].
  - destruct (EqualsToAnother (ski_of shardKey) latest) eqn:E.
    + exists None. split; [done|]. split; [by left|]. split; [eauto | done].
    + exists (Some ErrMeasurementExists). split; [done|]. split; [by right|].
      split; [done|]. intros (l & [= <-] & Hl). congruence.
  - exists (Some ErrMeasurementExists). split; [done|]. split; [by right|].
    split; [done|]. by intros (l & ? & _).
Qed.

Lemma CreateMeasurement_live_witness :
  ∃ r,
    CreateMeasurement plain_env "db0" "autogen" "cpu" None None TSSTORE None [] None with_cpu
    = Some (r, with_cpu) ∧
    (r = None ∨ r = Some ErrMeasurementExists) ∧
    (r = None ↔ ∃ latest, last (mst_ShardKeys cpu_0) = Some latest ∧
                          EqualsToAnother (ski_of None) latest = true).
Proof.
  apply (CreateMeasurement_live plain_env "db0" "autogen" "cpu" None None TSSTORE None []
           None with_cpu (default autogen (policy_of "db0" "autogen" with_cpu))
           (GetNameWithVersion "cpu" 0) cpu_0).
  - vm_compute. reflexivity.
  - vm_compute. reflexivity.
  - split; [intros sk; discriminate | by left].
Defined.

(** X13. [DropMeasurement] in a policy that [RetentionPolicy] finds
    succeeds.  It removes the measurement stored under the given
    versioned name when that one is marked deleted, and nothing else: a
    live measurement stays, and so do all other measurements and the
    version table. *)
Theorem DropMeasurement_spec database policy nameWithVer d rpi :
  RetentionPolicy database policy d = inr rpi →
  ∃ d' rpi',
    DropMeasurement database policy nameWithVer d = Some (None, d') ∧
    policy_of database policy d' = Some rpi' ∧
    rp_MstVersions rpi' = rp_MstVersions rpi ∧
    rp_Measurements rpi' !! nameWithVer
    = (m ← rp_Measurements rpi !! nameWithVer;
       if mst_MarkDeleted m then None else Some m) ∧
    ∀ k, k ≠ nameWithVer → rp_Measurements rpi' !! k = rp_Measurements rpi !! k.
Proof.
  intros HRP. destruct (RetentionPolicy_inr _ _ _ _ HRP) as [Hdb Hpol].
  unfold DropMeasurement. unfold_M. rewrite HRP.
  destruct (rp_Measurements rpi !! nameWithVer) as [m|] eqn:Hm.
  - destruct (mst_MarkDeleted m) eqn:Hdel.
    + eexists _, _. split; [reflexivity|]. split; [by apply policy_of_put_rp|].
      split; [done|]. cbn. rewrite Hdel. split; [apply lookup_delete_eq|].
      intros k Hk. by apply lookup_delete_ne.
    + exists d, rpi. do 3 (split; [done|]). cbn. by rewrite Hm, Hdel.
  - exists d, rpi. do 3 (split; [done|]). cbn. by rewrite Hm.
Qed.

Lemma DropMeasurement_spec_witness :
  ∃ d' rpi',
    DropMeasurement "db0" "autogen" (GetNameWithVersion "cpu" 0) with_cpu = Some (None, d') ∧
    policy_of "db0" "autogen" d' = Some rpi' ∧
    rp_MstVersions rpi' = rp_MstVersions (default autogen (policy_of "db0" "autogen" with_cpu)) ∧
    rp_Measurements rpi' !! GetNameWithVersion "cpu" 0
    = (m ← rp_Measurements (default autogen (policy_of "db0" "autogen" with_cpu))
             !! GetNameWithVersion "cpu" 0;
       if mst_MarkDeleted m then None else Some m) ∧
    ∀ k, k ≠ GetNameWithVersion "cpu" 0 →
         rp_Measurements rpi' !! k
         = rp_Measurements (default autogen (policy_of "db0" "autogen" with_cpu)) !! k.
Proof.
  apply (DropMeasurement_spec "db0" "autogen" (GetNameWithVersion "cpu" 0) with_cpu).
  vm_compute. reflexivity.
Defined.

(** ** Data nodes *)

Lemma node_find_cons k n l :
  list_find (has_id k) (n :: l)
  = if decide (dn_ID n = k) then Some (0%nat, n)
    else prod_map S (λ x, x) <$> list_find (has_id k) l.
Proof. done. Qed.

(** Replacing the node that [list_find] lands on by one of the same
    id. *)
Lemma node_find_insert k l i n n' m :
  list_find (has_id k) l = Some (i, n) → dn_ID n' = k →
  list_find (has_id m) (<[i := n']> l)
  = if decide (m = k) then Some (i, n') else list_find (has_id m) l.
Proof.
  revert i. induction l as [|v l IH]; intros i; [done|].
  rewrite node_find_cons.
  destruct (decide (dn_ID v = k)) as [Hv|Hv].
  - intros [= <- <-] Hn'. change (<[0%nat := n']> (v :: l)) with (n' :: l).
    rewrite !node_find_cons.
    repeat destruct (decide _); congruence.
  - destruct (list_find _ l) as [[j w]|] eqn:E; [|done]. intros [= <- <-] Hn'.
    change (<[S j := n']> (v :: l)) with (v :: <[j := n']> l).
    rewrite !node_find_cons, (IH j eq_refl Hn').
    repeat destruct (decide _); try congruence; done.
Qed.

(** X14. [CheckDataNodeAlive] returns for every id, and returns no error
    exactly when the first data node with the id is neither segregated
    nor other than alive. *)
Theorem CheckDataNodeAlive_spec nodeId d :
  ∃ r, CheckDataNodeAlive nodeId d = Some r ∧
       (r = None ↔
        ∃ i n, list_find (has_id nodeId) (DataNodes d) = Some (i, n) ∧
               dn_SegregateStatus n = Normal ∧ dn_Status n = StatusAlive).
Proof.
  unfold CheckDataNodeAlive, GetNodeIndex.
  destruct (list_find (has_id nodeId) (DataNodes d)) as [[i n]|] eqn:Hf.
  - apply list_find_Some in Hf as Hi. destruct Hi as (Hi & _ & _).
    rewrite Nat2Z.id, Hi. cbn.
    destruct (decide (dn_SegregateStatus n ≠ Normal)) as [Hs|Hs].
    { eexists. split; [done|]. split; [done|]. intros (? & ? & [= <- <-] & ? & ?). done. }
    destruct (decide (dn_Status n ≠ StatusAlive)) as [Ha|Ha].
    { eexists. split; [done|]. split; [done|]. intros (? & ? & [= <- <-] & ? & ?). done. }
    exists None. split; [done|]. split; [|done]. intros _. exists i, n.
    split; [done|]. split; [by destruct (decide (dn_SegregateStatus n = Normal)) |
                            by destruct (decide (dn_Status n = StatusAlive))].
  - eexists. split; [done|]. split; [done|]. by intros (? & ? & ? & _).
Qed.

Lemma set_segregate_spec status : ∀ nodeIds i nodes,
  NoDup nodeIds →
  (∀ id, id ∈ nodeIds → is_Some (list_find (has_id id) nodes)) →
  (i + length nodeIds ≤ length status)%nat →
  ∃ nodes',
    set_segregate status i nodeIds nodes = Some nodes' ∧
    (∀ id, is_Some (list_find (has_id id) nodes') ↔ is_Some (list_find (has_id id) nodes)) ∧
    dn_ID <$> nodes' = dn_ID <$> nodes ∧
    segregate_statuses nodes' nodeIds = inr (take (length nodeIds) (drop i status)) ∧
    ∀ id, id ∉ nodeIds →
      list_find (has_id id) nodes' = list_find (has_id id) nodes.
Proof.
  induction nodeIds as [|id rest IH]; intros i nodes Hnd Hall Hlen.
  { exists nodes. by rewrite take_0. }
  apply NoDup_cons in Hnd as [Hid Hnd]. simpl in Hlen. simpl.
  destruct (Hall id) as [[idx node] Hf]; [apply list_elem_of_here|]. rewrite Hf.
  destruct (lookup_lt_is_Some_2 status i ltac:(lia)) as [s Hs]. rewrite Hs. cbn.
  set (nodes1 := <[idx := set_dn_SegregateStatus s node]> nodes).
  assert (∀ m, list_find (has_id m) nodes1
               = if decide (m = id) then Some (idx, set_dn_SegregateStatus s node)
                 else list_find (has_id m) nodes) as H1.
  { intros m. apply (node_find_insert id nodes idx node); [done|].
    apply list_find_Some in Hf as (_ & Hn & _). by destruct node. }
  destruct (IH (S i) nodes1 Hnd) as (nodes' & Hrun & Hsome & Hids & Hget & Hother).
  { intros x Hx. rewrite H1. destruct (decide _); [by eexists|].
    apply Hall. by apply list_elem_of_further. }
  { lia. }
  exists nodes'. split; [done|].
  split.
  { intros x. rewrite Hsome, H1. destruct (decide (x = id)) as [->|]; [|done].
    split; intros _; by eexists. }
  split.
  { rewrite Hids. unfold nodes1. rewrite list_fmap_insert. apply list_insert_id.
    rewrite list_lookup_fmap. apply list_find_Some in Hf as (-> & _). by destruct node. }
  split.
  { rewrite (Hother id Hid), H1. destruct (decide (id = id)); [|done].
    rewrite Hget. cbn. by rewrite (drop_S _ _ _ Hs). }
  intros x Hx. apply not_elem_of_cons in Hx as [Hne Hx].
  rewrite (Hother x Hx), H1. by destruct (decide _).
Qed.

(** X15. For distinct ids that all name a data node, and a status for
    each, [SetSegregateNodeStatus] returns and [GetNodeSegregateStatus]
    reads the statuses back in order; the ids of the nodes and the
    status of every other node are as before. *)
Theorem segregate_status_roundtrip status nodeIds d :
  NoDup nodeIds →
  (∀ id, id ∈ nodeIds → is_Some (list_find (has_id id) (DataNodes d))) →
  length status = length nodeIds →
  ∃ d',
    SetSegregateNodeStatus status nodeIds d = Some (tt, d') ∧
    GetNodeSegregateStatus nodeIds d' = inr status ∧
    GetNodeIDs d' = GetNodeIDs d ∧
    ∀ id, id ∉ nodeIds →
      GetSegregateStatusByNodeId id d' = GetSegregateStatusByNodeId id d.
Proof.
  intros Hnd Hall Hlen.
  destruct (set_segregate_spec status nodeIds 0 (DataNodes d) Hnd Hall ltac:(simpl; lia))
    as (nodes' & Hrun & _ & Hids & Hget & Hother).
  exists (set_DataNodes nodes' d). split.
  { unfold SetSegregateNodeStatus. unfold_M. by rewrite Hrun. }
  split.
  { unfold GetNodeSegregateStatus. cbn [DataNodes set_DataNodes].
    rewrite Hget, drop_0. by rewrite take_ge by lia. }
  split; [done|].
  intros id Hid. unfold GetSegregateStatusByNodeId. cbn [DataNodes set_DataNodes].
  by rewrite (Hother id Hid).
Qed.

Lemma segregate_status_roundtrip_witness :
  ∃ d',
    SetSegregateNodeStatus [1; 2] [3; 1] after_S6 = Some (tt, d') ∧
    GetNodeSegregateStatus [3; 1] d' = inr [1; 2] ∧
    GetNodeIDs d' = GetNodeIDs after_S6 ∧
    ∀ id, id ∉ [3; 1] →
      GetSegregateStatusByNodeId id d' = GetSegregateStatusByNodeId id after_S6.
Proof.
  apply (segregate_status_roundtrip [1; 2] [3; 1] after_S6).
  - apply (bool_decide_unpack _). vm_compute. exact I.
  - intros id Hid. apply elem_of_cons in Hid as [->|Hid]; [vm_compute; eauto|].
    apply list_elem_of_singleton in Hid as ->. vm_compute. eauto.
  - reflexivity.
Defined.

Lemma node_find_filter (P : DataNode → Prop) `{∀ n, Decision (P n)} k l :
  (∀ n, dn_ID n = k → P n) →
  snd <$> list_find (has_id k) (filter P l) = snd <$> list_find (has_id k) l.
Proof.
  intros HP. induction l as [|n l IH]; [done|].
  rewrite filter_cons. destruct (decide (P n)) as [Hn|Hn].
  - rewrite !node_find_cons. destruct (decide _); [done|].
    destruct (list_find (has_id k) (filter P l)) as [[]|],
             (list_find (has_id k) l) as [[]|]; by simplify_eq/=.
  - rewrite node_find_cons. destruct (decide (dn_ID n = k)) as [Hk|Hk].
    + destruct Hn. by apply HP.
    + rewrite IH. by destruct (list_find (has_id k) l) as [[]|].
Qed.

Lemma list_find_id_None (x : Z) (l : list Z) : list_find (λ y, x = y) l = None ↔ x ∉ l.
Proof.
  rewrite list_find_None, Forall_forall. split.
  - intros H Hx. by apply (H x Hx).
  - intros H y Hy ->. done.
Qed.

(** X16. [RemoveNode] removes every data node whose id is listed and no
    other: a listed id is no longer found, an unlisted id is found as
    before, and the remaining nodes keep their order. *)
Theorem RemoveNode_spec nodeIds d :
  ∃ d',
    RemoveNode nodeIds d = Some (tt, d') ∧
    (∀ id, id ∈ nodeIds → GetNodeIndex id d' = inl (ErrnoDataNodeNotFound id)) ∧
    (∀ id, id ∉ nodeIds →
       snd <$> list_find (has_id id) (DataNodes d')
       = snd <$> list_find (has_id id) (DataNodes d)) ∧
    DataNodes d' `sublist_of` DataNodes d.
Proof.
  eexists. split; [reflexivity|]. cbn [DataNodes set_DataNodes].
  split; [|split].
  - intros id Hid. unfold GetNodeIndex. cbn [DataNodes set_DataNodes].
    destruct (list_find _ _) as [[i n]|] eqn:Hf; [|done].
    apply list_find_Some in Hf as (Hi & Hn & _).
    apply list_elem_of_lookup_2, list_elem_of_filter in Hi as [Hno _].
    apply list_find_id_None in Hno. unfold has_id in Hn. by rewrite Hn in Hno.
  - intros id Hid. apply node_find_filter. intros n <-. by apply list_find_id_None.
  - apply sublist_filter.
Qed.

(** ** Meta nodes *)

Lemma filter_length_eq {A} (P : A → Prop) `{∀ x, Decision (P x)} (l : list A) :
  length (filter P l) = length l ↔ Forall P l.
Proof.
  induction l as [|x l IH]; [by split; [constructor|]|].
  rewrite filter_cons, Forall_cons. destruct (decide (P x)); simpl.
  - rewrite <- IH. split; [intros [= ->]; by split | intros [_ ->]; done].
  - pose proof (length_filter P l). split; [lia | by intros []].
Qed.

(** X17. [DeleteMetaNode] refuses the id 0 and an id that no meta node
    has, and then changes nothing.  Otherwise it removes every meta node
    with the id and keeps the others, in their order. *)
Theorem DeleteMetaNode_spec id d :
  ∃ r d', DeleteMetaNode id d = Some (r, d') ∧
    match r with
    | Some e =>
        d' = d ∧
        (e = ErrNodeIDRequired ∧ id = 0 ∨
         e = ErrNodeNotFound ∧ id ≠ 0 ∧ Forall (λ n, ni_ID n ≠ id) (MetaNodes d))
    | None =>
        id ≠ 0 ∧ Exists (λ n, ni_ID n = id) (MetaNodes d) ∧
        (∀ n, n ∈ MetaNodes d' ↔ n ∈ MetaNodes d ∧ ni_ID n ≠ id) ∧
        MetaNodes d' `sublist_of` MetaNodes d
    end.
Proof.
  unfold DeleteMetaNode. unfold_M.
  destruct (decide (id = 0)) as [->|Hid].
  { eexists _, _. split; [reflexivity|]. split; [done|]. by left. }
  destruct (decide (length (filter (λ n, ni_ID n ≠ id) (MetaNodes d))
                    = length (MetaNodes d))) as [Hl|Hl].
  { eexists _, _. split; [reflexivity|]. split; [done|]. right.
    split; [done|]. split; [done|]. by apply (filter_length_eq (λ n, ni_ID n ≠ id)). }
  eexists _, _. split; [reflexivity|]. split; [done|]. cbn.
  split.
  { rewrite filter_length_eq in Hl. apply not_Forall_Exists in Hl; [|apply _].
    eapply Exists_impl; [exact Hl|]. intros n Hn. cbn in Hn.
    by destruct (decide (ni_ID n = id)). }
  split; [intros n; rewrite list_elem_of_filter; tauto | apply sublist_filter].
Qed.

(** ** The pt-view *)

(** A counting loop that keeps [P] returns, with [P] at the end. *)
Lemma forM_seq_inv (f : nat → M unit) (P : nat → Data → Prop) n :
  ∀ a d,
    P a d →
    (∀ i d, (a ≤ i < a + n)%nat → P i d → ∃ d', f i d = Some (tt, d') ∧ P (S i) d') →
    ∃ d', forM_ (seq a n) f d = Some (tt, d') ∧ P (a + n)%nat d'.
Proof.
  induction n as [|n IH]; intros a d HP Hstep; simpl.
  - exists d. rewrite Nat.add_0_r. done.
  - destruct (Hstep a d ltac:(lia) HP) as (d1 & Hf & HP1).
    destruct (IH (S a) d1 HP1) as (d2 & Hrun & HP2).
    { intros i d' Hi. apply Hstep. lia. }
    exists d2. unfold_M. rewrite Hf. split; [done|].
    by replace (a + S n)%nat with (S a + n)%nat by lia.
Qed.

(** [updatePtStatus] on the first pt beyond the view: the view grows to
    the cluster pt count. *)
Lemma updatePtStatus_grow db owner d m i :
  PtView d = Some m →
  length (default [] (m !! db)) = i →
  (i < Z.to_nat (ClusterPtNum d))%nat → ClusterPtNum d < 2 ^ 32 →
  updatePtStatus db (Z.of_nat i) (owner i) Offline d
  = Some (tt, set_PtView (Some (<[db := default [] (m !! db) ++ [new_pt owner i] ++
                                       replicate (Z.to_nat (ClusterPtNum d) - S i) zero_PtInfo]>
                                  m)) d).
Proof.
  intros Hm Hlen Hi Hn. unfold updatePtStatus. unfold_M. rewrite Hm. cbn [mbind option_bind].
  assert (Z.of_nat (Z.to_nat (ClusterPtNum d)) < 2 ^ 32) as Hn' by lia.
  remember (Z.to_nat (ClusterPtNum d)) as n eqn:En in *. clear En.
  assert (wrap32 (Z.of_nat n) = Z.of_nat n) as Hwn by (apply wrap32_small; lia).
  destruct (m !! db) as [old|] eqn:Hold; simpl in Hlen; simpl default.
  - assert (wrap32 (Z.of_nat (length old)) = Z.of_nat (length old)) as Hw
      by (apply wrap32_small; lia).
    rewrite Hw. destruct (decide _) as [_|]; [|lia].
    assert (take n (old ++ replicate n zero_PtInfo)
            = old ++ zero_PtInfo :: replicate (n - S i) zero_PtInfo) as ->.
    { rewrite take_app_ge by lia. rewrite take_replicate. f_equal.
      replace (Init.Nat.min (n - length old) n) with (S (n - S i)) by lia. done. }
    rewrite Nat2Z.id, lookup_app_r by lia. rewrite Hlen, Nat.sub_diag. cbn.
    do 3 f_equal. rewrite <- Hlen at 1.
    rewrite insert_app_r_alt by lia. by rewrite Nat.sub_diag.
  - simpl in Hlen. subst i. rewrite length_replicate, Hwn.
    destruct (decide _); [lia|].
    rewrite Nat2Z.id. destruct n as [|n']; [lia|]. cbn.
    do 3 f_equal. by rewrite Nat.sub_0_r.
Qed.

(** [updatePtStatus] on a zero entry of a view of full length. *)
Lemma updatePtStatus_fill db owner d m l i :
  PtView d = Some m → m !! db = Some l →
  length l = Z.to_nat (ClusterPtNum d) → l !! i = Some zero_PtInfo →
  ClusterPtNum d < 2 ^ 32 →
  updatePtStatus db (Z.of_nat i) (owner i) Offline d
  = Some (tt, set_PtView (Some (<[db := <[i := new_pt owner i]> l]> m)) d).
Proof.
  intros Hm Hl Hlen Hi Hn. unfold updatePtStatus. unfold_M. rewrite Hm.
  cbn [mbind option_bind]. rewrite Hl.
  apply lookup_lt_Some in Hi as Hlt.
  rewrite wrap32_small by lia. destruct (decide _); [lia|].
  by rewrite Nat2Z.id, Hi.
Qed.

(** The loop that assigns the pts from the end of the view of [db] up to
    the cluster pt count. *)
Lemma assign_loop db owner (body : nat → M unit) d m :
  (∀ i d', body i d' = updatePtStatus db (Z.of_nat i) (owner i) Offline d') →
  PtView d = Some m →
  (length (DBPtView db d) ≤ Z.to_nat (ClusterPtNum d))%nat → ClusterPtNum d < 2 ^ 32 →
  let a := length (DBPtView db d) in
  let n := Z.to_nat (ClusterPtNum d) in
  forM_ (seq a (n - a)) body d
  = Some (tt, if decide (a = n) then d
              else set_PtView (Some (<[db := DBPtView db d ++ (new_pt owner <$> seq a (n - a))]>
                                       m)) d).
Proof.
  intros Hbody Hm Hle Hn a n.
  assert (DBPtView db d = default [] (m !! db)) as Hold
    by (unfold DBPtView; by rewrite Hm).
  set (old := DBPtView db d) in *.
  destruct (forM_seq_inv body
    (λ k d', (k = a ∧ d' = d) ∨
             ((a < k)%nat ∧
              d' = set_PtView (Some (<[db := old ++ (new_pt owner <$> seq a (k - a)) ++
                                             replicate (n - k) zero_PtInfo]> m)) d))
    (n - a) a d) as (d' & Hrun & HP).
  - by left.
  - intros i d1 Hi [[-> ->] | [Hlt ->]].
    + eexists. split.
      * rewrite Hbody. apply (updatePtStatus_grow db owner d m a); [done|by rewrite <- Hold|lia|done].
      * right. split; [lia|]. rewrite <- Hold. fold n.
        replace (S a - a)%nat with 1%nat by lia. done.
    + eexists. split.
      * rewrite Hbody.
        apply (updatePtStatus_fill db owner _ (<[db := old ++ (new_pt owner <$> seq a (i - a)) ++
                 replicate (n - i) zero_PtInfo]> m)).
        -- done.
        -- apply lookup_insert_eq.
        -- rewrite !length_app, length_fmap, length_seq, length_replicate.
           cbn [ClusterPtNum set_PtView]. fold n. fold a. lia.
        -- rewrite lookup_app_r by (fold a; lia).
           rewrite lookup_app_r by (rewrite length_fmap, length_seq; fold a; lia).
           apply lookup_replicate_2. rewrite length_fmap, length_seq. fold a. lia.
        -- done.
      * right. split; [lia|].
        change (set_PtView ?v (set_PtView ?w d)) with (set_PtView v d). f_equal. f_equal.
        rewrite insert_insert_eq. f_equal.
        rewrite insert_app_r_alt by (fold a; lia). f_equal.
        rewrite insert_app_r_alt by (rewrite length_fmap, length_seq; fold a; lia).
        rewrite length_fmap, length_seq. fold a.
        replace (i - a - (i - a))%nat with 0%nat by lia.
        replace (S i - a)%nat with (S (i - a)) by lia.
        rewrite seq_S, fmap_app, <- app_assoc. f_equal.
        replace (a + (i - a))%nat with i by lia.
        destruct (n - i)%nat as [|r] eqn:Er; [lia|].
        replace (n - S i)%nat with r by lia. done.
  - rewrite Hrun. f_equal. f_equal.
    destruct HP as [[Heq ->] | [Hlt ->]].
    + destruct (decide (a = n)); [done|lia].
    + destruct (decide (a = n)); [lia|].
      replace (a + (n - a))%nat with n by lia.
      by rewrite Nat.sub_diag, app_nil_r.
Qed.

Lemma DBPtView_set_insert db view m d n :
  DBPtView n (set_PtView (Some (<[db := view]> m)) d)
  = if decide (n = db) then view else default [] (m !! n).
Proof.
  unfold DBPtView. cbn [PtView set_PtView mbind option_bind].
  destruct (decide (n = db)) as [->|]; [by rewrite lookup_insert_eq|].
  by rewrite lookup_insert_ne.
Qed.

(** X18. [CreateDBPtView], with a cluster pt count in uint32.  A
    database that has a view is left alone.  Without a node to assign
    to, the call fails with [DataNoAlive] and no view changes.
    Otherwise the database gets one pt per cluster pt: pt [i] is offline,
    has version 1 and belongs to the node at position [i mod n] of the
    [n] nodes the HA policy assigns to; the other views are as before. *)
Theorem CreateDBPtView_spec env name d :
  ClusterPtNum d < 2 ^ 32 →
  (PtView d ≫= (.!! name) ≠ None → CreateDBPtView env name d = Some (None, d)) ∧
  (PtView d ≫= (.!! name) = None →
     (assigned_nodes env d = [] →
        ∃ d', CreateDBPtView env name d = Some (Some ErrnoDataNoAlive, d') ∧
              ∀ n, DBPtView n d' = DBPtView n d) ∧
     (assigned_nodes env d ≠ [] →
        ∃ d', CreateDBPtView env name d = Some (None, d') ∧
              DBPtView name d'
              = new_pt (round_robin (assigned_nodes env d))
                  <$> seq 0 (Z.to_nat (ClusterPtNum d)) ∧
              ∀ n, n ≠ name → DBPtView n d' = DBPtView n d)).
Proof.
  intros Hn. split.
  { intros Hsome. unfold CreateDBPtView. unfold_M.
    destruct (PtView d) as [m|] eqn:Hm; [|done]. rewrite Hm.
    cbn [mbind option_bind] in *. by destruct (m !! name). }
  intros Hnone.
  assert (DBPtView name d = []) as Hempty by (unfold DBPtView; by rewrite Hnone).
  set (d1 := if PtView d is None then set_PtView (Some ∅) d else d).
  assert (∃ m1, PtView d1 = Some m1 ∧ m1 !! name = None ∧
                ∀ n, default [] (m1 !! n) = DBPtView n d) as (m1 & Hm1 & Hname & Hviews).
  { unfold d1, DBPtView. destruct (PtView d) as [m|] eqn:Hm.
    - exists m. rewrite Hm. done.
    - exists ∅. split; [done|]. split; [done|]. intros n. by rewrite lookup_empty. }
  assert (∀ n, DBPtView n d1 = DBPtView n d) as Hviews1.
  { intros n. rewrite <- Hviews. unfold DBPtView. by rewrite Hm1. }
  assert (CreateDBPtView env name d = assign_round_robin name (assigned_nodes env d) d1)
    as Hrun.
  { unfold CreateDBPtView. unfold_M. fold d1. rewrite Hm1. cbn [mbind option_bind].
    rewrite Hname. unfold assigned_nodes, dbPtAssigner, assignPtForWAF, assignPtForSS.
    unfold_M. assert (DataNodes d1 = DataNodes d) as Hdn by (unfold d1; by destruct (PtView d)).
    destruct (ha_policy env); unfold GetWriteNode, GetAliveWriteNode; by rewrite Hdn. }
  rewrite Hrun. set (nodes := assigned_nodes env d). split.
  - intros Hnil. exists d1. unfold assign_round_robin. unfold_M. rewrite Hnil.
    destruct (decide _); [|done]. done.
  - intros Hne. unfold assign_round_robin. unfold_M.
    destruct (decide (length nodes = 0%nat)) as [H0|H0];
      [by destruct nodes|].
    assert (ClusterPtNum d1 = ClusterPtNum d) as Hpt by (unfold d1; by destruct (PtView d)).
    pose proof (assign_loop name (round_robin nodes)
      (λ ptId, node ← must (nodes !! (ptId mod length nodes)%nat);
               updatePtStatus name (Z.of_nat ptId) (dn_ID node) Offline) d1 m1) as Hloop.
    rewrite Hviews1 in Hloop.
    rewrite Hempty, Hpt in Hloop. cbn [length] in Hloop. rewrite Nat.sub_0_r in Hloop.
    unfold_M. rewrite Hpt. rewrite Hloop; [| |done|lia|done].
    + eexists. split; [reflexivity|]. destruct (decide _) as [H0'|H0'].
      * split; [by rewrite Hviews1, Hempty, <- H0'|]. intros n _. apply Hviews1.
      * split; [by rewrite DBPtView_set_insert, decide_True|].
        intros n Hn'. rewrite DBPtView_set_insert, decide_False by done. apply Hviews.
    + intros i d'. destruct (lookup_lt_is_Some_2 nodes (i mod length nodes)) as [node Hnode].
      { apply Nat.mod_upper_bound. done. }
      rewrite Hnode. unfold round_robin. by rewrite Hnode.
Qed.

Lemma CreateDBPtView_spec_witness :
  ∃ d', CreateDBPtView plain_env "db0" before_view = Some (None, d') ∧
        DBPtView "db0" d'
        = new_pt (round_robin (assigned_nodes plain_env before_view))
            <$> seq 0 (Z.to_nat (ClusterPtNum before_view)) ∧
        ∀ n, n ≠ "db0" → DBPtView n d' = DBPtView n before_view.
Proof.
  destruct (CreateDBPtView_spec plain_env "db0" before_view) as [_ Hnew].
  - vm_compute. reflexivity.
  - destruct (Hnew eq_refl) as [_ Hok]. apply Hok. vm_compute. discriminate.
Defined.

(** The growth of one view, shared by the properties of
    [expandDBPtView] and of [CreateDataNode]. *)
Lemma expandDBPtView_grow database newNode d m dbi :
  PtView d = Some m →
  Databases d !! database = Some dbi →
  db_ReplicaN dbi = 0 ∨ db_ReplicaN dbi = 1 →
  0 ≤ ClusterPtNum d < 2 ^ 32 →
  (length (DBPtView database d) ≤ Z.to_nat (ClusterPtNum d))%nat →
  ∃ d',
    expandDBPtView database (ClusterPtNum d) newNode d = Some (tt, d') ∧
    DBPtView database d'
    = DBPtView database d ++
      (new_pt (λ _, dn_ID newNode)
         <$> seq (length (DBPtView database d))
               (Z.to_nat (ClusterPtNum d) - length (DBPtView database d))) ∧
    (∀ n, n ≠ database → DBPtView n d' = DBPtView n d) ∧
    is_Some (PtView d') ∧
    DataNodes d' = DataNodes d ∧ Databases d' = Databases d ∧
    ClusterPtNum d' = ClusterPtNum d.
Proof.
  intros Hm Hdb Hrep Hn Hle.
  set (a := length (DBPtView database d)) in *.
  set (n := Z.to_nat (ClusterPtNum d)) in *.
  assert (wrap32 (Z.of_nat a) = Z.of_nat a) as Hwa by (apply wrap32_small; lia).
  pose proof (assign_loop database (λ _, dn_ID newNode)
    (λ ptId, updatePtStatus database (Z.of_nat ptId) (dn_ID newNode) Offline) d m
    ltac:(done) Hm Hle ltac:(lia)) as Hloop.
  cbv zeta in Hloop. fold a n in Hloop.
  assert (∀ n', default [] (m !! n') = DBPtView n' d) as Hviews
    by (intros n'; unfold DBPtView; by rewrite Hm).
  unfold expandDBPtView, DBReplicaN. unfold_M. fold a. rewrite Hwa.
  destruct (decide (ClusterPtNum d = Z.of_nat a)) as [Heq|Hne].
  { exists d. split; [done|]. replace (n - a)%nat with 0%nat by lia.
    rewrite app_nil_r. by rewrite Hm. }
  destruct (decide (ClusterPtNum d < Z.of_nat a)); [lia|].
  rewrite Hdb. cbv beta iota.
  replace (Z.to_nat (Z.of_nat a)) with a by lia.
  replace (Z.to_nat (ClusterPtNum d - Z.of_nat a)) with (n - a)%nat by lia.
  rewrite Hloop. destruct (decide (a = n)); [lia|].
  assert (¬ (1 < wrap32 (if decide (db_ReplicaN dbi = 0) then 1 else db_ReplicaN dbi))) as Hno.
  { destruct Hrep as [-> | ->]; by vm_compute. }
  destruct (decide (1 < _ ∧ _)) as [[? _]|_]; [done|].
  eexists. split; [reflexivity|].
  split; [by rewrite DBPtView_set_insert, decide_True|].
  split; [|done].
  intros n' Hn'. rewrite DBPtView_set_insert, decide_False by done. apply Hviews.
Qed.




(** After a sort, the one element with a property is still the one a
    search for the property finds. *)
Lemma list_find_unique {A} (P : A → Prop) `{!∀ x, Decision (P x)} (l l' : list A) x :
  l' ≡ₚ l ++ [x] → P x → list_find P l = None → ∃ i, list_find P l' = Some (i, x).
Proof.
  intros Hperm HPx Hnone. apply list_find_None in Hnone.
  destruct (list_find P l') as [[i y]|] eqn:E.
  - exists i. apply list_find_Some in E as (Hy & HPy & _).
    apply list_elem_of_lookup_2 in Hy. rewrite Hperm in Hy.
    apply elem_of_app in Hy as [Hy|Hy].
    + by destruct (proj1 (Forall_forall _ _) Hnone y Hy).
    + apply list_elem_of_singleton in Hy. by subst.
  - apply list_find_None in E.
    destruct (proj1 (Forall_forall _ _) E x); [|done].
    rewrite Hperm. apply elem_of_app. right. by apply list_elem_of_singleton.
Qed.

(** The loop of [CreateDataNode] over the databases. *)
Lemma expand_all dn names :
  NoDup names →
  ∀ d,
    is_Some (PtView d) →
    (∀ db, db ∈ names →
       ∃ dbi, Databases d !! db = Some dbi ∧ (db_ReplicaN dbi = 0 ∨ db_ReplicaN dbi = 1)) →
    0 ≤ ClusterPtNum d < 2 ^ 32 →
    (∀ db, (length (DBPtView db d) ≤ Z.to_nat (ClusterPtNum d))%nat) →
    ∃ d',
      forM_ names (λ db, d ← get; expandDBPtView db (ClusterPtNum d) dn) d = Some (tt, d') ∧
      (∀ db, DBPtView db d'
             = if decide (db ∈ names)
               then DBPtView db d ++
                    (new_pt (λ _, dn_ID dn)
                       <$> seq (length (DBPtView db d))
                             (Z.to_nat (ClusterPtNum d) - length (DBPtView db d)))
               else DBPtView db d) ∧
      DataNodes d' = DataNodes d ∧ Databases d' = Databases d ∧
      ClusterPtNum d' = ClusterPtNum d.
Proof.
  induction 1 as [|x names Hx Hnd IH]; intros d [m Hm] Hdbs Hn Hlen.
  { exists d. split; [done|]. split; [|done]. intros db.
    destruct (decide (db ∈ [])) as [Hin|_]; [|done]. by apply elem_of_nil in Hin. }
  destruct (Hdbs x) as (dbi & Hdb & Hrep); [by left|].
  destruct (expandDBPtView_grow x dn d m dbi Hm Hdb Hrep Hn (Hlen x))
    as (d1 & Hrun & Hview & Hrest & Hsome & HDN & HDB & HN).
  destruct (IH d1 Hsome) as (d2 & Hrun2 & Hviews2 & HDN2 & HDB2 & HN2).
  { intros db Hin. rewrite HDB. apply Hdbs. by right. }
  { by rewrite HN. }
  { intros db. rewrite HN. destruct (decide (db = x)) as [->|Hne].
    - rewrite Hview, length_app, length_fmap, length_seq. pose proof (Hlen x). lia.
    - rewrite Hrest by done. apply Hlen. }
  exists d2. split.
  { cbn [forM_]. unfold_M. rewrite Hrun. exact Hrun2. }
  split; [|by rewrite HDN2, HDB2, HN2].
  intros db. rewrite Hviews2, HN.
  destruct (decide (db = x)) as [->|Hne].
  - rewrite decide_False by done. rewrite decide_True by (by left). done.
  - rewrite Hrest by done.
    destruct (decide (db ∈ names)) as [Hin|Hnin].
    + rewrite decide_True by (by right). done.
    + rewrite decide_False; [done|]. intros [?|?]%elem_of_cons; done.
Qed.






Lemma user_names_unique_witness : NoDup (ui_Name <$> Users two_users).
Proof. apply (user_names_unique two_users). apply reachable_after. Defined.


(** X21. [UpdatePtInfo] is a compare-and-set on one pt of a view.  A pt
    id beyond the view is refused with [PtNotFound]; a pt whose owner
    or status is no longer what the caller saw is refused with
    [PtChanged]; both leave the catalog alone.  Otherwise the pt gets
    the new owner and status, keeps its version (a version 0 becomes 1)
    and its replica group, and nothing else in the views changes. *)
Theorem UpdatePtInfo_spec db info ownerId status d :
  0 ≤ pt_PtId info →
  Z.of_nat (length (DBPtView db d)) < 2 ^ 32 →
  ∃ r d',
    UpdatePtInfo db info ownerId status d = Some (r, d') ∧
    match DBPtView db d !! Z.to_nat (pt_PtId info) with
    | None => r = Some ErrnoPtNotFound ∧ d' = d
    | Some cur =>
        if decide (pt_OwnerNodeID cur = pt_OwnerNodeID info ∧ pt_Status cur = pt_Status info)
        then r = None ∧
             DBPtView db d'
             = <[Z.to_nat (pt_PtId info) :=
                   {| pt_OwnerNodeID := ownerId; pt_Status := status;
                      pt_PtId := pt_PtId info;
                      pt_Ver := if decide (pt_Ver cur = 0) then 1 else pt_Ver cur;
                      pt_RGID := pt_RGID cur |}]> (DBPtView db d) ∧
             ∀ n, n ≠ db → DBPtView n d' = DBPtView n d
        else r = Some ErrnoPtChanged ∧ d' = d
    end.
Proof.
  intros Hid Hlen. unfold UpdatePtInfo. unfold_M.
  destruct (decide (Z.of_nat (length (DBPtView db d)) ≤ pt_PtId info)) as [Hge|Hlt].
  { exists (Some ErrnoPtNotFound), d. split; [done|].
    rewrite lookup_ge_None_2 by lia. done. }
  destruct (lookup_lt_is_Some_2 (DBPtView db d) (Z.to_nat (pt_PtId info))) as [cur Hcur];
    [lia|].
  rewrite Hcur.
  destruct (decide (pt_OwnerNodeID cur ≠ pt_OwnerNodeID info ∨ pt_Status cur ≠ pt_Status info))
    as [Hch|Hsame].
  { exists (Some ErrnoPtChanged), d. split; [done|].
    rewrite decide_False; [done|]. intros [? ?]. by destruct Hch. }
  destruct (decide (pt_OwnerNodeID cur = pt_OwnerNodeID info ∧ pt_Status cur = pt_Status info))
    as [_|Hno].
  2: { destruct Hno. split; [destruct (decide (pt_OwnerNodeID cur = pt_OwnerNodeID info))
                            | destruct (decide (pt_Status cur = pt_Status info))]; tauto. }
  unfold DBPtView in Hcur, Hlen, Hlt.
  destruct (PtView d) as [m|] eqn:Hm; [|done]. cbn [mbind option_bind] in Hcur, Hlen, Hlt.
  destruct (m !! db) as [view|] eqn:Hview; [|done]. simpl in Hcur, Hlen, Hlt.
  unfold updatePtStatus. unfold_M. rewrite Hm. cbn [mbind option_bind]. rewrite Hview.
  rewrite wrap32_small by lia. rewrite decide_False by lia. rewrite Hcur.
  eexists _, _. split; [reflexivity|]. split; [done|].
  split.
  - rewrite DBPtView_set_insert, decide_True by done.
    unfold DBPtView. rewrite Hm. cbn [mbind option_bind]. by rewrite Hview.
  - intros n Hn. rewrite DBPtView_set_insert, decide_False by done.
    unfold DBPtView. by rewrite Hm.
Qed.

Lemma UpdatePtInfo_spec_witness :
  ∃ r d',
    UpdatePtInfo "db0" (new_pt (λ _, 1) 1) 7 Online with_db0 = Some (r, d') ∧
    match DBPtView "db0" with_db0 !! Z.to_nat (pt_PtId (new_pt (λ _, 1) 1)) with
    | None => r = Some ErrnoPtNotFound ∧ d' = with_db0
    | Some cur =>
        if decide (pt_OwnerNodeID cur = pt_OwnerNodeID (new_pt (λ _, 1) 1) ∧
                   pt_Status cur = pt_Status (new_pt (λ _, 1) 1))
        then r = None ∧
             DBPtView "db0" d'
             = <[Z.to_nat (pt_PtId (new_pt (λ _, 1) 1)) :=
                   {| pt_OwnerNodeID := 7; pt_Status := Online;
                      pt_PtId := pt_PtId (new_pt (λ _, 1) 1);
                      pt_Ver := if decide (pt_Ver cur = 0) then 1 else pt_Ver cur;
                      pt_RGID := pt_RGID cur |}]> (DBPtView "db0" with_db0) ∧
             ∀ n, n ≠ "db0" → DBPtView n d' = DBPtView n with_db0
        else r = Some ErrnoPtChanged ∧ d' = with_db0
    end.
Proof.
  apply (UpdatePtInfo_spec "db0" (new_pt (λ _, 1) 1) 7 Online with_db0).
  - vm_compute. discriminate.
  - vm_compute. reflexivity.
Defined.


(** X22. [CreateMetaNode] never fails.  For an HTTP host that a meta
    node already has it changes nothing.  Otherwise one meta node is
    added: it takes the id of the data node on the same TCP host, if
    that id is not 0, and the next node id if there is no such data
    node; the data nodes are untouched, and a second call for the same
    HTTP host changes nothing. *)
Theorem CreateMetaNode_spec httpAddr rpcAddr tcpAddr d :
  ∃ d',
    CreateMetaNode httpAddr rpcAddr tcpAddr d = Some (None, d') ∧
    DataNodes d' = DataNodes d ∧
    (∀ rpcAddr' tcpAddr', CreateMetaNode httpAddr rpcAddr' tcpAddr' d' = Some (None, d')) ∧
    (is_Some (list_find (λ n, ni_Host n = httpAddr) (MetaNodes d)) → d' = d) ∧
    (list_find (λ n, ni_Host n = httpAddr) (MetaNodes d) = None →
     ∃ id,
       MetaNodes d' ≡ₚ MetaNodes d ++
         [ {| ni_ID := id; ni_Host := httpAddr; ni_RPCAddr := rpcAddr;
              ni_TCPHost := tcpAddr |} ] ∧
       (∀ i n, list_find (λ n, dn_TCPHost n = tcpAddr) (DataNodes d) = Some (i, n) →
               dn_ID n ≠ 0 → id = dn_ID n ∧ MaxNodeID d' = MaxNodeID d) ∧
       (list_find (λ n, dn_TCPHost n = tcpAddr) (DataNodes d) = None →
        id = incr64 (MaxNodeID d) ∧ MaxNodeID d' = incr64 (MaxNodeID d))).
Proof.
  assert (∀ d0, is_Some (list_find (λ n, ni_Host n = httpAddr) (MetaNodes d0)) →
                ∀ r t, CreateMetaNode httpAddr r t d0 = Some (None, d0)) as Hknown.
  { intros d0 [x Hx] r t. unfold CreateMetaNode. unfold_M. by rewrite Hx. }
  destruct (list_find (λ n, ni_Host n = httpAddr) (MetaNodes d)) as [x|] eqn:Hfind.
  { exists d. rewrite Hknown by (rewrite Hfind; by eexists).
    split; [done|]. split; [done|]. split; [|done].
    intros r t. apply Hknown. rewrite Hfind. by eexists. }
  set (existing := if list_find (λ n, dn_TCPHost n = tcpAddr) (DataNodes d) is Some (_, n)
                   then dn_ID n else 0).
  set (id := if decide (existing = 0) then incr64 (MaxNodeID d) else existing).
  set (node := {| ni_ID := id; ni_Host := httpAddr; ni_RPCAddr := rpcAddr;
                  ni_TCPHost := tcpAddr |}).
  set (d1 := if decide (existing = 0) then set_MaxNodeID (incr64 (MaxNodeID d)) d else d).
  exists (set_MetaNodes (merge_sort ni_le (MetaNodes d ++ [node])) d1).
  assert (MetaNodes d1 = MetaNodes d) as HM1 by (unfold d1; by destruct (decide _)).
  assert (DataNodes d1 = DataNodes d) as HD1 by (unfold d1; by destruct (decide _)).
  split.
  { unfold CreateMetaNode. unfold_M. rewrite Hfind. fold existing.
    unfold d1, node, id. by destruct (decide (existing = 0)). }
  split; [done|]. split.
  { apply Hknown. cbn [MetaNodes set_MetaNodes].
    apply (list_find_elem_of _ _ node); [|done].
    rewrite merge_sort_Permutation. apply elem_of_app. right. by apply list_elem_of_singleton. }
  split; [by intros [? ?]|]. intros _. exists id.
  split; [apply merge_sort_Permutation|]. split.
  - intros i n Hn Hid. unfold id, d1, existing. rewrite Hn.
    by destruct (decide (dn_ID n = 0)).
  - intros Hn. unfold id, d1, existing. rewrite Hn. by destruct (decide (0 = 0)).
Qed.

(** X23. [CreateDataNode] for a TCP host that a data node already has:
    the call returns the id of that node and gives it the next
    connection id.  The host and the role passed are ignored, and node
    ids, pt count, views and databases stay as they are. *)
Theorem CreateDataNode_rejoin env host tcpHost role d i n :
  list_find (λ n, dn_TCPHost n = tcpHost) (DataNodes d) = Some (i, n) →
  ∃ d',
    CreateDataNode env host tcpHost role d = Some ((None, dn_ID n), d') ∧
    DataNodes d' = <[i := set_dn_ConnID (incr64 (MaxConnID d)) n]> (DataNodes d) ∧
    MaxConnID d' = incr64 (MaxConnID d) ∧
    list_find (λ n, dn_TCPHost n = tcpHost) (DataNodes d')
    = Some (i, set_dn_ConnID (incr64 (MaxConnID d)) n) ∧
    MaxNodeID d' = MaxNodeID d ∧ ClusterPtNum d' = ClusterPtNum d ∧
    PtView d' = PtView d ∧ ReplicaGroups d' = ReplicaGroups d ∧
    Databases d' = Databases d ∧ MetaNodes d' = MetaNodes d.
Proof.
  intros Hfind. unfold CreateDataNode. unfold_M.
  cbn [DataNodes set_MaxConnID MaxConnID]. rewrite Hfind.
  eexists. split; [reflexivity|]. split; [done|]. split; [done|].
  split; [|done]. cbn [DataNodes set_DataNodes set_MaxConnID].
  apply list_find_Some in Hfind as (Hi & HP & Hbefore).
  apply list_find_Some. split; [|split; [done|]].
  - apply list_lookup_insert_eq. by apply lookup_lt_Some in Hi.
  - intros j y Hj Hlt. rewrite list_lookup_insert_ne in Hj by lia. by apply (Hbefore j).
Qed.

Lemma CreateDataNode_rejoin_witness :
  ∃ d',
    CreateDataNode plain_env "other:1" "h1:8400" "reader" with_db0
    = Some ((None, 1), d') ∧
    DataNodes d' = <[0%nat := set_dn_ConnID (incr64 (MaxConnID with_db0))
                               (joined_node "h1:8086" "h1:8400" "writer" (init_data 2 false))]>
                     (DataNodes with_db0) ∧
    MaxConnID d' = incr64 (MaxConnID with_db0) ∧
    list_find (λ n, dn_TCPHost n = "h1:8400") (DataNodes d')
    = Some (0%nat, set_dn_ConnID (incr64 (MaxConnID with_db0))
                     (joined_node "h1:8086" "h1:8400" "writer" (init_data 2 false))) ∧
    MaxNodeID d' = MaxNodeID with_db0 ∧ ClusterPtNum d' = ClusterPtNum with_db0 ∧
    PtView d' = PtView with_db0 ∧ ReplicaGroups d' = ReplicaGroups with_db0 ∧
    Databases d' = Databases with_db0 ∧ MetaNodes d' = MetaNodes with_db0.
Proof.
  apply (CreateDataNode_rejoin plain_env "other:1" "h1:8400" "reader" with_db0 0
           (joined_node "h1:8086" "h1:8400" "writer" (init_data 2 false))).
  vm_compute. reflexivity.
Defined.


(** ** The hosts of the data nodes *)

Lemma put_rp_hosts db rp r d : node_hosts (put_rp db rp r d) = node_hosts d.
Proof. unfold put_rp. by destruct (Databases d !! db). Qed.

Lemma put_mst_hosts db rp k m d : node_hosts (put_mst db rp k m d) = node_hosts d.
Proof. unfold put_mst. destruct (_ ≫= _); [apply put_rp_hosts | done]. Qed.

Lemma hosts_GetEffectivePtNum db : keeps node_hosts (GetEffectivePtNum db).
Proof. unfold GetEffectivePtNum, DBReplicaN. keeps_auto. Qed.
#[local] Hint Resolve hosts_GetEffectivePtNum : keeps_db.

Lemma hosts_updatePtStatus db a b c : keeps node_hosts (updatePtStatus db a b c).
Proof. unfold updatePtStatus. keeps_auto. Qed.
#[local] Hint Resolve hosts_updatePtStatus : keeps_db.

Lemma hosts_createReplicationInner db a b c e :
  keeps node_hosts (createReplicationInner db a b c e).
Proof.
  unfold createReplicationInner, expandRepGroups. keeps_auto.
  by destruct (ReplicaGroups d).
Qed.
#[local] Hint Resolve hosts_createReplicationInner : keeps_db.

Lemma hosts_new_indexes n : keeps node_hosts (new_indexes n).
Proof. unfold new_indexes. keeps_auto. Qed.
#[local] Hint Resolve hosts_new_indexes : keeps_db.

Lemma hosts_CreateIndexGroup rpi t e n : keeps node_hosts (CreateIndexGroup rpi t e n).
Proof. unfold CreateIndexGroup. keeps_auto. Qed.
#[local] Hint Resolve hosts_CreateIndexGroup : keeps_db.

Lemma hosts_createIndexGroupIfNeeded rpi t e n :
  keeps node_hosts (createIndexGroupIfNeeded rpi t e n).
Proof. unfold createIndexGroupIfNeeded. keeps_auto. Qed.
#[local] Hint Resolve hosts_createIndexGroupIfNeeded : keeps_db.

Lemma hosts_createIndexGroup db rp t : keeps node_hosts (createIndexGroup db rp t).
Proof. unfold createIndexGroup. keeps_auto. Qed.
#[local] Hint Resolve hosts_createIndexGroup : keeps_db.

Lemma hosts_CreateShardGroupWithBounds db rp t bs e :
  keeps node_hosts (CreateShardGroupWithBounds db rp t bs e).
Proof. unfold CreateShardGroupWithBounds. keeps_auto. Qed.
#[local] Hint Resolve hosts_CreateShardGroupWithBounds : keeps_db.

Lemma hosts_createShards db sgi igi rpi msti tier :
  keeps node_hosts (createShards db sgi igi rpi msti tier).
Proof. unfold createShards. keeps_auto. Qed.
#[local] Hint Resolve hosts_createShards : keeps_db.

Lemma hosts_expandDBPtView db n node : keeps node_hosts (expandDBPtView db n node).
Proof. unfold expandDBPtView, DBReplicaN. keeps_auto. Qed.
#[local] Hint Resolve hosts_expandDBPtView : keeps_db.

Lemma hosts_ExpandGroups env : keeps node_hosts (ExpandGroups env).
Proof.
  unfold ExpandGroups, expand_indexes, expand_shards. keeps_auto.
  intros; apply put_rp_hosts.
Qed.
#[local] Hint Resolve hosts_ExpandGroups : keeps_db.

Lemma hosts_Measurement db rp mst : keeps node_hosts (Measurement db rp mst).
Proof. unfold Measurement. keeps_auto. all: intros; apply put_mst_hosts. Qed.
#[local] Hint Resolve hosts_Measurement : keeps_db.

Lemma hosts_UpdateSchema db rp mst fs : keeps node_hosts (UpdateSchema db rp mst fs).
Proof. unfold UpdateSchema. keeps_auto. intros; apply put_mst_hosts. Qed.
#[local] Hint Resolve hosts_UpdateSchema : keeps_db.

Lemma hosts_createVersionMeasurement db rpn rp sk ir ski mst v e cs si o :
  keeps node_hosts (createVersionMeasurement db rpn rp sk ir ski mst v e cs si o).
Proof. unfold createVersionMeasurement. keeps_auto. all: intros; apply put_rp_hosts. Qed.
#[local] Hint Resolve hosts_createVersionMeasurement : keeps_db.

Lemma hosts_CreateMeasurement env db rpn mst sk ir e cs si o :
  keeps node_hosts (CreateMeasurement env db rpn mst sk ir e cs si o).
Proof. unfold CreateMeasurement. keeps_auto. Qed.

Lemma hosts_CreateShardGroup env db rp t tier e v :
  keeps node_hosts (CreateShardGroup env db rp t tier e v).
Proof.
  unfold CreateShardGroup, newShardGroup. keeps_auto.
  intros; apply put_rp_hosts.
Qed.

Lemma hosts_ReSharding info : keeps node_hosts (ReSharding info).
Proof. unfold ReSharding. keeps_auto. intros; apply put_rp_hosts. Qed.

Lemma hosts_DeleteShardGroup env db rp id : keeps node_hosts (DeleteShardGroup env db rp id).
Proof. unfold DeleteShardGroup. keeps_auto. intros; apply put_rp_hosts. Qed.

Lemma hosts_DeleteIndexGroup env db rp id : keeps node_hosts (DeleteIndexGroup env db rp id).
Proof. unfold DeleteIndexGroup. keeps_auto. intros; apply put_rp_hosts. Qed.

Lemma hosts_PruneGroups b id : keeps node_hosts (PruneGroups b id).
Proof. unfold PruneGroups, pruneShardGroups, pruneIndexGroups, walk_rps. keeps_auto. Qed.


Lemma hosts_CreateDatabase env n rpi sk eta rn o :
  keeps node_hosts (CreateDatabase env n rpi sk eta rn o).
Proof. unfold CreateDatabase, SetDatabase. keeps_auto. Qed.

Lemma hosts_dbPtAssigner p n : keeps node_hosts (dbPtAssigner p n).
Proof.
  destruct p; unfold dbPtAssigner, assignPtForWAF, assignPtForSS, assign_round_robin;
    keeps_auto.
Qed.
#[local] Hint Resolve hosts_dbPtAssigner : keeps_db.

Lemma hosts_CreateDBPtView env n : keeps node_hosts (CreateDBPtView env n).
Proof. unfold CreateDBPtView. keeps_auto. by destruct (PtView d). Qed.

Lemma hosts_CreateReplication db n : keeps node_hosts (CreateReplication db n).
Proof. unfold CreateReplication, createReplicationImp. keeps_auto. Qed.

Lemma hosts_UpdateReplication db a b ps st : keeps node_hosts (UpdateReplication db a b ps st).
Proof. unfold UpdateReplication. keeps_auto. Qed.

Lemma hosts_MarkDatabaseDelete name : keeps node_hosts (MarkDatabaseDelete name).
Proof. unfold MarkDatabaseDelete. keeps_auto. Qed.

Lemma hosts_DropDatabase name : keeps node_hosts (DropDatabase name).
Proof. unfold DropDatabase. keeps_auto. Qed.

Lemma hosts_users env c : user_op c = true → keeps node_hosts (apply env c).
Proof.
  destruct c; simpl; intros Hc; try done.
  - unfold CreateUser. keeps_auto.
  - unfold DropUser. keeps_auto.
  - unfold UpdateUser. keeps_auto.
  - unfold SetPrivilege. keeps_auto.
  - unfold SetAdminPrivilege. keeps_auto.
Qed.

Lemma hosts_UpdateNodeStatus env id st lt gp :
  keeps node_hosts (UpdateNodeStatus env id st lt gp).
Proof.
  intros d r d' H. unfold UpdateNodeStatus, updatePtViewStatus, DataNode_ in H. unfold_M.
  destruct (negb _); [by simplify_eq|].
  destruct (list_find _ _) as [[i dn]|] eqn:E; [|by simplify_eq].
  destruct (decide (lt < _)); [by simplify_eq|].
  destruct (decide (_ ∧ _)); [by simplify_eq|].
  simplify_eq. apply list_find_Some in E as (Hi & _ & _).
  unfold node_hosts. cbn [DataNodes set_DataNodes set_PtView].
  rewrite list_fmap_insert. apply list_insert_id.
  rewrite list_lookup_fmap, Hi. simpl. f_equal.
  by repeat destruct (decide _).
Qed.

Lemma mbind_inv {A B} (m : M A) (f : A → M B) d b d' :
  (m ≫= f) d = Some (b, d') → ∃ a d1, m d = Some (a, d1) ∧ f a d1 = Some (b, d').
Proof.
  unfold_M. destruct (m d) as [[a d1]|]; [|done]. intros H. by exists a, d1.
Qed.

(** [CreateDataNode] leaves the hosts alone or adds one that was not there. *)
Lemma CreateDataNode_hosts env host tcp role d r d' :
  CreateDataNode env host tcp role d = Some (r, d') →
  node_hosts d' = node_hosts d ∨
  ((tcp ∉ node_hosts d) ∧ node_hosts d' ≡ₚ node_hosts d ++ [tcp]).
Proof.
  intros H. unfold CreateDataNode in H.
  apply mbind_inv in H as (? & d1 & H1 & H). unfold modify in H1. simplify_eq.
  apply mbind_inv in H as (? & d1 & H1 & H). unfold get in H1. simplify_eq.
  cbn [DataNodes set_MaxConnID MaxConnID MetaNodes] in H.
  destruct (list_find _ (DataNodes d)) as [[i n]|] eqn:E.
  - left. unfold_M. simplify_eq. apply list_find_Some in E as (Hi & Hn & _).
    unfold node_hosts. cbn [DataNodes set_DataNodes set_MaxConnID].
    rewrite list_fmap_insert. apply list_insert_id. by rewrite list_lookup_fmap, Hi.
  - right. split.
    { apply list_find_None in E. intros Hin. apply list_elem_of_fmap in Hin as (n & Hn & Hin).
      by destruct (proj1 (Forall_forall _ _) E n Hin). }
    apply mbind_inv in H as (id & d2 & H2 & H).
    assert (node_hosts d2 = node_hosts d) as Hd2.
    { destruct (decide _); unfold_M; by simplify_eq. }
    apply mbind_inv in H as (? & d3 & H3 & H). unfold modify in H3. simplify_eq.
    match type of H with
    | ?m _ = _ => assert (keeps node_hosts m) as Hk
    end.
    { unfold initDataNodePtView. keeps_auto. }
    rewrite (Hk _ _ _ H). unfold node_hosts in *. cbn [DataNodes set_DataNodes].
    unfold sort_DataNodeInfos. rewrite merge_sort_Permutation, fmap_app, Hd2. done.
Qed.




(** ** Query id offsets, times, shard keys *)



(** X26. Times and their stored form.  A stored value read and stored
    again is the value.  A time stored and read again is the time,
    except the Unix epoch, which is stored as 0 and read back as the zero
    time. *)
Theorem time_roundtrip v :
  - 2 ^ 63 ≤ v < 2 ^ 63 →
  MarshalTime (UnmarshalTime v) = v ∧
  UnmarshalTime (MarshalTime v) = (if decide (v = 0) then zero_time else v).
Proof.
  intros Hv. unfold MarshalTime, UnmarshalTime, IsZero.
  assert (wrap_i64 v = v) as Hw.
  { unfold wrap_i64. rewrite Z.mod_small by lia. lia. }
  assert (v ≠ zero_time) as Hz by (unfold zero_time; lia).
  split.
  - destruct (decide (v = 0)) as [->|Hne].
    + by rewrite bool_decide_eq_true_2.
    + by rewrite bool_decide_eq_false_2.
  - rewrite bool_decide_eq_false_2 by done. by rewrite Hw.
Qed.

Lemma time_roundtrip_witness :
  MarshalTime (UnmarshalTime 0) = 0 ∧
  UnmarshalTime (MarshalTime 0) = (if decide (0 = 0) then zero_time else 0).
Proof. apply (time_roundtrip 0). lia. Defined.

(** X27. [ValidShardKey] accepts a list of keys exactly when no key is
    empty and no key equals the key after it.  Equal keys that are not
    neighbours are not looked for. *)
Theorem ValidShardKey_spec shardKeys :
  ValidShardKey shardKeys = None ↔
  Forall (λ k, k ≠ "") shardKeys ∧
  ∀ i a b, shardKeys !! i = Some a → shardKeys !! S i = Some b → a ≠ b.
Proof.
  induction shardKeys as [|k rest IH]; simpl.
  { split; [|done]. intros _. split; [constructor|]. intros i a b H. done. }
  destruct (decide (k = "")) as [->|Hk].
  { split; [done|]. intros [Hall _]. by inversion Hall. }
  destruct rest as [|k' rest'].
  { split; [|done]. intros _. split; [by repeat constructor|].
    intros i a b _ H. done. }
  destruct (decide (k = k')) as [->|Hne].
  { split; [done|]. intros [_ Hadj]. by destruct (Hadj 0%nat k' k'). }
  rewrite IH. split.
  - intros [Hall Hadj]. split; [by constructor|].
    intros [|i] a b Ha Hb; simpl in *; [by simplify_eq|]. by apply (Hadj i).
  - intros [Hall Hadj]. split; [by inversion Hall|].
    intros i a b Ha Hb. by apply (Hadj (S i)).
Qed.


(** ** Deleting a shard group *)

Lemma RetentionPolicy_put_rp db rp rpi rpi' d :
  RetentionPolicy db rp d = inr rpi → rp_MarkDeleted rpi' = false →
  RetentionPolicy db rp (put_rp db rp rpi' d) = inr rpi'.
Proof.
  unfold RetentionPolicy, GetDatabase, Database, GetRetentionPolicy, put_rp.
  destruct (Databases d !! db) as [dbi|] eqn:Hdb; [|done].
  destruct (db_MarkDeleted dbi) eqn:Hmark; [done|]. intros _ Hrpi'.
  cbn [Databases set_Databases]. rewrite lookup_insert_eq.
  change (db_MarkDeleted (set_db_RetentionPolicies ?v dbi)) with (db_MarkDeleted dbi).
  rewrite Hmark, db_RetentionPolicies_set, lookup_insert_eq. by rewrite Hrpi'.
Qed.

Lemma filter_id_other (l : list ShardGroupInfo) id :
  id ∉ sg_ID <$> l → filter (λ x, sg_ID x ≠ id) l = l.
Proof.
  induction l as [|x l IH]; [done|]. rewrite fmap_cons, not_elem_of_cons.
  intros [Hx Hl]. rewrite filter_cons_True by done. by rewrite IH.
Qed.

Lemma filter_insert_deleted (l : list ShardGroupInfo) i g g' :
  NoDup (sg_ID <$> l) → l !! i = Some g → sg_ID g' = sg_ID g → sg_Deleted g' = true →
  filter (λ x, sg_Deleted x = false) (<[i := g']> l)
  = filter (λ x, sg_ID x ≠ sg_ID g) (filter (λ x, sg_Deleted x = false) l).
Proof.
  revert i. induction l as [|x l IH]; intros i Hnd Hi Hid Hdel; [done|].
  rewrite fmap_cons in Hnd. apply NoDup_cons in Hnd as [Hx Hnd].
  destruct i as [|i]; simpl in Hi.
  - simplify_eq. change (<[0%nat := g']> (g :: l)) with (g' :: l).
    rewrite filter_cons_False by (by rewrite Hdel).
    assert (filter (λ x, sg_ID x ≠ sg_ID g) (filter (λ x, sg_Deleted x = false) l)
            = filter (λ x, sg_Deleted x = false) l) as Hrest.
    { apply filter_id_other. intros Hin. apply Hx.
      apply list_elem_of_fmap in Hin as (y & -> & Hy). apply list_elem_of_fmap.
      exists y. split; [done|]. by apply list_elem_of_filter in Hy as [_ Hy]. }
    destruct (decide (sg_Deleted g = false)).
    + rewrite (filter_cons_True (λ x, sg_Deleted x = false)) by done.
      rewrite filter_cons_False by (intros Hne; by apply Hne). by rewrite Hrest.
    + rewrite (filter_cons_False (λ x, sg_Deleted x = false)) by done. by rewrite Hrest.
  - change (<[S i := g']> (x :: l)) with (x :: <[i := g']> l).
    assert (sg_ID x ≠ sg_ID g) as Hne.
    { intros Heq. apply Hx. rewrite Heq. apply list_elem_of_fmap. exists g.
      split; [done|]. by apply list_elem_of_lookup_2 in Hi. }
    destruct (decide (sg_Deleted x = false)).
    + rewrite !(filter_cons_True (λ x, sg_Deleted x = false)) by done.
      rewrite filter_cons_True by done. by rewrite (IH i).
    + rewrite !(filter_cons_False (λ x, sg_Deleted x = false)) by done. by apply IH.
Qed.

(** X28. [DeleteShardGroup] hides a group without removing it.  In a
    policy whose groups have distinct ids, and with a clock that is not
    at the zero time, the call succeeds; afterwards [ShardGroups] lists
    the groups it listed before except the one with the id, while the
    policy still holds a group for every id it held. *)
Theorem DeleteShardGroup_hides env database policy id d rpi :
  now env ≠ zero_time →
  RetentionPolicy database policy d = inr rpi →
  NoDup (sg_ID <$> rp_ShardGroups rpi) →
  ∃ d' rpi',
    DeleteShardGroup env database policy id d = Some (None, d') ∧
    RetentionPolicy database policy d' = inr rpi' ∧
    sg_ID <$> rp_ShardGroups rpi' = sg_ID <$> rp_ShardGroups rpi ∧
    ShardGroups database policy d'
    = inr (filter (λ g, sg_ID g ≠ id)
             (filter (λ g, sg_Deleted g = false) (rp_ShardGroups rpi))).
Proof.
  intros Hnow HRP Hnd. unfold DeleteShardGroup. unfold_M. rewrite HRP.
  destruct (list_find _ _) as [[i g]|] eqn:Hfind.
  - apply list_find_Some in Hfind as (Hi & Hid & _).
    set (g' := set_sg_DeletedAt (now env) g).
    set (rpi' := set_rp_ShardGroups (<[i := g']> (rp_ShardGroups rpi)) rpi).
    assert (rp_MarkDeleted rpi' = false) as Hmark.
    { unfold RetentionPolicy, GetRetentionPolicy in HRP.
      destruct (GetDatabase database d) as [|dbi]; [done|].
      destruct (db_RetentionPolicies dbi !! policy) as [r|]; [|done].
      destruct (rp_MarkDeleted r) eqn:E; [done|]. by simplify_eq. }
    exists (put_rp database policy rpi' d), rpi'.
    split; [done|]. split; [by apply (RetentionPolicy_put_rp _ _ rpi)|].
    split.
    + unfold rpi'. destruct rpi. cbn. rewrite list_fmap_insert. apply list_insert_id.
      cbn in Hi. by rewrite list_lookup_fmap, Hi.
    + unfold ShardGroups. rewrite (RetentionPolicy_put_rp _ _ rpi) by done.
      f_equal. subst id.
      replace (rp_ShardGroups rpi') with (<[i := g']> (rp_ShardGroups rpi))
        by (unfold rpi'; by destruct rpi).
      apply filter_insert_deleted; [done..|].
      unfold sg_Deleted, IsZero, g'. destruct g. cbn.
      by rewrite bool_decide_eq_false_2.
  - exists d, rpi. split; [done|]. split; [done|]. split; [done|].
    unfold ShardGroups. rewrite HRP. f_equal. symmetry.
    apply list_find_None in Hfind. apply filter_id_other.
    intros Hin. apply list_elem_of_fmap in Hin as (y & -> & Hy).
    apply list_elem_of_filter in Hy as [_ Hy].
    by destruct (proj1 (Forall_forall _ _) Hfind y Hy).
Qed.

Lemma DeleteShardGroup_hides_witness :
  ∃ d' rpi',
    DeleteShardGroup plain_env "db0" "autogen" 1 after_S1 = Some (None, d') ∧
    RetentionPolicy "db0" "autogen" d' = inr rpi' ∧
    sg_ID <$> rp_ShardGroups rpi' = sg_ID <$> rp_ShardGroups policy_S1 ∧
    ShardGroups "db0" "autogen" d'
    = inr (filter (λ g, sg_ID g ≠ 1)
             (filter (λ g, sg_Deleted g = false) (rp_ShardGroups policy_S1))).
Proof.
  apply (DeleteShardGroup_hides plain_env "db0" "autogen" 1 after_S1 policy_S1).
  - vm_compute. discriminate.
  - vm_compute. reflexivity.
  - apply (bool_decide_unpack _). vm_compute. exact I.
Defined.


(** * Paths of the object store *)

Lemma Index_app (a b : list Ascii.ascii) :
  "/"%char ∉ a → FileOps.Index (a ++ "/"%char :: b) = Some (length a).
Proof.
  unfold FileOps.Index. induction a as [|x a IH]; intros Hin.
  - done.
  - apply not_elem_of_cons in Hin as [Hx Ha]. specialize (IH Ha).
    change ((x :: a) ++ "/"%char :: b) with (x :: (a ++ "/"%char :: b)).
    rewrite list_find_cons_eq. rewrite decide_False by (intros ->; done).
    destruct (list_find _ (a ++ _)) as [[i y]|]; simpl in *; [|done].
    by simplify_eq.
Qed.

(** What [decodeObsPath] does with one field followed by a slash. *)
Lemma field_split (a b : list Ascii.ascii) :
  "/"%char ∉ a →
  FileOps.Index (a ++ ["/"%char] ++ b) = Some (length a) ∧
  take (length a) (a ++ ["/"%char] ++ b) = a ∧
  drop (length a + 1) (a ++ ["/"%char] ++ b) = b.
Proof.
  intros Ha. split; [by apply Index_app|]. split.
  - by rewrite take_app_length.
  - rewrite (assoc_L (++)). rewrite drop_app_length'; [done|].
    rewrite length_app. simpl. lia.
Qed.

(** X29. An object-store path decodes to what it was encoded from, as
    long as the endpoint, the two keys and the bucket hold no slash (the
    base path may); and [GetFsType] takes the encoded path for an
    object-store path. *)
Theorem obs_path_roundtrip (endpoint bucket path ak sk : list Ascii.ascii) :
  "/"%char ∉ endpoint → "/"%char ∉ ak → "/"%char ∉ sk → "/"%char ∉ bucket →
  FileOps.decodeObsPath (FileOps.EncodeObsPath endpoint bucket path ak sk)
  = Some (inr (endpoint, ak, sk, bucket, path)) ∧
  FileOps.GetFsType (FileOps.EncodeObsPath endpoint bucket path ak sk) = FileOps.Obs.
Proof.
  intros He Ha Hs Hb. split.
  - unfold FileOps.decodeObsPath, FileOps.EncodeObsPath.
    rewrite decide_False by (rewrite length_app; lia).
    rewrite drop_app_length. cbv zeta.
    destruct (field_split endpoint (ak ++ ["/"%char] ++ sk ++ ["/"%char] ++ bucket ++
                                    ["/"%char] ++ path) He) as (-> & -> & ->).
    destruct (field_split ak (sk ++ ["/"%char] ++ bucket ++ ["/"%char] ++ path) Ha)
      as (-> & -> & ->).
    destruct (field_split sk (bucket ++ ["/"%char] ++ path) Hs) as (-> & -> & ->).
    destruct (field_split bucket path Hb) as (-> & -> & ->).
    done.
  - unfold FileOps.EncodeObsPath, FileOps.GetFsType.
    change (FileOps.ObsPrefix ++ ?l)
      with ("o"%char :: "b"%char :: "s"%char :: ":"%char :: "/"%char :: "/"%char :: l).
    cbv beta iota.
    unfold FileOps.HasPrefix. rewrite bool_decide_eq_true_2; [done|].
    split; [simpl; lia | done].
Qed.

Lemma obs_path_roundtrip_witness :
  FileOps.decodeObsPath
    (FileOps.EncodeObsPath (String.list_ascii_of_string "obs.example.com")
       (String.list_ascii_of_string "bucket0") (String.list_ascii_of_string "data/db0/0/wal")
       (String.list_ascii_of_string "AK") (String.list_ascii_of_string "SK"))
  = Some (inr (String.list_ascii_of_string "obs.example.com", String.list_ascii_of_string "AK",
               String.list_ascii_of_string "SK", String.list_ascii_of_string "bucket0",
               String.list_ascii_of_string "data/db0/0/wal")) ∧
  FileOps.GetFsType
    (FileOps.EncodeObsPath (String.list_ascii_of_string "obs.example.com")
       (String.list_ascii_of_string "bucket0") (String.list_ascii_of_string "data/db0/0/wal")
       (String.list_ascii_of_string "AK") (String.list_ascii_of_string "SK")) = FileOps.Obs.
Proof.
  apply (obs_path_roundtrip (String.list_ascii_of_string "obs.example.com")
           (String.list_ascii_of_string "bucket0") (String.list_ascii_of_string "data/db0/0/wal")
           (String.list_ascii_of_string "AK") (String.list_ascii_of_string "SK"));
    apply (bool_decide_unpack _); vm_compute; exact I.
Defined.


(** ** A node joins before any view exists *)

Lemma updatePtStatus_nil db ptId nodeId status d :
  PtView d = None → updatePtStatus db ptId nodeId status d = None.
Proof.
  intros Hnil. unfold updatePtStatus. unfold_M. rewrite Hnil. cbn [mbind option_bind].
  by destruct (_ !! Z.to_nat ptId).
Qed.

Lemma expandDBPtView_nil db ptNum dn d :
  PtView d = None → 0 < ptNum < 2 ^ 32 → expandDBPtView db ptNum dn d = None.
Proof.
  intros Hnil Hn. unfold expandDBPtView, DBReplicaN, DBPtView. unfold_M.
  rewrite Hnil. cbn [mbind option_bind default length].
  change (wrap32 (Z.of_nat 0)) with 0.
  rewrite decide_False by lia. rewrite decide_False by lia.
  destruct (Databases d !! db); [|done]. cbv beta iota.
  destruct (Z.to_nat (ptNum - 0)) as [|k] eqn:Hk; [lia|].
  cbn [seq forM_ Z.to_nat]. unfold_M.
  by rewrite updatePtStatus_nil.
Qed.

(** X30. [CreateDataNode] needs the views to exist.  In a catalog that
    is ready, holds a database and has no pt-view map yet, a writer with
    an unknown TCP host cannot join: growing the view of the first
    database writes to the nil map, and the call panics. *)
Theorem CreateDataNode_without_views env host tcpHost role d :
  PtView d = None → Databases d ≠ ∅ → 0 < ClusterPtNum d < 2 ^ 32 →
  role ≠ NodeReader →
  list_find (λ n, dn_TCPHost n = tcpHost) (DataNodes d) = None →
  CreateDataNode env host tcpHost role d = None.
Proof.
  intros Hnil Hdbs Hn Hrole Hfind.
  destruct (CreateDataNode env host tcpHost role d) as [[r d']|] eqn:H; [exfalso|done].
  unfold CreateDataNode in H.
  apply mbind_inv in H as (? & d1 & H1 & H). unfold modify in H1. simplify_eq.
  apply mbind_inv in H as (? & d1 & H1 & H). unfold get in H1. simplify_eq.
  cbn [DataNodes set_MaxConnID MaxConnID MetaNodes] in H. rewrite Hfind in H.
  apply mbind_inv in H as (id & d2 & H2 & H).
  assert (PtView d2 = None ∧ Databases d2 = Databases d ∧ ClusterPtNum d2 = ClusterPtNum d)
    as (Hnil2 & Hdb2 & Hn2).
  { destruct (decide _); unfold_M; by simplify_eq. }
  clear H2.
  apply mbind_inv in H as (? & d3 & H3 & H). unfold modify in H3. simplify_eq.
  apply mbind_inv in H as (? & d3 & H3 & H). unfold get in H3. simplify_eq.
  apply mbind_inv in H as (? & d4 & H4 & H).
  assert (PtView d4 = None ∧ Databases d4 = Databases d ∧ 0 < ClusterPtNum d4 < 2 ^ 32)
    as (Hnil4 & Hdb4 & Hn4).
  { unfold initDataNodePtView in H4. unfold_M.
    destruct (decide (_ < _)) as [Hlt|_]; simplify_eq.
    - split; [done|]. split; [done|]. cbn [ClusterPtNum set_ClusterPtNum].
      change (ClusterPtNum (set_DataNodes ?v d2)) with (ClusterPtNum d2) in Hlt.
      rewrite Hn2 in Hlt. split; [lia | apply Z.mod_pos_bound; lia].
    - split; [done|]. split; [done|].
      change (ClusterPtNum (set_DataNodes ?v d2)) with (ClusterPtNum d2).
      by rewrite Hn2. }
  rewrite decide_False in H by done.
  apply mbind_inv in H as (? & d5 & H5 & H). unfold get in H5. simplify_eq.
  apply mbind_inv in H as (? & d6 & Hloop & H).
  destruct (map_to_list (Databases d5)) as [|[db dbi] l] eqn:Hl.
  { apply map_to_list_empty_iff in Hl. rewrite Hdb4 in Hl. done. }
  cbn [fmap list_fmap forM_ fst] in Hloop.
  apply mbind_inv in Hloop as (? & d7 & Hx & _).
  apply mbind_inv in Hx as (? & d8 & Hg & Hx). unfold get in Hg. simplify_eq.
  by rewrite expandDBPtView_nil in Hx.
Qed.

Lemma CreateDataNode_without_views_witness :
  CreateDataNode plain_env "h2:8086" "h2:8400" "writer" before_view = None.
Proof.
  apply (CreateDataNode_without_views plain_env "h2:8086" "h2:8400" "writer" before_view).
  - vm_compute. reflexivity.
  - intros Hempty. assert (size (Databases before_view) = 0%nat) as Hsize
      by (by rewrite Hempty). vm_compute in Hsize. discriminate.
  - vm_compute. split; reflexivity.
  - vm_compute. discriminate.
  - vm_compute. reflexivity.
Defined.

End Meta.
